(** * Task Genie work-item agent: the decomposition engine

    A shallow embedding of [services/bedrock_service.py] and
    [tools/bedrock_tools.py] of the work-item agent, with the image
    download of [services/azure_service.py], and the properties of
    the type-hierarchy resolver, the knowledge-retrieval adapter, the prompt
    assembler, the multi-modal content builder and the response parser.

    Conventions of the embedding.
    - A Python [str] is a [string] that holds the UTF-8 encoding of the
      text, one [ascii] for each unit.  [len], iteration and the slices
      [[:n]] of a text count characters: [characters], [char_len] and
      [chars_upto].  The positions that [find] and [rfind] give, and the
      slice between them, are counted in units; they are those of a
      brace, which is one unit, so the text between them is the same.
    - A Python [int] is a [Z], a [float] a binary64 [float].
    - A [dict] is an association list in insertion order with unique keys.
    - An exception is a value of [exn]; code that may raise returns a
      [result]; code that calls a collaborator runs in [io], which also
      records every call made.
    - A collaborator answers by its request alone: the clients are
      functions, and the calls made to them are kept in a record.
    - Logging has no effect on results and is left out, except where the
      arguments of a log call are evaluated and that evaluation can raise. *)

From Stdlib Require Import String Ascii List ZArith Lia Bool Floats.
From Stdlib Require Import Strings.Byte.
From Stdlib Require Import DecimalString.
Import ListNotations.

Set Warnings "-register-all".

Local Open Scope string_scope.
Local Open Scope Z_scope.

(** ** Python values and the builtins the service relies on *)

Module Py.

(** The values a JSON document, a work item or a model response is made of. *)
Inductive pyval : Type :=
| PNone
| PBool (b : bool)
| PInt (z : Z)
| PFloat (x : float)
| PStr (s : string)
| PList (l : list pyval)
| PDict (d : list (string * pyval)).

Definition dict : Type := list (string * pyval).

(** Exceptions, all of them subclasses of [Exception]. *)
Inductive exn : Type :=
| Exception (msg : string)
| KeyError (key_repr : string)
| TypeError (msg : string)
| AttributeError (msg : string)
| ValueError (msg : string)
| ClientError (cls msg : string).

(** [str(e)] *)
Definition exn_str (e : exn) : string :=
  match e with
  | Exception m | TypeError m | AttributeError m | ValueError m => m
  | KeyError k => k
  | ClientError _ m => m
  end.

Inductive result (A : Type) : Type :=
| Raise (e : exn)
| Return (a : A).
Arguments Raise {A} e.
Arguments Return {A} a.

Definition rbind {A B} (m : result A) (k : A -> result B) : result B :=
  match m with
  | Raise e => Raise e
  | Return a => k a
  end.

(** The double quote, for the string constants that hold one. *)
Definition dq : string := String (ascii_of_nat 34) EmptyString.
(** The line feed. *)
Definition nl : string := String (ascii_of_nat 10) EmptyString.

Definition str_eqb (a b : string) : bool := String.eqb a b.

Definition str_len (s : string) : Z := Z.of_nat (String.length s).

Definition str_of_Z (z : Z) : string := NilZero.string_of_int (Z.to_int z).

(** *** Dictionaries *)

(** [d.get(k)], [None] of Rocq standing for an absent key. *)
Fixpoint dict_lookup (d : dict) (k : string) : option pyval :=
  match d with
  | [] => None
  | (k', v) :: d' => if str_eqb k k' then Some v else dict_lookup d' k
  end.

(** [d.get(k, default)] *)
Definition dict_get (d : dict) (k : string) (default : pyval) : pyval :=
  match dict_lookup d k with
  | Some v => v
  | None => default
  end.

(** [k in d] *)
Definition dict_has (d : dict) (k : string) : bool :=
  match dict_lookup d k with Some _ => true | None => false end.

Definition repr_key (k : string) : string := "'" ++ k ++ "'".

(** [d[k]], a [KeyError] when the key is absent. *)
Definition dict_item (d : dict) (k : string) : result pyval :=
  match dict_lookup d k with
  | Some v => Return v
  | None => Raise (KeyError (repr_key k))
  end.

(** [d[k] = v]: the value is replaced in place when the key exists, and the
    pair is added at the end otherwise. *)
Fixpoint dict_set (d : dict) (k : string) (v : pyval) : dict :=
  match d with
  | [] => [(k, v)]
  | (k', v') :: d' =>
      if str_eqb k k' then (k', v) :: d' else (k', v') :: dict_set d' k v
  end.

(** *** Truth value, type names *)

Definition float_is_zero (x : float) : bool := PrimFloat.eqb x 0%float.

(** [bool(v)] *)
Definition truthy (v : pyval) : bool :=
  match v with
  | PNone => false
  | PBool b => b
  | PInt z => negb (z =? 0)
  | PFloat x => negb (float_is_zero x)
  | PStr s => negb (str_eqb s "")
  | PList l => match l with [] => false | _ => true end
  | PDict d => match d with [] => false | _ => true end
  end.

Definition type_name (v : pyval) : string :=
  match v with
  | PNone => "NoneType"
  | PBool _ => "bool"
  | PInt _ => "int"
  | PFloat _ => "float"
  | PStr _ => "str"
  | PList _ => "list"
  | PDict _ => "dict"
  end.

(** [v == "literal"] *)
Definition eq_str (v : pyval) (lit : string) : bool :=
  match v with
  | PStr s => str_eqb s lit
  | _ => false
  end.

(** [v.get(k, default)]: only a dict has the method. *)
Definition get (v : pyval) (k : string) (default : pyval) : result pyval :=
  match v with
  | PDict d => Return (dict_get d k default)
  | _ => Raise (AttributeError
                  ("'" ++ type_name v ++ "' object has no attribute 'get'"))
  end.

(** *** Characters

    A character is a unit that starts one, followed by the units that
    continue it, which are those of the form [10xxxxxx]. *)

Definition is_continuation (c : ascii) : bool :=
  let n := Z.of_nat (nat_of_ascii c) in
  (128 <=? n) && (n <? 192).

(** The units at the start of [s] that continue a character, and the
    characters after them. *)
Fixpoint characters_go (s : string) : string * list string :=
  match s with
  | EmptyString => (EmptyString, [])
  | String c t =>
      let '(k, l) := characters_go t in
      if is_continuation c then (String c k, l)
      else (EmptyString, String c k :: l)
  end.

(** The characters of a text, in their order.  Units at the start that
    continue no character, which no text has, count as one. *)
Definition characters (s : string) : list string :=
  let '(k, l) := characters_go s in
  match k with
  | EmptyString => l
  | _ => k :: l
  end.

(** [len(s)] of a text: the number of its characters. *)
Definition char_len (s : string) : Z := Z.of_nat (List.length (characters s)).

(** [len(v)] *)
Definition len (v : pyval) : result Z :=
  match v with
  | PStr s => Return (char_len s)
  | PList l => Return (Z.of_nat (List.length l))
  | PDict d => Return (Z.of_nat (List.length d))
  | _ => Raise (TypeError
                  ("object of type '" ++ type_name v ++ "' has no len()"))
  end.

(** Iteration, as [for x in v] and [enumerate(v)] see it: a text gives its
    characters. *)
Definition chars (s : string) : list pyval := map PStr (characters s).

Definition iter (v : pyval) : result (list pyval) :=
  match v with
  | PList l => Return l
  | PStr s => Return (chars s)
  | PDict d => Return (map (fun kv => PStr (fst kv)) d)
  | _ => Raise (TypeError
                  ("'" ++ type_name v ++ "' object is not iterable"))
  end.

(** *** Strings *)

(** [sub in s] *)
Fixpoint str_contains (sub s : string) : bool :=
  if String.prefix sub s then true
  else match s with
       | EmptyString => false
       | String _ t => str_contains sub t
       end.

(** [s.find(sub)], counting from [i]: the lowest index, or [-1]. *)
Fixpoint find_from (sub s : string) (i : Z) : Z :=
  if String.prefix sub s then i
  else match s with
       | EmptyString => -1
       | String _ t => find_from sub t (i + 1)
       end.

Definition str_find (s sub : string) : Z := find_from sub s 0.

(** [s.rfind(sub)], counting from [i]: the highest index, or [-1]. *)
Fixpoint rfind_from (sub s : string) (i : Z) : Z :=
  match s with
  | EmptyString => if String.prefix sub s then i else -1
  | String _ t =>
      let r := rfind_from sub t (i + 1) in
      if r =? -1 then (if String.prefix sub s then i else -1) else r
  end.

Definition str_rfind (s sub : string) : Z := rfind_from sub s 0.

(** A slice bound, as Python normalises it: a negative bound counts from
    the end, and the result is clamped to the length. *)
Definition clamp (n i : Z) : Z :=
  let j := if i <? 0 then i + n else i in
  Z.max 0 (Z.min n j).

(** [s[lo:hi]] *)
Definition str_slice (s : string) (lo hi : Z) : string :=
  let n := str_len s in
  let a := clamp n lo in
  let b := clamp n hi in
  String.substring (Z.to_nat a) (Z.to_nat (b - a)) s.

(** [l[:hi]] *)
Definition list_upto {A} (l : list A) (hi : Z) : list A :=
  firstn (Z.to_nat (clamp (Z.of_nat (List.length l)) hi)) l.

(** [sep.join(parts)] *)
Definition join (sep : string) (parts : list string) : string :=
  String.concat sep parts.

(** [s[:hi]] of a text: its first characters. *)
Definition chars_upto (s : string) (hi : Z) : string :=
  join "" (list_upto (characters s) hi).

(** [enumerate(l)], from 0. *)
Fixpoint enumerate_from {A} (i : Z) (l : list A) : list (Z * A) :=
  match l with
  | [] => []
  | x :: t => (i, x) :: enumerate_from (i + 1) t
  end.

Definition enumerate {A} (l : list A) : list (Z * A) := enumerate_from 0 l.

(** [a + b] on the operands the service adds: strings. *)
Definition str_add (a : string) (b : pyval) : result string :=
  match b with
  | PStr s => Return (a ++ s)
  | _ => Raise (TypeError
        ("can only concatenate str (not " ++ dq ++ type_name b ++ dq
         ++ ") to str"))
  end.

(** [re.sub(r'<[^>]*>', '', s)]: every stretch from a ['<'] to the next
    ['>'] is removed; a ['<'] with no ['>'] after it stays. *)
Fixpoint strip_tags_go (inside : bool) (s : string) : string :=
  match s with
  | EmptyString => EmptyString
  | String c t =>
      if inside then
        (if Ascii.eqb c ">" then strip_tags_go false t
         else strip_tags_go true t)
      else if Ascii.eqb c "<" && str_contains ">" t then strip_tags_go true t
      else String c (strip_tags_go false t)
  end.

Definition strip_tags (s : string) : string := strip_tags_go false s.

(** [x in v] *)
Fixpoint list_has_str (l : list pyval) (x : string) : bool :=
  match l with
  | [] => false
  | v :: t => eq_str v x || list_has_str t x
  end.

Definition contains (v : pyval) (x : string) : result bool :=
  match v with
  | PList l => Return (list_has_str l x)
  | PStr s => Return (str_contains x s)
  | PDict d => Return (dict_has d x)
  | _ => Raise (TypeError
                  ("argument of type '" ++ type_name v ++ "' is not iterable"))
  end.

End Py.

(** ** The library functions, as concrete programs

    The service calls [json.loads], [json.dumps], [repr] and
    [base64.b64decode].  The service functions below take them as
    arguments; this module gives the executable versions that the worked
    inputs are run with. *)

Module Lib.
Import Py.

(** *** Floats and their text *)

(** [float(lit)] for a decimal literal [sign digits 10^e10], rounded to the
    nearest binary64 value. *)
Definition float_of_decimal (neg : bool) (m e10 : Z) : float :=
  if m =? 0 then (if neg then neg_zero else zero)
  else
    let sm := if neg then - m else m in
    if 0 <=? e10 then
      SF2Prim (binary_normalize prec emax (sm * 10 ^ e10) 0 false)
    else
      let d := 10 ^ (- e10) in
      let k := Z.max 0 (Z.log2 d + 66 - Z.log2 m) in
      let q := (m * 2 ^ k) / d in
      let sticky := if (m * 2 ^ k) mod d =? 0 then 0 else 1 in
      let q' := 2 * q + sticky in
      SF2Prim (binary_normalize prec emax (if neg then - q' else q')
                 (- (k + 1)) false).

Definition digit_val (c : ascii) : option Z :=
  let n := Z.of_nat (nat_of_ascii c) in
  if (48 <=? n) && (n <=? 57) then Some (n - 48) else None.

Definition hex_val (c : ascii) : option Z :=
  let n := Z.of_nat (nat_of_ascii c) in
  if (48 <=? n) && (n <=? 57) then Some (n - 48)
  else if (97 <=? n) && (n <=? 102) then Some (n - 87)
  else if (65 <=? n) && (n <=? 70) then Some (n - 55)
  else None.

(** The leading digits of [s], as a number, how many they are, and the
    rest of [s]. *)
Fixpoint read_digits (s : string) (acc count : Z) : Z * Z * string :=
  match s with
  | EmptyString => (acc, count, s)
  | String c t =>
      match digit_val c with
      | Some d => read_digits t (10 * acc + d) (count + 1)
      | None => (acc, count, s)
      end
  end.

Fixpoint zeros (n : nat) : string :=
  match n with O => EmptyString | S n' => String "0" (zeros n') end.

Definition pad_left (width : Z) (s : string) : string :=
  zeros (Z.to_nat (width - str_len s)) ++ s.

(** The digits of a number, without the zeros at its end. *)
Fixpoint strip_zeros_rev (s : list ascii) : list ascii :=
  match s with
  | c :: t => if Ascii.eqb c "0" then strip_zeros_rev t else s
  | [] => []
  end.

Definition strip_trailing_zeros (s : string) : string :=
  string_of_list_ascii
    (rev (strip_zeros_rev (rev (list_ascii_of_string s)))).

(** [m * 2^e * 10^k] as a fraction: its numerator and its denominator. *)
Definition scaled (m e k : Z) : Z * Z :=
  (m * 2 ^ Z.max e 0 * 10 ^ Z.max k 0, 2 ^ Z.max (- e) 0 * 10 ^ Z.max (- k) 0).

(** [10^p <= m * 2^e] *)
Definition reaches (m e p : Z) : bool :=
  let '(num, den) := scaled m e (- p) in den <=? num.

(** The number of digits of the integral part of [m * 2^e]: the [p] with
    [10^(p-1) <= m * 2^e < 10^p], from an estimate that is at most two off. *)
Definition decimal_point (m e : Z) : Z :=
  let p := (Z.log2 m + e) * 30103 / 100000 in
  let p := if reaches m e p then p else p - 1 in
  let p := if reaches m e p then p else p - 1 in
  let p := if reaches m e (p + 1) then p + 1 else p in
  let p := if reaches m e (p + 1) then p + 1 else p in
  p + 1.

(** The shortest number of at least [n] digits that reads back as
    [x = m * 2^e] when it is scaled by [10^(p-n)], and, of the numbers of
    that length that do, the nearest to [x], the even one on a tie; with
    its number of digits.  Seventeen digits are always enough. *)
Fixpoint shortest_digits (fuel : nat) (x : float) (m e p n : Z) : Z * Z :=
  let '(num, den) := scaled m e (n - p) in
  let lo := num / den in
  let r := num mod den in
  let reads d := PrimFloat.eqb (float_of_decimal false d (p - n)) x in
  let nearest :=
    if 2 * r <? den then lo
    else if den <? 2 * r then lo + 1
    else if Z.even lo then lo else lo + 1 in
  let found :=
    if r =? 0 then Some lo
    else
      match reads lo, reads (lo + 1) with
      | true, true => Some nearest
      | true, false => Some lo
      | false, true => Some (lo + 1)
      | false, false => None
      end in
  match found, fuel with
  | Some d, _ => (d, n)
  | None, S fuel' => shortest_digits fuel' x m e p (n + 1)
  | None, O => (nearest, n)
  end.

(** [repr(x)] of a float: the shortest digits that read back as [x],
    written with a fraction, or with an exponent when [x] is at least
    [1e16] or below [1e-4]. *)
Definition float_text (x : float) : string :=
  match Prim2SF x with
  | S754_nan => "nan"
  | S754_infinity s => if s then "-inf" else "inf"
  | S754_zero s => if s then "-0.0" else "0.0"
  | S754_finite s m e =>
      let sign := if s then "-" else "" in
      let p := decimal_point (Zpos m) e in
      let '(d, n) := shortest_digits 16 (abs x) (Zpos m) e p 1 in
      let all := str_of_Z d in
      let decpt := p + (str_len all - n) in
      let digits := strip_trailing_zeros all in
      let len := str_len digits in
      if (decpt <=? -4) || (16 <? decpt) then
        let exponent := decpt - 1 in
        sign ++ substring 0 1 digits
        ++ (if 1 <? len
            then "." ++ substring 1 (String.length digits - 1) digits
            else "")
        ++ "e" ++ (if exponent <? 0 then "-" else "+")
        ++ pad_left 2 (str_of_Z (Z.abs exponent))
      else if decpt <=? 0 then
        sign ++ "0." ++ zeros (Z.to_nat (- decpt)) ++ digits
      else if len <=? decpt then
        sign ++ digits ++ zeros (Z.to_nat (decpt - len)) ++ ".0"
      else
        sign ++ substring 0 (Z.to_nat decpt) digits ++ "."
        ++ substring (Z.to_nat decpt) (Z.to_nat (len - decpt)) digits
  end.

(** *** [json.loads] *)

(** The UTF-8 text of a code point. *)
Definition chr (n : Z) : string :=
  String (ascii_of_nat (Z.to_nat n)) EmptyString.

Definition utf8 (cp : Z) : string :=
  if cp <? 128 then chr cp
  else if cp <? 2048 then chr (192 + cp / 64) ++ chr (128 + cp mod 64)
  else if cp <? 65536 then
    chr (224 + cp / 4096) ++ chr (128 + (cp / 64) mod 64)
    ++ chr (128 + cp mod 64)
  else
    chr (240 + cp / 262144) ++ chr (128 + (cp / 4096) mod 64)
    ++ chr (128 + (cp / 64) mod 64) ++ chr (128 + cp mod 64).

Definition is_high_surrogate (n : Z) : bool := (55296 <=? n) && (n <=? 56319).
Definition is_low_surrogate (n : Z) : bool := (56320 <=? n) && (n <=? 57343).

Inductive token : Type :=
| TLBrace | TRBrace | TLBrack | TRBrack | TColon | TComma
| TString (s : string)
| TWord (w : string).

(** The scanner reads one character at a time.  Inside a string it keeps the
    text read so far and a high surrogate that still waits for its pair. *)
Inductive lstate : Type :=
| LDefault
| LWord (acc : string)
| LStr (acc : string) (pending : option Z)
| LEsc (acc : string) (pending : option Z)
| LUni (acc : string) (pending : option Z) (digits : list Z).

Definition flush (acc : string) (pending : option Z) : string :=
  match pending with
  | Some h => acc ++ utf8 h
  | None => acc
  end.

Definition is_space (c : ascii) : bool :=
  let n := nat_of_ascii c in
  (Nat.eqb n 32 || Nat.eqb n 9 || Nat.eqb n 10 || Nat.eqb n 13)%bool.

Definition is_word_char (c : ascii) : bool :=
  let n := Z.of_nat (nat_of_ascii c) in
  ((48 <=? n) && (n <=? 57)) || ((65 <=? n) && (n <=? 90))
  || ((97 <=? n) && (n <=? 122)) || (n =? 43) || (n =? 45) || (n =? 46).

Definition simple_escape (c : ascii) : option string :=
  let n := nat_of_ascii c in
  if Nat.eqb n 34 then Some dq
  else if Ascii.eqb c "\" then Some "\"
  else if Ascii.eqb c "/" then Some "/"
  else if Ascii.eqb c "b" then Some (chr 8)
  else if Ascii.eqb c "f" then Some (chr 12)
  else if Ascii.eqb c "n" then Some (chr 10)
  else if Ascii.eqb c "r" then Some (chr 13)
  else if Ascii.eqb c "t" then Some (chr 9)
  else None.

(** A character met outside strings and words. *)
Definition lex_default (c : ascii) (toks : list token)
  : option (lstate * list token) :=
  if is_space c then Some (LDefault, toks)
  else if Ascii.eqb c "{" then Some (LDefault, TLBrace :: toks)
  else if Ascii.eqb c "}" then Some (LDefault, TRBrace :: toks)
  else if Ascii.eqb c "[" then Some (LDefault, TLBrack :: toks)
  else if Ascii.eqb c "]" then Some (LDefault, TRBrack :: toks)
  else if Ascii.eqb c ":" then Some (LDefault, TColon :: toks)
  else if Ascii.eqb c "," then Some (LDefault, TComma :: toks)
  else if Nat.eqb (nat_of_ascii c) 34 then Some (LStr "" None, toks)
  else if is_word_char c then Some (LWord (String c ""), toks)
  else None.

Definition unicode_escape (acc : string) (pending : option Z) (cp : Z)
  : lstate :=
  match pending with
  | Some h =>
      if is_low_surrogate cp then
        LStr (acc ++ utf8 (65536 + (h - 55296) * 1024 + (cp - 56320))) None
      else if is_high_surrogate cp then LStr (acc ++ utf8 h) (Some cp)
      else LStr (acc ++ utf8 h ++ utf8 cp) None
  | None =>
      if is_high_surrogate cp then LStr acc (Some cp)
      else LStr (acc ++ utf8 cp) None
  end.

Definition lex_step (st : lstate) (c : ascii) (toks : list token)
  : option (lstate * list token) :=
  match st with
  | LDefault => lex_default c toks
  | LWord acc =>
      if is_word_char c then Some (LWord (acc ++ String c ""), toks)
      else lex_default c (TWord acc :: toks)
  | LStr acc p =>
      if Nat.eqb (nat_of_ascii c) 34 then
        Some (LDefault, TString (flush acc p) :: toks)
      else if Ascii.eqb c "\" then Some (LEsc acc p, toks)
      else if Nat.ltb (nat_of_ascii c) 32 then None
      else Some (LStr (flush acc p ++ String c "") None, toks)
  | LEsc acc p =>
      if Ascii.eqb c "u" then Some (LUni acc p [], toks)
      else match simple_escape c with
           | Some s => Some (LStr (flush acc p ++ s) None, toks)
           | None => None
           end
  | LUni acc p ds =>
      match hex_val c with
      | None => None
      | Some d =>
          match ds with
          | [d1; d2; d3] =>
              Some (unicode_escape acc p (((d1 * 16 + d2) * 16 + d3) * 16 + d),
                    toks)
          | _ => Some (LUni acc p (ds ++ [d]), toks)
          end
      end
  end.

(** The tokens of a text, last token first; [None] when the text cannot
    be split into tokens. *)
Fixpoint lex (st : lstate) (toks : list token) (s : string)
  : option (list token) :=
  match s with
  | EmptyString =>
      match st with
      | LDefault => Some toks
      | LWord acc => Some (TWord acc :: toks)
      | _ => None
      end
  | String c t =>
      match lex_step st c toks with
      | Some (st', toks') => lex st' toks' t
      | None => None
      end
  end.

(** A number: an optional minus sign; an integer part that is a single 0
    or starts with a digit other than 0; an optional fraction, a dot and
    at least one digit; an optional exponent, e or E, an optional sign
    and at least one digit.  It is an integer when it has neither
    fraction nor exponent. *)
Definition number_of_word (parse_float : string -> float) (w : string)
  : option pyval :=
  let '(neg, body) :=
    match w with
    | String "-" t => (true, t)
    | _ => (false, w)
    end in
  let '(ip, icount, rest) := read_digits body 0 0 in
  let leading_zero :=
    match body with String "0" _ => 1 <? icount | _ => false end in
  if (icount =? 0) || leading_zero then None
  else
    let frac :=
      match rest with
      | String "." t =>
          let '(_, fcount, rest') := read_digits t 0 0 in
          if fcount =? 0 then None else Some (true, rest')
      | _ => Some (false, rest)
      end in
    match frac with
    | None => None
    | Some (has_frac, rest1) =>
        let expo :=
          match rest1 with
          | String c t =>
              if Ascii.eqb c "e" || Ascii.eqb c "E" then
                let t' := match t with
                          | String "+" u | String "-" u => u
                          | _ => t
                          end in
                let '(_, ecount, rest2) := read_digits t' 0 0 in
                if ecount =? 0 then None else Some (true, rest2)
              else Some (false, rest1)
          | EmptyString => Some (false, rest1)
          end in
        match expo with
        | Some (has_exp, EmptyString) =>
            if has_frac || has_exp then Some (PFloat (parse_float w))
            else Some (PInt (if neg then - ip else ip))
        | _ => None
        end
    end.

Definition value_of_word (parse_float : string -> float) (w : string)
  : option pyval :=
  if str_eqb w "true" then Some (PBool true)
  else if str_eqb w "false" then Some (PBool false)
  else if str_eqb w "null" then Some PNone
  else if str_eqb w "NaN" then Some (PFloat nan)
  else if str_eqb w "Infinity" then Some (PFloat infinity)
  else if str_eqb w "-Infinity" then Some (PFloat neg_infinity)
  else number_of_word parse_float w.

(** [float(w)] for a JSON number literal. *)
Definition decimal_float (w : string) : float :=
  let '(neg, body) :=
    match w with
    | String "-" t => (true, t)
    | _ => (false, w)
    end in
  let '(ip, _, rest) := read_digits body 0 0 in
  let '(m, fcount, rest1) :=
    match rest with
    | String "." t => read_digits t ip 0
    | _ => (ip, 0, rest)
    end in
  let e :=
    match rest1 with
    | String _ (String "-" t) => - fst (fst (read_digits t 0 0))
    | String _ (String "+" t) => fst (fst (read_digits t 0 0))
    | String _ t => fst (fst (read_digits t 0 0))
    | EmptyString => 0
    end in
  float_of_decimal neg m (e - fcount).

(** The parser keeps the containers that are still open, innermost first:
    an array with its items (last first), an object with its pairs and the
    key whose value is being read. *)
Inductive frame : Type :=
| FArr (items : list pyval)
| FObj (d : dict) (key : option string).

(** What may come next. *)
Inductive pmode : Type :=
| MValue        (* a value *)
| MArrFirst     (* a value, or the end of an empty array *)
| MArrNext      (* a comma, or the end of the array *)
| MObjFirst     (* a key, or the end of an empty object *)
| MObjKey       (* a key *)
| MObjColon     (* the colon after a key *)
| MObjNext      (* a comma, or the end of the object *)
| MDone (v : pyval).

Definition pstate : Type := (list frame * pmode)%type.

(** A value is complete: it is the document, an item of the array around
    it, or the value of the pending key of the object around it.  A key
    that occurs again replaces the value it had. *)
Definition complete (stack : list frame) (v : pyval) : option pstate :=
  match stack with
  | [] => Some ([], MDone v)
  | FArr items :: st => Some (FArr (v :: items) :: st, MArrNext)
  | FObj d (Some k) :: st => Some (FObj (dict_set d k v) None :: st, MObjNext)
  | FObj _ None :: _ => None
  end.

Definition parse_value (parse_float : string -> float)
    (stack : list frame) (t : token) : option pstate :=
  match t with
  | TString s => complete stack (PStr s)
  | TWord w =>
      match value_of_word parse_float w with
      | Some v => complete stack v
      | None => None
      end
  | TLBrack => Some (FArr [] :: stack, MArrFirst)
  | TLBrace => Some (FObj [] None :: stack, MObjFirst)
  | _ => None
  end.

Definition close_array (stack : list frame) : option pstate :=
  match stack with
  | FArr items :: st => complete st (PList (rev items))
  | _ => None
  end.

Definition close_object (stack : list frame) : option pstate :=
  match stack with
  | FObj d None :: st => complete st (PDict d)
  | _ => None
  end.

Definition read_key (stack : list frame) (t : token) : option pstate :=
  match t, stack with
  | TString k, FObj d None :: st => Some (FObj d (Some k) :: st, MObjColon)
  | _, _ => None
  end.

Definition parse_step (parse_float : string -> float)
    (ps : pstate) (t : token) : option pstate :=
  let '(stack, mode) := ps in
  match mode with
  | MValue => parse_value parse_float stack t
  | MArrFirst =>
      match t with
      | TRBrack => close_array stack
      | _ => parse_value parse_float stack t
      end
  | MArrNext =>
      match t with
      | TComma => Some (stack, MValue)
      | TRBrack => close_array stack
      | _ => None
      end
  | MObjFirst =>
      match t with
      | TRBrace => close_object stack
      | _ => read_key stack t
      end
  | MObjKey => read_key stack t
  | MObjColon =>
      match t with
      | TColon => Some (stack, MValue)
      | _ => None
      end
  | MObjNext =>
      match t with
      | TComma => Some (stack, MObjKey)
      | TRBrace => close_object stack
      | _ => None
      end
  | MDone _ => None
  end.

Fixpoint parse (parse_float : string -> float) (ps : pstate)
    (toks : list token) : option pyval :=
  match toks with
  | [] => match ps with
          | ([], MDone v) => Some v
          | _ => None
          end
  | t :: rest =>
      match parse_step parse_float ps t with
      | Some ps' => parse parse_float ps' rest
      | None => None
      end
  end.

(** [json.loads(s, parse_float=parse_float)]; [None] is a
    [JSONDecodeError]. *)
Definition loads_with (parse_float : string -> float) (s : string)
  : option pyval :=
  match lex LDefault [] s with
  | Some toks => parse parse_float ([], MValue) (rev toks)
  | None => None
  end.

Definition loads : string -> option pyval := loads_with decimal_float.

(** *** [repr] and [json.dumps] *)

Definition hex_digit (n : Z) : string :=
  String.substring (Z.to_nat n) 1 "0123456789abcdef".

Definition hex2 (n : Z) : string := hex_digit (n / 16) ++ hex_digit (n mod 16).

Definition hex4 (n : Z) : string := hex2 (n / 256) ++ hex2 (n mod 256).

Definition code (c : ascii) : Z := Z.of_nat (nat_of_ascii c).

Fixpoint escape_repr (quote : ascii) (s : string) : string :=
  match s with
  | EmptyString => EmptyString
  | String c t =>
      let n := code c in
      (if Ascii.eqb c quote || Ascii.eqb c "\" then "\" ++ String c ""
       else if n =? 10 then "\n"
       else if n =? 13 then "\r"
       else if n =? 9 then "\t"
       else if (n <? 32) || (n =? 127) then "\x" ++ hex2 n
       else String c "")
      ++ escape_repr quote t
  end.

(** [repr(s)] of a string: single quotes, unless the text holds a single
    quote and no double quote.  Text outside ASCII is taken as printable. *)
Definition repr_str (s : string) : string :=
  if str_contains "'" s && negb (str_contains dq s)
  then dq ++ escape_repr (ascii_of_nat 34) s ++ dq
  else "'" ++ escape_repr "'" s ++ "'".

Fixpoint repr (v : pyval) : string :=
  match v with
  | PNone => "None"
  | PBool b => if b then "True" else "False"
  | PInt z => str_of_Z z
  | PFloat x => float_text x
  | PStr s => repr_str s
  | PList l => "[" ++ join ", " (map repr l) ++ "]"
  | PDict d =>
      "{" ++ join ", "
               (map (fun kv => let '(k, x) := kv in
                               repr_str k ++ ": " ++ repr x) d)
      ++ "}"
  end.

(** The code points of a UTF-8 text; a byte that starts no sequence
    stands for itself. *)
Fixpoint code_points (s : string) (need : nat) (acc : Z) : list Z :=
  match s with
  | EmptyString => []
  | String c t =>
      let n := code c in
      match need with
      | S need' =>
          let acc' := acc * 64 + n mod 64 in
          match need' with
          | O => acc' :: code_points t O 0
          | _ => code_points t need' acc'
          end
      | O =>
          if n <? 192 then n :: code_points t O 0
          else if n <? 224 then code_points t 1%nat (n - 192)
          else if n <? 240 then code_points t 2%nat (n - 224)
          else code_points t 3%nat (n - 240)
      end
  end.

Definition escape_json (cp : Z) : string :=
  if cp =? 34 then "\" ++ dq
  else if cp =? 92 then "\\"
  else if cp =? 10 then "\n"
  else if cp =? 13 then "\r"
  else if cp =? 9 then "\t"
  else if cp =? 8 then "\b"
  else if cp =? 12 then "\f"
  else if (32 <=? cp) && (cp <=? 126) then chr cp
  else if cp <? 65536 then "\u" ++ hex4 cp
  else "\u" ++ hex4 (55296 + (cp - 65536) / 1024)
       ++ "\u" ++ hex4 (56320 + (cp - 65536) mod 1024).

Definition dumps_str (s : string) : string :=
  dq ++ String.concat "" (map escape_json (code_points s O 0)) ++ dq.

Definition dumps_float (x : float) : string :=
  match Prim2SF x with
  | S754_nan => "NaN"
  | S754_infinity s => if s then "-Infinity" else "Infinity"
  | _ => float_text x
  end.

(** [json.dumps(v)] with its defaults: the separators [", "] and [": "],
    and every character outside ASCII escaped. *)
Fixpoint dumps (v : pyval) : string :=
  match v with
  | PNone => "null"
  | PBool b => if b then "true" else "false"
  | PInt z => str_of_Z z
  | PFloat x => dumps_float x
  | PStr s => dumps_str s
  | PList l => "[" ++ join ", " (map dumps l) ++ "]"
  | PDict d =>
      "{" ++ join ", "
               (map (fun kv => let '(k, x) := kv in
                               dumps_str k ++ ": " ++ dumps x) d)
      ++ "}"
  end.

(** *** [base64.b64decode] *)

Definition b64_value (c : ascii) : option Z :=
  let n := code c in
  if (65 <=? n) && (n <=? 90) then Some (n - 65)
  else if (97 <=? n) && (n <=? 122) then Some (n - 71)
  else if (48 <=? n) && (n <=? 57) then Some (n + 4)
  else if n =? 43 then Some 62
  else if n =? 47 then Some 63
  else None.

Definition byte_of_Z (z : Z) : byte :=
  match Byte.of_N (Z.to_N (z mod 256)) with
  | Some b => b
  | None => x00
  end.

(** The decoder reads the text once.  It keeps the position in the current
    group of four, the bits left over, and the number of pad characters
    seen in a row; a character outside the alphabet is skipped, and a pad
    that completes a group ends the decoding. *)
Fixpoint b64_go (s : string) (quad_pos leftchar pads : Z) (out : list byte)
  : result (list byte) :=
  match s with
  | EmptyString =>
      if quad_pos =? 0 then Return (rev out)
      else if quad_pos =? 1 then
        Raise (ValueError
          "Invalid base64-encoded string: number of data characters cannot be 1 more than a multiple of 4")
      else Raise (ValueError "Incorrect padding")
  | String c t =>
      if Ascii.eqb c "=" then
        if (2 <=? quad_pos) && (4 <=? quad_pos + (pads + 1))
        then Return (rev out)
        else b64_go t quad_pos leftchar
               (if 2 <=? quad_pos then pads + 1 else pads) out
      else
        match b64_value c with
        | None => b64_go t quad_pos leftchar pads out
        | Some v =>
            if quad_pos =? 0 then b64_go t 1 v 0 out
            else if quad_pos =? 1 then
              b64_go t 2 (v mod 16) 0 (byte_of_Z (leftchar * 4 + v / 16) :: out)
            else if quad_pos =? 2 then
              b64_go t 3 (v mod 4) 0 (byte_of_Z (leftchar * 16 + v / 4) :: out)
            else
              b64_go t 0 0 0 (byte_of_Z (leftchar * 64 + v) :: out)
        end
  end.

Definition is_ascii_text (s : string) : bool :=
  forallb (fun c => code c <? 128) (list_ascii_of_string s).

(** [base64.b64decode(s)] of a string. *)
Definition b64decode (s : string) : result (list byte) :=
  if is_ascii_text s then b64_go s 0 0 0 []
  else Raise (ValueError
                "string argument should contain only ASCII characters").

(** *** [base64.b64encode] *)

(** The character of a six-bit value in the standard alphabet. *)
Definition b64_char (v : Z) : ascii :=
  nth (Z.to_nat v)
    (list_ascii_of_string
       "ABCDEFGHIJKLMNOPQRSTUVWXYZabcdefghijklmnopqrstuvwxyz0123456789+/")
    "A"%char.

Definition Z_of_byte (b : byte) : Z := Z.of_N (Byte.to_N b).

(** [base64.b64encode(bs).decode("utf-8")]: four characters for every three
    bytes, the last group padded with [=]. *)
Fixpoint b64encode (bs : list byte) : string :=
  match bs with
  | [] => ""
  | a :: [] =>
      let a := Z_of_byte a in
      String (b64_char (a / 4)) (String (b64_char (a mod 4 * 16)) "==")
  | a :: b :: [] =>
      let a := Z_of_byte a in
      let b := Z_of_byte b in
      String (b64_char (a / 4))
        (String (b64_char (a mod 4 * 16 + b / 16))
           (String (b64_char (b mod 16 * 4)) "="))
  | a :: b :: c :: t =>
      let a := Z_of_byte a in
      let b := Z_of_byte b in
      let c := Z_of_byte c in
      String (b64_char (a / 4))
        (String (b64_char (a mod 4 * 16 + b / 16))
           (String (b64_char (b mod 16 * 4 + c / 64))
              (String (b64_char (c mod 64)) (b64encode t))))
  end.

End Lib.

(** ** Effects: exceptions and calls to collaborators *)

Module Effects.
Import Py.

(** A record of the knowledge base, as the retrieval client returns it:
    the text under [content], the URI under [location.s3Location] and the
    score, each of them possibly absent. *)
Record retrieval_result : Type := {
  r_text : option string;
  r_uri : option string;
  r_score : option float
}.

(** A content block of a message: [{"text": ...}] or
    [{"image": {"format": ..., "source": {"bytes": ...}}}]. *)
Inductive block : Type :=
| TextBlock (text : string)
| ImageBlock (format : string) (bytes : list byte).

(** The collaborators.  Each answers a request or raises.
    - [retrieve kb query config]: the retrieval client; the answer is the
      list under [retrievalResults], [None] when the key is absent.
    - [converse model content config system]: the inference client, called
      with one user message.
    - [fetch_image url]: [AzureService().fetch_image(url)].
    - [get_item table key]: the config store; the answer is the item, if
      any, and in it the string under [prompt], if any. *)
Record Clients : Type := {
  retrieve : string -> string -> dict -> result (option (list retrieval_result));
  converse : string -> list block -> dict -> string -> result pyval;
  fetch_image : pyval -> result (option string);
  get_item : string -> string -> result (option (option string))
}.

(** The library functions: [json.loads] ([None] is a [JSONDecodeError]),
    [json.dumps], [repr] and [base64.b64decode].  The limits of the
    interpreter, such as the depth of recursion of the decoder, are not
    part of them. *)
Record Library : Type := {
  json_loads : string -> option pyval;
  json_dumps : pyval -> string;
  py_repr : pyval -> string;
  b64decode : string -> result (list byte)
}.

(** The calls made, in the order they were made. *)
Inductive call : Type :=
| CallRetrieve (kb query : string) (config : dict)
| CallConverse (model : string) (content : list block) (config : dict)
    (system : string)
| CallFetchImage (url : pyval)
| CallGetItem (table key : string).

Definition io (A : Type) : Type := list call -> result A * list call.

Definition ret {A} (a : A) : io A := fun log => (Return a, log).

Definition raise {A} (e : exn) : io A := fun log => (Raise e, log).

Definition bind {A B} (m : io A) (k : A -> io B) : io B :=
  fun log =>
    match m log with
    | (Raise e, log') => (Raise e, log')
    | (Return a, log') => k a log'
    end.

(** A computation that raises or returns without calling anyone. *)
Definition lift {A} (r : result A) : io A := fun log => (r, log).

(** [try: m except Exception as e: handler e] *)
Definition try_except {A} (m : io A) (handler : exn -> io A) : io A :=
  fun log =>
    match m log with
    | (Raise e, log') => handler e log'
    | (Return a, log') => (Return a, log')
    end.

Definition perform {A} (c : call) (answer : result A) : io A :=
  fun log => (answer, (log ++ [c])%list).

Definition run {A} (m : io A) : result A * list call := m [].

(** All items of a list, up to the first that raises. *)
Fixpoint rmap {A B} (f : A -> result B) (l : list A) : result (list B) :=
  match l with
  | [] => Return []
  | x :: t =>
      match f x with
      | Raise e => Raise e
      | Return y =>
          match rmap f t with
          | Raise e => Raise e
          | Return ys => Return (y :: ys)
          end
      end
  end.

End Effects.

Declare Scope result_scope.
Delimit Scope result_scope with result.
Notation "x <- m ;; k" := (Py.rbind m (fun x => k))
  (at level 61, m at next level, right associativity) : result_scope.
Notation "m ;; k" := (Py.rbind m (fun _ => k))
  (at level 61, right associativity) : result_scope.

Declare Scope io_scope.
Delimit Scope io_scope with io.
Notation "x <~ m ;; k" := (Effects.bind m (fun x => k))
  (at level 61, m at next level, right associativity) : io_scope.
Notation "m ;;; k" := (Effects.bind m (fun _ => k))
  (at level 61, right associativity) : io_scope.

(** ** [services/bedrock_service.py] *)

Module Bedrock.
Import Py Effects.

Local Open Scope result_scope.

Definition MAX_OUTPUT_TOKENS : Z := 10240.

Record BedrockKnowledgeDocument : Type := {
  content : string;
  content_length : Z;
  source : string;
  score : float
}.

(** [passed] and [comment] hold whatever the model's JSON has under
    [pass] and [comment]. *)
Record BedrockWorkItemEvaluationResponse : Type := {
  passed : pyval;
  comment : pyval;
  sources : list string
}.

Record BedrockWorkItemGenerationResponse : Type := {
  work_items : pyval;
  documents : list BedrockKnowledgeDocument
}.

Record BedrockInferenceParams : Type := {
  prompt : option string;
  temperature : option float;
  top_p : option float;
  max_tokens : option Z;
  refinement_instructions : option string;
  generated_work_items : option (list pyval)
}.

(** [BedrockInferenceParams()] *)
Definition default_params : BedrockInferenceParams :=
  {| prompt := None; temperature := None; top_p := None; max_tokens := None;
     refinement_instructions := None; generated_work_items := None |}.

Record BedrockService : Type := {
  region : string;
  model_id : string;
  knowledge_base_id : string;
  max_knowledge_documents : Z;
  max_image_size : Z;
  max_images : Z;
  config_table_name : string
}.

(** [a or b] on an optional string. *)
Definition str_or (a : option string) (b : string) : string :=
  match a with
  | Some s => if str_eqb s "" then b else s
  | None => b
  end.

(** The truth value of an optional string: [None] and the empty string are
    false. *)
Definition opt_truthy (a : option string) : bool :=
  match a with
  | Some s => negb (str_eqb s "")
  | None => false
  end.

(** [os.environ.get(name, default)] *)
Definition environ_get (environ : string -> option string)
    (name default : string) : string :=
  match environ name with
  | Some s => s
  | None => default
  end.

(** [BedrockService.__init__] *)
Definition init (environ : string -> option string)
    (region model_id knowledge_base_id : option string)
    (max_knowledge_documents max_image_size max_images : Z)
    (config_table_name : option string) : BedrockService :=
  {| region := str_or region (environ_get environ "AWS_REGION" "us-west-2");
     model_id := str_or model_id (environ_get environ "AWS_BEDROCK_MODEL_ID" "");
     knowledge_base_id :=
       str_or knowledge_base_id
         (environ_get environ "AWS_BEDROCK_KNOWLEDGE_BASE_ID" "");
     max_knowledge_documents := max_knowledge_documents;
     max_image_size := max_image_size;
     max_images := max_images;
     config_table_name :=
       str_or config_table_name (environ_get environ "CONFIG_TABLE_NAME" "") |}.

(** An [{expr}] of an f-string: [str] of the value. *)
Definition py_str (L : Library) (v : pyval) : string :=
  match v with
  | PStr s => s
  | _ => L.(py_repr) v
  end.

(** [work_item.get(k)] as a condition. *)
Definition has_value (work_item : dict) (k : string) : bool :=
  truthy (dict_get work_item k PNone).

(** [x or y] on strings. *)
Definition or_str (x y : string) : string :=
  if str_eqb x "" then y else x.

(** *** Helper functions *)

Definition _is_user_story (work_item : dict) : bool :=
  eq_str (dict_get work_item "workItemType" (PStr "")) "User Story".

Definition _is_product_backlog_item (work_item : dict) : bool :=
  eq_str (dict_get work_item "workItemType" (PStr "")) "Product Backlog Item".

Definition _is_epic (work_item : dict) : bool :=
  eq_str (dict_get work_item "workItemType" (PStr "")) "Epic".

Definition _is_feature (work_item : dict) : bool :=
  eq_str (dict_get work_item "workItemType" (PStr "")) "Feature".

Definition _is_user_story_or_pbi (work_item : dict) : bool :=
  _is_user_story work_item || _is_product_backlog_item work_item.

Definition _is_epic_or_feature (work_item : dict) : bool :=
  _is_epic work_item || _is_feature work_item.

Definition _get_expected_child_work_item_type (work_item : dict)
    (plural : bool) : option string :=
  let work_item_type := dict_get work_item "workItemType" (PStr "") in
  let process_template := dict_get work_item "processTemplate" (PStr "") in
  if eq_str work_item_type "Epic" then
    Some (if plural then "Features" else "Feature")
  else if eq_str work_item_type "Feature" then
    if eq_str process_template "Scrum" then
      Some (if plural then "Product Backlog Items" else "Product Backlog Item")
    else
      Some (if plural then "User Stories" else "User Story")
  else if eq_str work_item_type "User Story"
          || eq_str work_item_type "Product Backlog Item" then
    Some (if plural then "Tasks" else "Task")
  else None.

(** *** Knowledge base functions *)

Definition _build_work_item_evaluation_knowledge_query (L : Library)
    (work_item : dict) : result string :=
  criteria_field <-
    (if _is_user_story_or_pbi work_item
        && has_value work_item "acceptanceCriteria" then
       v <- dict_item work_item "acceptanceCriteria" ;;
       Return ("
    - Acceptance Criteria: " ++ py_str L v)
     else if _is_epic_or_feature work_item
             && has_value work_item "successCriteria" then
       v <- dict_item work_item "successCriteria" ;;
       Return ("
    - Success Criteria: " ++ py_str L v)
     else Return "") ;;
  let criteria_type :=
    if _is_user_story_or_pbi work_item then "Acceptance Criteria"
    else "Success Criteria" in
  t1 <- dict_item work_item "workItemType" ;;
  t2 <- dict_item work_item "workItemType" ;;
  title <- dict_item work_item "title" ;;
  description <- dict_item work_item "description" ;;
  Return ("Find relevant information about the " ++ py_str L t1 ++ " process and guidelines that would help evaluate the following " ++ py_str L t2 ++ " is well-defined:
    - Title: " ++ py_str L title ++ "
    - Description: " ++ py_str L description ++ "
    - " ++ criteria_type ++ ": " ++ criteria_field).

Definition _build_work_item_breakdown_knowledge_query (L : Library)
    (work_item : dict) : result string :=
  criteria_field <-
    (if _is_user_story_or_pbi work_item
        && has_value work_item "acceptanceCriteria" then
       v <- dict_item work_item "acceptanceCriteria" ;;
       Return ("
    - Acceptance Criteria: " ++ py_str L v)
     else if _is_epic_or_feature work_item
             && has_value work_item "successCriteria" then
       v <- dict_item work_item "successCriteria" ;;
       Return ("
    - Success Criteria: " ++ py_str L v)
     else Return "") ;;
  t1 <- dict_item work_item "workItemType" ;;
  t2 <- dict_item work_item "workItemType" ;;
  title <- dict_item work_item "title" ;;
  description <- dict_item work_item "description" ;;
  Return ("Find relevant information to help break down the " ++ py_str L t1 ++ " (such as technical details, application architecture, business context, etc.) for the following " ++ py_str L t2 ++ ":
    - Title: " ++ py_str L title ++ "
    - Description: " ++ py_str L description ++ criteria_field).

(** [{"equals": {"key": key, "value": value}}] *)
Definition equals (key : string) (value : pyval) : pyval :=
  PDict [("equals", PDict [("key", PStr key); ("value", value)])].

Definition _build_work_item_evaluation_filters (work_item_type : pyval)
  : dict :=
  [("filter",
    PDict [("andAll",
            PList [equals "workItemType" work_item_type;
                   equals "areaPath" (PStr "agile-process")])])].

(** [if work_item.get(k): filter_conditions.append(...)] *)
Definition append_condition (work_item : dict) (k : string)
    (filter_conditions : list pyval) : list pyval :=
  match dict_lookup work_item k with
  | Some v =>
      if truthy v then (filter_conditions ++ [equals k v])%list
      else filter_conditions
  | None => filter_conditions
  end.

Definition _build_work_item_breakdown_filters (work_item : dict) : dict :=
  let filter_conditions := [] in
  let filter_conditions :=
    append_condition work_item "workItemType" filter_conditions in
  let filter_conditions :=
    append_condition work_item "areaPath" filter_conditions in
  let filter_conditions :=
    append_condition work_item "businessUnit" filter_conditions in
  let filter_conditions :=
    append_condition work_item "system" filter_conditions in
  if 2 <=? Z.of_nat (List.length filter_conditions) then
    [("filter", PDict [("andAll", PList filter_conditions)])]
  else
    match filter_conditions with
    | [c] => [("filter", c)]
    | _ => []
    end.

Definition _process_knowledge_results (results : list retrieval_result)
  : list BedrockKnowledgeDocument :=
  map (fun ir : Z * retrieval_result =>
         let '(idx, r) := ir in
         let content :=
           match r.(r_text) with Some t => t | None => "" end in
         let source :=
           match r.(r_uri) with
           | Some u => u
           | None => "Document " ++ str_of_Z (idx + 1)
           end in
         let score :=
           match r.(r_score) with Some x => x | None => 0%float end in
         {| content := content;
            content_length := char_len content;
            source := source;
            score := score |})
      (enumerate results).

(** [d.update(other)] *)
Definition dict_update (d other : dict) : dict :=
  fold_left (fun acc kv => dict_set acc (fst kv) (snd kv)) other d.

Local Open Scope io_scope.

(** The [retrieval_config] of a search: the number of results, and the
    filters when there are some. *)
Definition retrieval_configuration (self : BedrockService)
    (filters : option dict) : dict :=
  let search := [("numberOfResults", PInt self.(max_knowledge_documents))] in
  let search :=
    match filters with
    | Some f => match f with [] => search | _ => dict_update search f end
    | None => search
    end in
  [("vectorSearchConfiguration", PDict search)].

Definition retrieve_knowledge_context (C : Clients) (self : BedrockService)
    (query : string) (filters : option dict)
  : io (list BedrockKnowledgeDocument) :=
  try_except
    (let retrieval_config := retrieval_configuration self filters in
     response <~ perform
                   (CallRetrieve self.(knowledge_base_id) query retrieval_config)
                   (C.(retrieve) self.(knowledge_base_id) query retrieval_config) ;;
     let results := match response with Some l => l | None => [] end in
     ret (_process_knowledge_results results))
    (fun e => ret []).

End Bedrock.

(** ** The prompt assembler *)

Module Prompts.
Import Py Effects Bedrock.

Local Open Scope result_scope.

(** [work_item[k]] in an f-string, behind a test of [work_item.get(k)]: the
    key is present there, so nothing is raised. *)
Definition item_str (L : Library) (work_item : dict) (k : string) : string :=
  py_str L (dict_get work_item k PNone).

(** [if work_item.get(k): fields.append(f"...{work_item[k]}")] *)
Definition field (work_item : dict) (k : string) (line : string)
  : list string :=
  if has_value work_item k then [line] else [].

(** [if fields: section = "\n" + "\n".join(fields)] *)
Definition fields_section (fields : list string) : string :=
  match fields with
  | [] => ""
  | _ => nl ++ join nl fields
  end.

(** The line of one image: its number, its URL and, when it has one, its
    alternative text in brackets. *)
Definition image_line (L : Library) (i : Z) (img : pyval) : result string :=
  url <- get img "url" (PStr "") ;;
  alt <- get img "alt" PNone ;;
  suffix <- (if truthy alt then
               a <- get img "alt" (PStr "") ;;
               s <- str_add " (" a ;;
               Return (s ++ ")")
             else Return "") ;;
  Return (str_of_Z (i + 1) ++ ". " ++ py_str L url ++ suffix).

(** The [images_section] of the user prompts. *)
Definition images_section (L : Library) (work_item : dict) : result string :=
  let images := dict_get work_item "images" (PList []) in
  if truthy images then
    imgs <- iter images ;;
    lines <- rmap (fun ii => image_line L (fst ii) (snd ii)) (enumerate imgs) ;;
    Return (join nl lines)
  else Return "".

(** The [knowledge_section] of the evaluation and generation user prompts:
    [doc.content[:500]] of every document. *)
Definition knowledge_section
    (knowledge_context : list BedrockKnowledgeDocument) : string :=
  match knowledge_context with
  | [] => ""
  | _ => join nl (map (fun doc => "- " ++ chars_upto doc.(content) 500 ++ "...")
                      knowledge_context)
  end.

(** The [knowledge_section] the refinement prompt builder makes:
    [doc.content[:300]] of every document. *)
Definition refinement_knowledge_section
    (knowledge_context : list BedrockKnowledgeDocument) : string :=
  match knowledge_context with
  | [] => ""
  | _ => "

Reference Context:
" ++
         join nl (map (fun doc => "- " ++ chars_upto doc.(content) 300 ++ "...")
                      knowledge_context)
  end.

Definition _build_work_item_evaluation_system_prompt (L : Library)
    (work_item : dict) : string :=
  let work_item_type := dict_get work_item "workItemType" (PStr "") in
  let evaluation_criteria :=
    if eq_str work_item_type "Product Backlog Item" then
      "- Evaluate the product backlog item based on the following criteria:
  - It should generally state the user, the need, and the business value in some way.
  - The acceptance criteria should provide guidance that is testable or verifiable, though it need not be exhaustive.
  - The story should be appropriately sized for a development team to complete within a sprint."
    else if eq_str work_item_type "User Story" then
      "- Evaluate the user story based on the following criteria:
  - It should generally state the user, the need, and the business value in some way.
  - The acceptance criteria should provide guidance that is testable or verifiable, though it need not be exhaustive.
  - The story should be appropriately sized for a development team to complete within a sprint."
    else if eq_str work_item_type "Epic" then
      "- Evaluate the epic based on the following criteria:
  - It should clearly describe a high-level business objective or strategic goal.
  - The description should provide sufficient business context and rationale.
  - Success criteria should define measurable outcomes or business value.
  - The scope should be appropriate for breaking down into multiple features."
    else if eq_str work_item_type "Feature" then
      "- Evaluate the feature based on the following criteria:
  - It should describe a cohesive piece of functionality that delivers user value.
  - The description should clearly define the functional boundaries and user interactions.
  - Success criteria should be testable and define what constitutes completion.
  - The scope should be appropriate for breaking down into multiple user stories."
    else "" in
  "You are an AI assistant that reviews Azure DevOps work items. 
**Instructions**
- Evaluate the work item to check if it is reasonably clear and has enough detail for a developer or team to begin with minimal clarification.
- Your task is to assess the quality of a " ++ py_str L work_item_type ++ " based on the provided title, description, and available criteria fields.
" ++ evaluation_criteria ++ "
  - If images are provided, treat them as additional context to understand the work item.

**Output Rules**
- Return a JSON object with the following structure:
  - " ++ dq ++ "pass" ++ dq ++ ": boolean (true if the work item is good enough to proceed, false only if it is seriously incomplete or confusing)
  - if " ++ dq ++ "pass" ++ dq ++ " is false, include a " ++ dq ++ "comment" ++ dq ++ " field (string) with a clear explanation of what's missing or unclear, and provide an example of a higher-quality " ++ py_str L work_item_type ++ " that would pass. If you have multiple feedback points, use line breaks and indentations with HTML tags.
- Only output the JSON object, no extra text outside it.".

Definition _build_work_item_evaluation_user_prompt (L : Library)
    (work_item : dict) (knowledge_context : list BedrockKnowledgeDocument)
  : result string :=
  let knowledge_section := knowledge_section knowledge_context in
  images_section <- images_section L work_item ;;
  let criteria_section :=
    if _is_user_story_or_pbi work_item
       && has_value work_item "acceptanceCriteria" then
      "
  - Acceptance Criteria: " ++ item_str L work_item "acceptanceCriteria"
    else if _is_epic_or_feature work_item
            && has_value work_item "successCriteria" then
      "
  - Success Criteria: " ++ item_str L work_item "successCriteria"
    else "" in
  let epic_fields_section :=
    if _is_epic work_item then
      fields_section
        (field work_item "objective"
           ("  - Objective: " ++ item_str L work_item "objective")
         ++ field work_item "addressedRisks"
              ("  - Addressed Risks: " ++ item_str L work_item "addressedRisks")
         ++ field work_item "pursueRisk"
              ("  - Pursue Risk: " ++ item_str L work_item "pursueRisk")
         ++ field work_item "mostRecentUpdate"
              ("  - Most Recent Update: " ++ item_str L work_item "mostRecentUpdate")
         ++ field work_item "outstandingActionItems"
              ("  - Outstanding Action Items: " ++ item_str L work_item "outstandingActionItems"))%list
    else "" in
  let feature_fields_section :=
    if _is_feature work_item && has_value work_item "businessDeliverable" then
      "
  - Business Deliverable: " ++ item_str L work_item "businessDeliverable"
    else "" in
  let pbi_fields_section :=
    if _is_product_backlog_item work_item then
      fields_section
        (field work_item "releaseNotes"
           ("  - Release Notes: " ++ item_str L work_item "releaseNotes")
         ++ field work_item "qaNotes"
              ("  - QA Notes: " ++ item_str L work_item "qaNotes"))%list
    else "" in
  let user_story_fields_section :=
    if _is_user_story work_item && has_value work_item "importance" then
      "
  - Importance: " ++ item_str L work_item "importance"
    else "" in
  Return ("**Context**
- Work item: 
Use this information to understand the scope and expectation for evaluation.
  - Work Item Type: " ++ py_str L (dict_get work_item "workItemType" (PStr "")) ++ "
  - Title: " ++ py_str L (dict_get work_item "title" (PStr "")) ++ "
  - Description: " ++ py_str L (dict_get work_item "description" (PStr "")) ++ "
  " ++ criteria_section ++ "
  " ++ epic_fields_section ++ feature_fields_section ++ pbi_fields_section ++ user_story_fields_section ++ "
      
- Additional contextual knowledge (if any):
Extra domain knowledge, system information, or reference material to guide more context-aware and accurate evaluation.
  " ++ or_str knowledge_section "None" ++ "

- Images (if any):
Visual aids or references that provide additional context for evaluation.
  " ++ or_str images_section "None").

End Prompts.

Module Generation.
Import Py Effects Bedrock Prompts.

Local Open Scope io_scope.

Definition _get_custom_prompt (L : Library) (C : Clients)
    (self : BedrockService) (work_item : dict) : io (option string) :=
  if str_eqb self.(config_table_name) "" then ret None
  else
    let ado_key :=
      py_str L (dict_get work_item "workItemType" (PStr "")) ++ "#"
      ++ py_str L (dict_get work_item "areaPath" (PStr "")) ++ "#"
      ++ py_str L (dict_get work_item "businessUnit" (PStr "")) ++ "#"
      ++ py_str L (dict_get work_item "system" (PStr "")) in
    try_except
      (response <~ perform (CallGetItem self.(config_table_name) ado_key)
                     (C.(get_item) self.(config_table_name) ado_key) ;;
       match response with
       | Some prompt => ret prompt
       | None => ret None
       end)
      (fun e => ret None).

Definition _resolve_prompt (L : Library) (C : Clients) (self : BedrockService)
    (work_item : dict) (parameter_prompt : option string)
  : io (option string) :=
  if opt_truthy parameter_prompt then ret parameter_prompt
  else
    database_prompt <~ _get_custom_prompt L C self work_item ;;
    if opt_truthy database_prompt then ret database_prompt
    else ret None.

Definition _build_work_item_generation_system_prompt (L : Library)
    (C : Clients) (self : BedrockService) (work_item : dict)
    (params : BedrockInferenceParams) : io string :=
  let work_item_type := dict_get work_item "workItemType" (PStr "") in
  let process_template := dict_get work_item "processTemplate" (PStr "") in
  let default_prompt :=
    if eq_str work_item_type "Product Backlog Item" then
      "You are an expert Agile software development assistant that specializes in decomposing a Product Backlog Item into clear, actionable, and appropriately sized Tasks.
**Instructions**
- Your task is to break down the provided Product Backlog Item into a sequence of Tasks that are clear and actionable for developers to work on. Each task should be independent and deployable.
- Ensure each Task has a title and a description that guides the developer (why, what, how, technical details, references to relevant systems/APIs).
- Avoid creating duplicate Tasks if they already exist.
- Do NOT create any Tasks for analysis, investigation, testing, or deployment."
    else if eq_str work_item_type "User Story" then
      "You are an expert Agile software development assistant that specializes in decomposing a User Story into clear, actionable, and appropriately sized Tasks.
**Instructions**
- Your task is to break down the provided User Story into a sequence of Tasks that are clear and actionable for developers to work on. Each task should be independent and deployable.
- Ensure each Task has a title and a description that guides the developer (why, what, how, technical details, references to relevant systems/APIs).
- Avoid creating duplicate Tasks if they already exist.
- Do NOT create any Tasks for analysis, investigation, testing, or deployment."
    else if eq_str work_item_type "Feature" then
      if eq_str process_template "Scrum" then
        "You are an expert Agile software development assistant that specializes in decomposing a Feature into clear, actionable, and appropriately sized Product Backlog Items.
**Instructions**
- Your task is to break down the provided Feature into a sequence of Product Backlog Items that are clear and deliver business value.
- Ensure each Product Backlog Item has a title, description, and acceptance criteria.
- Avoid creating duplicate Product Backlog Items if they already exist."
      else
        "You are an expert Agile software development assistant that specializes in decomposing a Feature into clear, actionable, and appropriately sized User Stories.
**Instructions**
- Your task is to break down the provided Feature into a sequence of User Stories that are clear and deliver business value.
- Ensure each User Story has a title, description, and acceptance criterial.
- Avoid creating duplicate User Stories if they already exist."
    else if eq_str work_item_type "Epic" then
      "You are an expert Agile software development assistant that specializes in decomposing an Epic into clear, actionable, and appropriately sized Features.
**Instructions**
- Your task is to break down the provided Epic into a sequence of Features that are clear and deliver business value.
- Ensure each Feature has a title and a comprehensive description.
- Avoid creating duplicate Features if they already exist."
    else "" in
  resolved <~ _resolve_prompt L C self work_item params.(prompt) ;;
  let base_prompt := str_or resolved default_prompt in
  if eq_str work_item_type "Product Backlog Item"
     || eq_str work_item_type "User Story" then
    ret (base_prompt ++ "

**Output Rules**
- ONLY return a JSON object with the following structure:
  - " ++ dq ++ "workItems" ++ dq ++ ": array of task objects, each with:
    - " ++ dq ++ "title" ++ dq ++ ": string (task title, prefixed with order, e.g., " ++ dq ++ "1. Task Title" ++ dq ++ ")
    - " ++ dq ++ "description" ++ dq ++ ": string (detailed task description with HTML formatting)
- DO NOT output any text outside of the JSON object.")
  else if eq_str work_item_type "Feature" then
    if eq_str process_template "Scrum" then
      ret (base_prompt ++ "

**Output Rules**
- ONLY return a JSON object with the following structure:
  - " ++ dq ++ "workItems" ++ dq ++ ": array of product backlog item objects, each with:
    - " ++ dq ++ "title" ++ dq ++ ": string (product backlog item title, prefixed with order, e.g., " ++ dq ++ "1. Product Backlog Item Title" ++ dq ++ ")
    - " ++ dq ++ "description" ++ dq ++ ": string (detailed product backlog item description with HTML formatting)
    - " ++ dq ++ "acceptanceCriteria" ++ dq ++ ": string (detailed acceptance criteria with HTML formatting)
- DO NOT output any text outside of the JSON object.")
    else
      ret (base_prompt ++ "

**Output Rules**
- ONLY return a JSON object with the following structure:
  - " ++ dq ++ "workItems" ++ dq ++ ": array of user story objects, each with:
    - " ++ dq ++ "title" ++ dq ++ ": string (user story title, prefixed with order, e.g., " ++ dq ++ "1. User Story Title" ++ dq ++ ")
    - " ++ dq ++ "description" ++ dq ++ ": string (detailed user story description with HTML formatting)
    - " ++ dq ++ "acceptanceCriteria" ++ dq ++ ": string (detailed acceptance criteria with HTML formatting)
- DO NOT output any text outside of the JSON object.")
  else if eq_str work_item_type "Epic" then
    ret (base_prompt ++ "

**Output Rules**
- ONLY return a JSON object with the following structure:
  - " ++ dq ++ "workItems" ++ dq ++ ": array of feature objects, each with:
    - " ++ dq ++ "title" ++ dq ++ ": string (feature title, prefixed with order, e.g., " ++ dq ++ "1. Feature Title" ++ dq ++ ")
    - " ++ dq ++ "description" ++ dq ++ ": string (detailed feature description with HTML formatting)
    - " ++ dq ++ "successCriteria" ++ dq ++ ": string (detailed success criteria with HTML formatting)
- DO NOT output any text outside of the JSON object.")
  else ret base_prompt.

Local Open Scope result_scope.

(** [if item.get(k): details += text] *)
Definition detail (item : dict) (k : string) (text : string) : string :=
  if has_value item k then text else "".

(** The entry of one existing child in the generation user prompt. *)
Definition child_details (L : Library) (child_work_item_type : string)
    (i : Z) (child : pyval) : result string :=
  title <- get child "title" (PStr "") ;;
  let item := match child with PDict d => d | _ => [] end in
  let details := str_of_Z (i + 1) ++ ". " ++ py_str L title in
  Return
    (if str_eqb child_work_item_type "Features" then
       details
       ++ detail item "businessDeliverable" ("
   Business Deliverable: " ++ item_str L item "businessDeliverable")
       ++ detail item "successCriteria" ("
   Success Criteria: " ++ item_str L item "successCriteria")
     else if str_eqb child_work_item_type "Product Backlog Items" then
       details
       ++ detail item "description" ("
   Description: " ++ item_str L item "description")
       ++ detail item "acceptanceCriteria" ("
   Acceptance Criteria: " ++ item_str L item "acceptanceCriteria")
       ++ detail item "releaseNotes" ("
   Release Notes: " ++ item_str L item "releaseNotes")
       ++ detail item "qaNotes" ("
   QA Notes: " ++ item_str L item "qaNotes")
     else if str_eqb child_work_item_type "User Stories" then
       details
       ++ detail item "description" ("
   Description: " ++ item_str L item "description")
       ++ detail item "acceptanceCriteria" ("
   Acceptance Criteria: " ++ item_str L item "acceptanceCriteria")
       ++ detail item "importance" ("
   Importance: " ++ item_str L item "importance")
     else
       details
       ++ detail item "description" ("
   Description: " ++ item_str L item "description")).

Definition _build_work_item_generation_user_prompt (L : Library)
    (work_item : dict) (existing_child_work_items : list pyval)
    (knowledge_context : list BedrockKnowledgeDocument) : result string :=
  images_section <- images_section L work_item ;;
  let knowledge_section := knowledge_section knowledge_context in
  let criteria_section :=
    if _is_user_story_or_pbi work_item
       && has_value work_item "acceptanceCriteria" then
      "
  - Acceptance Criteria: " ++ item_str L work_item "acceptanceCriteria"
    else if _is_epic_or_feature work_item
            && has_value work_item "successCriteria" then
      "
  - Success Criteria: " ++ item_str L work_item "successCriteria"
    else "" in
  let type_specific_fields :=
    if _is_epic work_item then
      fields_section
        (field work_item "objective"
           ("  - Objective: " ++ item_str L work_item "objective")
         ++ field work_item "addressedRisks"
              ("  - Addressed Risks: " ++ item_str L work_item "addressedRisks")
         ++ field work_item "pursueRisk"
              ("  - Pursue Risk: " ++ item_str L work_item "pursueRisk")
         ++ field work_item "mostRecentUpdate"
              ("  - Most Recent Update: " ++ item_str L work_item "mostRecentUpdate")
         ++ field work_item "outstandingActionItems"
              ("  - Outstanding Action Items: " ++ item_str L work_item "outstandingActionItems"))%list
    else if _is_feature work_item
            && has_value work_item "businessDeliverable" then
      "
  - Business Deliverable: " ++ item_str L work_item "businessDeliverable"
    else if _is_product_backlog_item work_item then
      fields_section
        (field work_item "releaseNotes"
           ("  - Release Notes: " ++ item_str L work_item "releaseNotes")
         ++ field work_item "qaNotes"
              ("  - QA Notes: " ++ item_str L work_item "qaNotes"))%list
    else if _is_user_story work_item && has_value work_item "importance" then
      "
  - Importance: " ++ item_str L work_item "importance"
    else "" in
  let child_work_item_type :=
    match _get_expected_child_work_item_type work_item true with
    | Some t => t
    | None => "child work items"
    end in
  existing_child_work_items_list <-
    match existing_child_work_items with
    | [] => Return "None"
    | _ =>
        items <- rmap (fun ii => child_details L child_work_item_type
                                   (fst ii) (snd ii))
                      (enumerate existing_child_work_items) ;;
        Return (join (nl ++ nl) items)
    end ;;
  Return ("**Context**
- Work item:
Use this information to understand the scope and expectation to generate relevant tasks.
  - Work Item Type: " ++ py_str L (dict_get work_item "workItemType" (PStr "")) ++ "
  - Title: " ++ py_str L (dict_get work_item "title" (PStr "")) ++ "
  - Description: " ++ py_str L (dict_get work_item "description" (PStr "")) ++ criteria_section ++ type_specific_fields ++ "

- Existing " ++ child_work_item_type ++ " (if any):
Current " ++ child_work_item_type ++ " already created for this " ++ py_str L (dict_get work_item "workItemType" (PStr "")) ++ ". Avoid duplicating these; generate only missing or supplementary " ++ child_work_item_type ++ " for completeness.
  " ++ existing_child_work_items_list ++ "

- Images (if any):
Visual aids or references that provide additional context for task generation.
  " ++ or_str images_section "None" ++ "
      
- Additional contextual knowledge (if any):
Extra domain knowledge, system information, or reference material to guide more context-aware and accurate task generation.
  " ++ or_str knowledge_section "None").

(** [re.sub(r'<[^>]*>', '', v)] *)
Definition re_sub_tags (v : pyval) : result string :=
  match v with
  | PStr s => Return (strip_tags s)
  | _ => Raise (TypeError
                  ("expected string or bytes-like object, got '"
                   ++ type_name v ++ "'"))
  end.

(** The entry of one draft item in the refinement user prompt. *)
Definition draft_line (L : Library) (i : Z) (item : pyval) : result string :=
  title <- get item "title" (PStr "") ;;
  description <- get item "description" (PStr "") ;;
  stripped <- re_sub_tags description ;;
  Return (str_of_Z (i + 1) ++ ". " ++ py_str L title ++ "
   Description: " ++ chars_upto stripped 150 ++ "...").

Definition _build_work_item_refinement_user_prompt (L : Library)
    (work_item : dict) (draft_work_items : list pyval) (instructions : string)
    (existing_child_work_items : list pyval)
    (knowledge_context : list BedrockKnowledgeDocument) : result string :=
  let child_work_item_type :=
    match _get_expected_child_work_item_type work_item true with
    | Some t => t
    | None => "child work items"
    end in
  lines <- rmap (fun ii => draft_line L (fst ii) (snd ii))
                (enumerate draft_work_items) ;;
  let draft_list := join (nl ++ nl) lines in
  (* The section is built and then left out of the text returned. *)
  let knowledge_section := refinement_knowledge_section knowledge_context in
  let criteria_section :=
    if _is_user_story_or_pbi work_item
       && has_value work_item "acceptanceCriteria" then
      "
Required Criteria: " ++ item_str L work_item "acceptanceCriteria"
    else "" in
  Return ("**Refinement Request**

You have previously generated a list of " ++ child_work_item_type ++ " for the " ++ py_str L (dict_get work_item "workItemType" (PStr "")) ++ ": " ++ dq ++ py_str L (dict_get work_item "title" (PStr "")) ++ dq ++ ".
Criteria: " ++ criteria_section ++ "

**Current Draft List:**
" ++ draft_list ++ "

**User Instructions:**
" ++ dq ++ instructions ++ dq ++ "

**Task:**
Update the list of " ++ child_work_item_type ++ " based on the User Instructions. 
- If the user asks to add something, add it as a new item.
- If the user asks to remove something, remove it.
- If the user asks to change details, update the relevant item.
- Keep the rest of the list stable unless the instructions imply broader changes.
- Ensure all items remain clear, actionable, and appropriately sized.

Return the COMPLETE updated list of work items in the specified JSON format.").

End Generation.

(** ** The content builder, the response parser and the two operations *)

Module Engine.
Import Py Effects Bedrock Prompts Generation.

(** *** Image processing *)

(** The size in megabytes, [len * 3 / 4 / (1024 * 1024)], is compared with
    the limit.  The divisions are by powers of two, so they are exact on
    floats for every length below [2^51], and the test is the one on the
    integers written here. *)
Definition _is_image_size_valid (self : BedrockService) (base64_data : string)
  : bool :=
  negb (self.(max_image_size) * (4 * (1024 * 1024)) <? char_len base64_data * 3).

(** [buffer[i]], for an index within the buffer. *)
Definition byte_at (buffer : list byte) (i : nat) : Z :=
  match nth_error buffer i with
  | Some b => Z.of_N (Byte.to_N b)
  | None => -1
  end.

Definition _detect_image_format (buffer : list byte) : string :=
  let n := Z.of_nat (List.length buffer) in
  let at_ i v := byte_at buffer i =? v in
  if 4 <=? n then
    if at_ 0%nat 255 && at_ 1%nat 216 && at_ 2%nat 255 then "jpeg"
    else if at_ 0%nat 137 && at_ 1%nat 80 && at_ 2%nat 78 && at_ 3%nat 71
    then "png"
    else if at_ 0%nat 82 && at_ 1%nat 73 && at_ 2%nat 70 && at_ 3%nat 70
            && (12 <=? n)
            && at_ 8%nat 87 && at_ 9%nat 69 && at_ 10%nat 66 && at_ 11%nat 80
    then "webp"
    else if at_ 0%nat 71 && at_ 1%nat 73 && at_ 2%nat 70 && at_ 3%nat 56
    then "gif"
    else "jpeg"
  else "jpeg".

(** [images[: self.max_images]] *)
Definition images_upto (images : pyval) (n : Z) : result (list pyval) :=
  match images with
  | PList l => Return (list_upto l n)
  | PStr s => Return (chars (chars_upto s n))
  | PDict _ => Raise (TypeError "unhashable type: 'slice'")
  | _ => Raise (TypeError
                  ("'" ++ type_name images ++ "' object is not subscriptable"))
  end.

Local Open Scope io_scope.

(** One turn of the loop over the images.  An image that is not a dict has
    no [get]: the call in the [try] raises, and so does the one in the
    arguments of the warning that the handler logs, which leaves the
    function. *)
Definition process_image (L : Library) (C : Clients) (self : BedrockService)
    (content : list block) (image : pyval) : io (list block) :=
  match image with
  | PDict d =>
      try_except
        (let url := dict_get d "url" (PStr "") in
         image_data <~ perform (CallFetchImage url) (C.(fetch_image) url) ;;
         match image_data with
         | Some data =>
             if negb (str_eqb data "") && _is_image_size_valid self data then
               image_bytes <~ lift (L.(b64decode) data) ;;
               let image_format := _detect_image_format image_bytes in
               ret (content ++ [ImageBlock image_format image_bytes])%list
             else ret content
         | None => ret content
         end)
        (fun e => ret content)
  | _ => raise (AttributeError
                  ("'" ++ type_name image ++ "' object has no attribute 'get'"))
  end.

Fixpoint process_images (L : Library) (C : Clients) (self : BedrockService)
    (content : list block) (images : list pyval) : io (list block) :=
  match images with
  | [] => ret content
  | image :: rest =>
      content' <~ process_image L C self content image ;;
      process_images L C self content' rest
  end.

Definition _build_model_content (L : Library) (C : Clients)
    (self : BedrockService) (work_item : dict) (user_prompt : string)
  : io (list block) :=
  let content := [TextBlock user_prompt] in
  let images := dict_get work_item "images" (PList []) in
  if negb (truthy images) then ret content
  else
    images_to_process <~ lift (images_upto images self.(max_images)) ;;
    process_images L C self content images_to_process.

(** *** Utility functions *)

Definition _safe_json_parse (L : Library) (input_str : string)
  : option pyval :=
  let start := str_find input_str "{" in
  let end_ := str_rfind input_str "}" in
  if (start =? -1) || (end_ =? -1) || (end_ <=? start) then None
  else
    let json_substring := str_slice input_str start (end_ + 1) in
    L.(json_loads) json_substring.

(** [self._safe_json_parse(content)] on whatever the response holds as its
    text: only a string has [find]. *)
Definition safe_json_parse_value (L : Library) (content : pyval)
  : result (option pyval) :=
  match content with
  | PStr s => Return (_safe_json_parse L s)
  | _ => Raise (AttributeError
                  ("'" ++ type_name content ++ "' object has no attribute 'find'"))
  end.

(** *** The response parser *)

Local Open Scope result_scope.

(** The three bytes and three letters that start some of the messages in
    the source. *)
Definition stop_sign : string :=
  string_of_list_ascii
    (map ascii_of_nat
       [239; 163; 191; 195; 188; 195; 181; 195; 171]%nat).

Definition token_limit_error : exn :=
  Exception "Model response exceeds maximum token limit".

(** [response.get("output", {}).get("message", {}).get("content", [])] *)
Definition message_content_of (response : pyval) : result pyval :=
  output <- get response "output" (PDict []) ;;
  message <- get output "message" (PDict []) ;;
  get message "content" (PList []).

(** [not message_content or not isinstance(message_content, list)
     or len(message_content) == 0] *)
Definition invalid_message_content (message_content : pyval) : bool :=
  negb (truthy message_content)
  || match message_content with
     | PList l => Z.of_nat (List.length l) =? 0
     | _ => true
     end.

(** [message_content[0]], for a list that is not empty. *)
Definition first_item (message_content : pyval) : pyval :=
  match message_content with
  | PList (x :: _) => x
  | _ => PNone
  end.

Definition _parse_work_item_evaluation (L : Library) (response : pyval)
    (knowledge_context : list BedrockKnowledgeDocument)
  : result BedrockWorkItemEvaluationResponse :=
  message_content <- message_content_of response ;;
  if invalid_message_content message_content then
    Raise (Exception "Invalid message content structure in model response")
  else
    content <- get (first_item message_content) "text" (PStr "") ;;
    if negb (truthy content) then
      Raise (Exception "No text content found in model response")
    else
      parsed_response <- safe_json_parse_value L content ;;
      match parsed_response with
      | Some parsed =>
          if negb (truthy parsed) then
            Raise (Exception "Invalid JSON response from model")
          else
            pass <- get parsed "pass" (PBool false) ;;
            comment <- get parsed "comment" PNone ;;
            Return {| passed := pass;
                      comment := comment;
                      sources := map source knowledge_context |}
      | None => Raise (Exception "Invalid JSON response from model")
      end.

(** [v >= n] for an integer [n] below [2^53]. *)
Definition ge_int (v : pyval) (n : Z) : result bool :=
  match v with
  | PInt z => Return (n <=? z)
  | PBool b => Return (n <=? (if b then 1 else 0))
  | PFloat x => Return (PrimFloat.leb (PrimFloat.of_uint63 (Uint63.of_Z n)) x)
  | _ => Raise (TypeError
                  ("'>=' not supported between instances of '"
                   ++ type_name v ++ "' and 'int'"))
  end.

(** [v[k]] for a string [k] *)
Definition subscript (v : pyval) (k : string) : result pyval :=
  match v with
  | PDict d => dict_item d k
  | PList _ => Raise (TypeError "list indices must be integers or slices, not str")
  | PStr _ => Raise (TypeError "string indices must be integers, not 'str'")
  | _ => Raise (TypeError
                  ("'" ++ type_name v ++ "' object is not subscriptable"))
  end.

(** The arguments of the debug record that [_parse_work_items] starts
    with. *)
Definition parse_debug_arguments (response : pyval) : result unit :=
  _ <- contains response "output" ;;
  output <- get response "output" (PDict []) ;;
  _ <- contains output "message" ;;
  output <- get response "output" (PDict []) ;;
  message <- get output "message" (PDict []) ;;
  _ <- contains message "content" ;;
  message_content <- message_content_of response ;;
  _ <- len message_content ;;
  _ <- contains response "usage" ;;
  Return tt.

Definition _parse_work_items (L : Library) (response : pyval)
  : result pyval :=
  _ <- parse_debug_arguments response ;;
  message_content <- message_content_of response ;;
  if invalid_message_content message_content then
    Raise (Exception
             (stop_sign ++ " Invalid message content structure in model response"))
  else
    content <- get (first_item message_content) "text" (PStr "") ;;
    usage <- get response "usage" (PDict []) ;;
    output_tokens <- get usage "outputTokens" (PInt 0) ;;
    if negb (truthy content) then
      Raise (Exception (stop_sign ++ " No text content found in model response"))
    else
      over <- (if truthy output_tokens
               then ge_int output_tokens MAX_OUTPUT_TOKENS
               else Return false) ;;
      if over then Raise token_limit_error
      else
        parsed_response <- safe_json_parse_value L content ;;
        match parsed_response with
        | Some parsed =>
            if negb (truthy parsed) then
              Raise (Exception (stop_sign ++ " Invalid JSON response from model"))
            else
              has <- contains parsed "workItems" ;;
              if negb has then
                Raise (Exception
                         (stop_sign ++ " Invalid JSON response from model"))
              else
                work_items <- subscript parsed "workItems" ;;
                _ <- len work_items ;;
                subscript parsed "workItems"
        | None =>
            Raise (Exception (stop_sign ++ " Invalid JSON response from model"))
        end.

(** *** Model invocation *)

(** The arguments of the record logged when a response arrives. *)
Definition response_log_arguments (response : pyval) : result unit :=
  metadata <- get response "ResponseMetadata" (PDict []) ;;
  _ <- get metadata "HTTPStatusCode" PNone ;;
  output <- get response "output" (PDict []) ;;
  text <- get output "content" (PStr "") ;;
  _ <- len text ;;
  usage <- get response "usage" (PDict []) ;;
  _ <- get usage "inputTokens" PNone ;;
  usage <- get response "usage" (PDict []) ;;
  _ <- get usage "outputTokens" PNone ;;
  Return tt.

(** The truth value and the value of an optional float. *)
Definition float_truthy (x : option float) : bool :=
  match x with
  | Some v => truthy (PFloat v)
  | None => false
  end.

Definition float_value (x : option float) : float :=
  match x with
  | Some v => v
  | None => 0%float
  end.

(** [params.max_tokens or MAX_OUTPUT_TOKENS] *)
Definition max_tokens_or_default (params : BedrockInferenceParams) : Z :=
  match params.(max_tokens) with
  | Some n => if n =? 0 then MAX_OUTPUT_TOKENS else n
  | None => MAX_OUTPUT_TOKENS
  end.

(** The inference configuration that [_invoke_model_for_work_item_generation]
    builds and sends. *)
Definition generation_inference_config (params : BedrockInferenceParams)
  : dict :=
  let inference_config := [("maxTokens", PInt (max_tokens_or_default params))] in
  if float_truthy params.(temperature) then
    dict_set inference_config "temperature"
      (PFloat (float_value params.(temperature)))
  else if float_truthy params.(top_p) then
    dict_set inference_config "topP" (PFloat (float_value params.(top_p)))
  else
    dict_set inference_config "temperature" (PFloat 0.5).

Local Open Scope io_scope.

Definition _invoke_model_for_work_item_evaluation (L : Library) (C : Clients)
    (self : BedrockService) (work_item : dict)
    (knowledge_context : list BedrockKnowledgeDocument)
  : io BedrockWorkItemEvaluationResponse :=
  let system_prompt := _build_work_item_evaluation_system_prompt L work_item in
  user_prompt <~ lift (_build_work_item_evaluation_user_prompt L work_item
                         knowledge_context) ;;
  content <~ _build_model_content L C self work_item user_prompt ;;
  (* the message of the debug record formats [work_item['workItemType']] *)
  _ <~ lift (dict_item work_item "workItemType") ;;
  try_except
    (let inference_config :=
       [("maxTokens", PInt 2048); ("temperature", PFloat 0.5)] in
     response <~ perform
                   (CallConverse self.(model_id) content inference_config
                      system_prompt)
                   (C.(converse) self.(model_id) content inference_config
                      system_prompt) ;;
     _ <~ lift (response_log_arguments response) ;;
     lift (_parse_work_item_evaluation L response knowledge_context))
    (fun e =>
       raise (Exception ("Bedrock model invocation failed: " ++ exn_str e))).

(** [params.refinement_instructions and params.generated_work_items] *)
Definition is_refinement (params : BedrockInferenceParams) : bool :=
  opt_truthy params.(refinement_instructions)
  && match params.(generated_work_items) with
     | Some (_ :: _) => true
     | _ => false
     end.

Definition _invoke_model_for_work_item_generation (L : Library) (C : Clients)
    (self : BedrockService) (work_item : dict)
    (existing_child_work_items : list pyval) (params : BedrockInferenceParams)
    (knowledge_context : list BedrockKnowledgeDocument) : io pyval :=
  system_prompt <~ _build_work_item_generation_system_prompt L C self
                     work_item params ;;
  user_prompt <~ lift
    (if is_refinement params then
       _build_work_item_refinement_user_prompt L work_item
         (match params.(generated_work_items) with Some l => l | None => [] end)
         (str_or params.(refinement_instructions) "")
         existing_child_work_items knowledge_context
     else
       _build_work_item_generation_user_prompt L work_item
         existing_child_work_items knowledge_context) ;;
  content <~ _build_model_content L C self work_item user_prompt ;;
  let inference_config := generation_inference_config params in
  try_except
    (response <~ perform
                   (CallConverse self.(model_id) content inference_config
                      system_prompt)
                   (C.(converse) self.(model_id) content inference_config
                      system_prompt) ;;
     _ <~ lift (response_log_arguments response) ;;
     lift (_parse_work_items L response))
    (* the handler logs [len([...], {})], a call of [len] with two
       arguments, before it reaches its own [raise] *)
    (fun e => raise (TypeError "len() takes exactly one argument (2 given)")).

(** *** The two operations

    Each body is in a [try] whose handler logs and raises the same
    exception again. *)

Definition evaluate_work_item (L : Library) (C : Clients)
    (self : BedrockService) (work_item : dict)
  : io BedrockWorkItemEvaluationResponse :=
  _ <~ lift (dict_item work_item "workItemType") ;;
  _ <~ lift (dict_item work_item "workItemId") ;;
  query <~ lift (_build_work_item_evaluation_knowledge_query L work_item) ;;
  work_item_type <~ lift (dict_item work_item "workItemType") ;;
  let filters := _build_work_item_evaluation_filters work_item_type in
  knowledge_context <~ retrieve_knowledge_context C self query (Some filters) ;;
  _invoke_model_for_work_item_evaluation L C self work_item knowledge_context.

Definition generate_work_items (L : Library) (C : Clients)
    (self : BedrockService) (work_item : dict)
    (existing_child_work_items : list pyval)
    (params : option BedrockInferenceParams)
  : io BedrockWorkItemGenerationResponse :=
  let params := match params with Some p => p | None => default_params end in
  _ <~ lift (dict_item work_item "workItemType") ;;
  _ <~ lift (dict_item work_item "workItemId") ;;
  query <~ lift (_build_work_item_breakdown_knowledge_query L work_item) ;;
  let filters := _build_work_item_breakdown_filters work_item in
  knowledge_context <~ retrieve_knowledge_context C self query (Some filters) ;;
  work_items <~ _invoke_model_for_work_item_generation L C self work_item
                  existing_child_work_items params knowledge_context ;;
  ret {| work_items := work_items; documents := knowledge_context |}.

End Engine.

(** ** [tools/bedrock_tools.py] *)

Module Tools.
Import Py Effects Bedrock.

Local Open Scope io_scope.

(** The service of the tools, built from the environment. *)
Definition bedrock_service (environ : string -> option string)
  : BedrockService :=
  init environ
    (Some (environ_get environ "AWS_REGION" "us-west-2"))
    (Some (environ_get environ "AWS_BEDROCK_MODEL_ID" ""))
    (Some (environ_get environ "AWS_BEDROCK_KNOWLEDGE_BASE_ID" ""))
    3 5 3
    (Some (environ_get environ "CONFIG_TABLE_NAME" "")).

Definition already_evaluated (work_item_type : string) : string :=
  "The " ++ work_item_type ++ " has already been previously evaluated by Task Genie. Please remove the `Task Genie` tag to re-evaluate this " ++ work_item_type ++ ".".

Definition evaluate_work_item (L : Library) (C : Clients)
    (environ : string -> option string) (work_item : dict) : io string :=
  try_except
    (let tags := dict_get work_item "tags" (PList []) in
     tagged <~ lift (contains tags "Task Genie") ;;
     if tagged then
       t <~ lift (dict_item work_item "workItemType") ;;
       _ <~ lift (dict_item work_item "workItemType") ;;
       ret (already_evaluated (py_str L t))
     else
       result <~ Engine.evaluate_work_item L C (bedrock_service environ)
                   work_item ;;
       ret (L.(json_dumps)
              (PDict [("pass", result.(passed));
                      ("comment", result.(comment));
                      ("sources", PList (map PStr result.(sources)))])))
    (fun e => ret ("Error evaluating work item: " ++ exn_str e)).

(** [bedrock_service.generate_work_items(work_item, existing, params)] with
    the [params] of the tool, a dict or [None].  [None] and the empty dict
    are replaced by the default parameters.  Any other dict stays: the
    first record logged formats the type and the id of the work item and
    then reads [params.refinement_instructions], which a dict does not
    have. *)
Definition service_generate_work_items (L : Library) (C : Clients)
    (self : BedrockService) (work_item : dict)
    (existing_child_work_items : list pyval) (params : option dict)
  : io BedrockWorkItemGenerationResponse :=
  match params with
  | Some (_ :: _) =>
      _ <~ lift (dict_item work_item "workItemType") ;;
      _ <~ lift (dict_item work_item "workItemId") ;;
      _ <~ lift (dict_item work_item "workItemId") ;;
      raise (AttributeError
               "'dict' object has no attribute 'refinement_instructions'")
  | _ =>
      Engine.generate_work_items L C self work_item existing_child_work_items
        None
  end.

(** The entry of one document in the answer of the generation tool. *)
Definition document_entry (doc : BedrockKnowledgeDocument) : pyval :=
  PDict [("content", PStr doc.(content));
         ("source", PStr doc.(source));
         ("score", PFloat doc.(score))].

Definition generate_work_items (L : Library) (C : Clients)
    (environ : string -> option string) (work_item : dict)
    (existing_child_work_items : list pyval) (params : option dict)
  : io string :=
  try_except
    (result <~ service_generate_work_items L C (bedrock_service environ)
                 work_item existing_child_work_items params ;;
     ret (L.(json_dumps)
            (PDict [("workItems", result.(work_items));
                    ("documents",
                     PList (map document_entry result.(documents)))])))
    (fun e => ret ("Error generating work items: " ++ exn_str e)).

End Tools.

(** ** [services/azure_service.py]: the image download *)

Module Azure.
Import Py Effects Bedrock.

Local Open Scope result_scope.

(** What the tracking client reaches over the network, each a request that
    is answered or raises.
    - [secrets_client]: the making of the client of the secret store, in
      the constructor.
    - [access_token]: [self._get_access_token()].
    - [http_get url headers]: the making of the HTTP client and
      [client.get(url, headers=headers)], followed by [raise_for_status()];
      the answer is the content of the response. *)
Record Web : Type := {
  secrets_client : result unit;
  access_token : result string;
  http_get : pyval -> list (string * string) -> result (list byte)
}.

(** [AzureService.__init__] *)
Definition init (environ : string -> option string) (W : Web) : result unit :=
  match environ "AZURE_DEVOPS_ORGANIZATION" with
  | Some organization =>
      if str_eqb organization "" then
        Raise (ValueError
                 "AZURE_DEVOPS_ORGANIZATION environment variable is required")
      else W.(secrets_client)
  | None =>
      Raise (ValueError
               "AZURE_DEVOPS_ORGANIZATION environment variable is required")
  end.

(** The URL and the headers of the request for an image: an attachment of
    the tracking system is asked for as a download, with the access token;
    any other image with the user agent of the agent. *)
Definition image_request (L : Library) (W : Web) (image_url : pyval)
  : result (pyval * list (string * string)) :=
  visualstudio <- contains image_url "visualstudio.com" ;;
  attachment <- (if visualstudio then Return true
                 else contains image_url "azure.com") ;;
  if attachment then
    let url := PStr (py_str L image_url ++ "&download=true&api-version=7.1") in
    token <- W.(access_token) ;;
    Return (url, [("Authorization", "Bearer " ++ token)])
  else Return (image_url, [("User-Agent", "TaskGenie/1.0")]).

(** [fetch_image]: the body is in a [try] whose handler returns [None]. *)
Definition fetch_image (L : Library) (W : Web)
    (b64encode : list byte -> string) (image_url : pyval) : option string :=
  match (request <- image_request L W image_url ;;
         content <- W.(http_get) (fst request) (snd request) ;;
         Return (b64encode content)) with
  | Return base64_data => Some base64_data
  | Raise _ => None
  end.

(** [AzureService().fetch_image(image_url)], as the content builder calls
    it. *)
Definition new_service_fetch_image (environ : string -> option string)
    (L : Library) (W : Web) (b64encode : list byte -> string)
    (image_url : pyval) : result (option string) :=
  _ <- init environ W ;;
  Return (fetch_image L W b64encode image_url).

(** The collaborators of the service, the images coming from the tracking
    client. *)
Definition clients (C : Clients) (environ : string -> option string)
    (L : Library) (W : Web) (b64encode : list byte -> string) : Clients :=
  {| retrieve := C.(retrieve);
     converse := C.(converse);
     Effects.fetch_image := new_service_fetch_image environ L W b64encode;
     get_item := C.(get_item) |}.

End Azure.

(** ** Worked inputs

    The library functions as the programs of [Lib], and collaborators with
    fixed answers. *)

Module Worked.
Import Py Effects Bedrock.

Definition python : Library :=
  {| json_loads := Lib.loads;
     json_dumps := Lib.dumps;
     py_repr := Lib.repr;
     b64decode := Lib.b64decode |}.

(** Text written with single quotes, read with double quotes. *)
Definition q (s : string) : string :=
  string_of_list_ascii
    (map (fun c => if Ascii.eqb c "'" then ascii_of_nat 34 else c)
       (list_ascii_of_string s)).

(** A response of the inference client with one text item and a number of
    output tokens. *)
Definition response_with (text : string) (output_tokens : Z) : pyval :=
  PDict [("output",
          PDict [("message",
                  PDict [("role", PStr "assistant");
                         ("content", PList [PDict [("text", PStr text)]])])]);
         ("stopReason", PStr "end_turn");
         ("usage", PDict [("inputTokens", PInt 900);
                          ("outputTokens", PInt output_tokens)])].

(** Collaborators: a knowledge base that is out of reach, an inference
    client that answers [response], images that all arrive as the same
    small JPEG, and a config store without items. *)
Definition clients (response : pyval) : Clients :=
  {| retrieve := fun _ _ _ =>
       Raise (ClientError "EndpointConnectionError" "Could not connect");
     converse := fun _ _ _ _ => Return response;
     fetch_image := fun _ => Return (Some "/9j/4AAQSkZJRgABAQ==");
     get_item := fun _ _ => Return None |}.

Definition service : BedrockService :=
  {| region := "us-west-2";
     model_id := "model";
     knowledge_base_id := "kb";
     max_knowledge_documents := 3;
     max_image_size := 5;
     max_images := 3;
     config_table_name := "config" |}.

(** Forty times the ten digits: a text of 400 characters. *)
Definition long_text : string :=
  String.concat "" (repeat "0123456789" 40).

Definition long_document : BedrockKnowledgeDocument :=
  {| content := long_text;
     content_length := 400;
     source := "s3://kb/guide.md";
     score := 0.5 |}.


(** The record of the knowledge base that the document comes from. *)
Definition long_record : retrieval_result :=
  {| r_text := Some long_text;
     r_uri := Some "s3://kb/guide.md";
     r_score := Some 0.5%float |}.

Definition user_story : dict :=
  [("workItemId", PInt 42);
   ("workItemType", PStr "User Story");
   ("processTemplate", PStr "Agile");
   ("title", PStr "Export the report");
   ("description", PStr "As an analyst I want to export the report");
   ("acceptanceCriteria", PStr "A CSV file is downloaded");
   ("areaPath", PStr "Reports");
   ("tags", PList [PStr "Reporting"])].

(** Parameters that set the maximum of output tokens to 2048, and a reply
    of one task that reports 2048 output tokens. *)
Definition short_params : BedrockInferenceParams :=
  {| prompt := None; temperature := None; top_p := None;
     max_tokens := Some 2048; refinement_instructions := None;
     generated_work_items := None |}.

Definition one_task : pyval :=
  PList [PDict [("title", PStr "1. Add the export button");
                ("description", PStr "Add a button to the report page")]].

Definition short_reply : pyval :=
  response_with
    (q "{'workItems': [{'title': '1. Add the export button', 'description': 'Add a button to the report page'}]}")
    2048.

(** The same reply, reporting 10240 output tokens. *)
Definition long_reply : pyval :=
  response_with
    (q "{'workItems': [{'title': '1. Add the export button', 'description': 'Add a button to the report page'}]}")
    10240.

(** Five screenshots attached to the user story. *)
Definition screenshots : list pyval :=
  map (fun n => PDict [("url", PStr ("https://example.org/" ++ n ++ ".jpg"));
                       ("alt", PStr ("screen " ++ n))])
      ["1"; "2"; "3"; "4"; "5"].

Definition story_with_images : dict :=
  dict_set user_story "images" (PList screenshots).

(** The same user story after an evaluation, tagged. *)
Definition tagged_story : dict :=
  dict_set user_story "tags" (PList [PStr "Reporting"; PStr "Task Genie"]).

(** A record of the knowledge base without a URI and without a score. *)
Definition bare_record : retrieval_result :=
  {| r_text := Some "Exports are CSV files";
     r_uri := None;
     r_score := None |}.

(** Collaborators whose knowledge base answers every search with the two
    records, and whose config store holds a prompt for the user stories
    of the Reports area. *)
Definition stocked_clients (response : pyval) : Clients :=
  {| retrieve := fun _ _ _ => Return (Some [long_record; bare_record]);
     converse := fun _ _ _ _ => Return response;
     fetch_image := fun _ => Return None;
     get_item := fun _ key =>
       if str_eqb key "User Story#Reports##"
       then Return (Some (Some "Split the story into tasks of one day"))
       else Return None |}.

(** Sixty times nine digits and an e with an acute accent: a text of 600
    characters in 660 units, and the document and the record that hold
    it. *)
Definition accented_text : string :=
  String.concat "" (repeat ("012345678" ++ Lib.utf8 233) 60).




End Worked.

(** ** Reference definitions

    What the properties below compare the code with. *)

Module Spec.
Import Py Effects Bedrock Prompts Generation Engine.

(** The fields a breakdown search may filter on, in the order of the
    conditions. *)
Definition filter_keys : list string :=
  ["workItemType"; "areaPath"; "businessUnit"; "system"].

(** The equality conditions of a work item: one for every field of
    [filter_keys] that is present and not empty. *)
Definition present_conditions (work_item : dict) : list pyval :=
  flat_map
    (fun k =>
       match dict_lookup work_item k with
       | Some v => if truthy v then [equals k v] else []
       | None => []
       end)
    filter_keys.


(** The character [c] occurs in [s]. *)
Definition has_char (c : ascii) (s : string) : Prop :=
  In c (list_ascii_of_string s).

(** The first [n] characters of [s]. *)
Definition first_chars (n : nat) (s : string) : string :=
  String.concat "" (firstn n (characters s)).

(** Every unit of [k] continues a character. *)
Definition continues (k : string) : Prop :=
  Forall (fun c => is_continuation c = true) (list_ascii_of_string k).

(** [g] is one character: a unit that starts one and the units that
    continue it. *)
Definition is_character (g : string) : Prop :=
  match g with
  | String c k => is_continuation c = false /\ continues k
  | EmptyString => False
  end.


(** [part] occurs in [whole]. *)
Definition embeds (part whole : string) : Prop :=
  exists before after, whole = before ++ part ++ after.


(** The text of a record of the knowledge base. *)
Definition text_of (r : retrieval_result) : string :=
  match r.(r_text) with
  | Some t => t
  | None => ""
  end.


(** The block of an image that is accepted: its data arrives, is not
    empty, is within the size limit and decodes.  Nothing for an image
    that is not. *)
Definition image_block (L : Library) (C : Clients) (self : BedrockService)
    (image : pyval) : option block :=
  match image with
  | PDict d =>
      match C.(fetch_image) (dict_get d "url" (PStr "")) with
      | Return (Some data) =>
          if negb (str_eqb data "") && _is_image_size_valid self data then
            match L.(b64decode) data with
            | Return bytes => Some (ImageBlock (_detect_image_format bytes) bytes)
            | Raise _ => None
            end
          else None
      | _ => None
      end
  | _ => None
  end.

Definition accepted_blocks (L : Library) (C : Clients) (self : BedrockService)
    (images : list pyval) : list block :=
  flat_map (fun image => match image_block L C self image with
                         | Some b => [b]
                         | None => []
                         end) images.

(** The request for the data of an image. *)
Definition fetch_of (image : pyval) : call :=
  CallFetchImage (match image with
                  | PDict d => dict_get d "url" (PStr "")
                  | _ => PStr ""
                  end).

Definition is_dict (v : pyval) : Prop := exists d, v = PDict d.

Definition is_image_block (b : block) : Prop :=
  exists format bytes, b = ImageBlock format bytes.


(** The response reports [n] output tokens. *)
Definition output_tokens (response : pyval) (n : Z) : Prop :=
  exists usage,
    get response "usage" (PDict []) = Return usage
    /\ get usage "outputTokens" (PInt 0) = Return (PInt n).

(** The first content item of the response has the text [text]. *)
Definition response_text (response : pyval) (text : pyval) : Prop :=
  exists first rest,
    message_content_of response = Return (PList (first :: rest))
    /\ get first "text" (PStr "") = Return text.

(** The computation ends with an exception. *)
Definition raises {A} (m : io A) (log : list call) : Prop :=
  exists e log', m log = (Raise e, log').

(** The buffer starts with the bytes of [signature]. *)
Definition starts_with (signature buffer : list byte) : Prop :=
  firstn (List.length signature) buffer = signature.

(** The key of a work item in the config store: its type, its area path,
    its business unit and its system, joined by [#]; a field the work item
    does not have counts as the empty text. *)
Definition prompt_key (L : Library) (work_item : dict) : string :=
  join "#"
    (map (fun k => py_str L (dict_get work_item k (PStr "")))
         ["workItemType"; "areaPath"; "businessUnit"; "system"]).

(** The prompt of an item of the config store, when the store answers with
    an item that has one. *)
Definition stored_prompt (answer : result (option (option string)))
  : option string :=
  match answer with
  | Return (Some (Some prompt)) => Some prompt
  | _ => None
  end.

(** The name of a child type inside a sentence, and the field that its
    items have beside a title and a description, with the name of that
    field inside a sentence. *)
Definition child_wording (child : string) : string * option (string * string) :=
  if str_eqb child "Task" then ("task", None)
  else if str_eqb child "Feature" then
    ("feature", Some ("successCriteria", "success criteria"))
  else if str_eqb child "Product Backlog Item" then
    ("product backlog item",
     Some ("acceptanceCriteria", "acceptance criteria"))
  else ("user story", Some ("acceptanceCriteria", "acceptance criteria")).

(** The output rules of a generation for work items of the type [child]. *)
Definition rules_text (child : string) : string :=
  let '(name, criteria) := child_wording child in
  nl ++ nl ++ "**Output Rules**" ++ nl
  ++ "- ONLY return a JSON object with the following structure:" ++ nl
  ++ "  - " ++ dq ++ "workItems" ++ dq ++ ": array of " ++ name
  ++ " objects, each with:" ++ nl
  ++ "    - " ++ dq ++ "title" ++ dq ++ ": string (" ++ name
  ++ " title, prefixed with order, e.g., " ++ dq ++ "1. " ++ child
  ++ " Title" ++ dq ++ ")" ++ nl
  ++ "    - " ++ dq ++ "description" ++ dq ++ ": string (detailed " ++ name
  ++ " description with HTML formatting)" ++ nl
  ++ match criteria with
     | Some (field, wording) =>
         "    - " ++ dq ++ field ++ dq ++ ": string (detailed " ++ wording
         ++ " with HTML formatting)" ++ nl
     | None => ""
     end
  ++ "- DO NOT output any text outside of the JSON object.".

(** The output rules that end the system prompt of a generation: those
    of the child type of the work item, and nothing for a work item that
    has no child type. *)
Definition output_rules (work_item : dict) : string :=
  match _get_expected_child_work_item_type work_item false with
  | Some child => rules_text child
  | None => ""
  end.

(** The first of [keys] that the work item does not have. *)
Definition first_missing (keys : list string) (work_item : dict)
  : option string :=
  find (fun k => negb (dict_has work_item k)) keys.

(** The response reports no number of output tokens at or above the
    ceiling: the test of the parser passes. *)
Definition within_ceiling (response : pyval) : Prop :=
  exists usage tokens,
    get response "usage" (PDict []) = Return usage
    /\ get usage "outputTokens" (PInt 0) = Return tokens
    /\ (if truthy tokens then ge_int tokens MAX_OUTPUT_TOKENS
        else Return false) = Return false.

(** [len(v)] is defined: [v] is a list, a dict or a string. *)
Definition sized (v : pyval) : Prop := exists n, len v = Return n.



(** Every exception that [r], or [m], ends with satisfies [P]. *)
Definition result_raises_only {A} (P : exn -> Prop) (r : result A) : Prop :=
  forall e, r = Raise e -> P e.


(** The parameters without what a refinement needs. *)
Definition without_refinement (params : BedrockInferenceParams)
  : BedrockInferenceParams :=
  {| prompt := params.(prompt);
     temperature := params.(temperature);
     top_p := params.(top_p);
     max_tokens := params.(max_tokens);
     refinement_instructions := None;
     generated_work_items := None |}.

(** The documents that a search with [query] and [filters] gives. *)
Definition retrieved (C : Clients) (self : BedrockService) (query : string)
    (filters : dict) : list BedrockKnowledgeDocument :=
  match C.(retrieve) self.(knowledge_base_id) query
          (retrieval_configuration self (Some filters)) with
  | Return (Some results) => _process_knowledge_results results
  | _ => []
  end.

(** The call is a request for the data of an image. *)
Definition is_fetch (c : call) : Prop := exists url, c = CallFetchImage url.

(** The text holds no tag: no [<] with a [>] somewhere after it. *)
Definition no_tag (s : string) : Prop :=
  forall a b c, s <> a ++ "<" ++ b ++ ">" ++ c.

End Spec.

(** * Properties *)

Import Py Effects Bedrock Prompts Generation Engine.

(** ** Values *)

Lemma eq_str_true (v : pyval) (lit : string) :
  eq_str v lit = true <-> v = PStr lit.
Proof.
  destruct v; simpl; try (split; [discriminate | congruence]).
  unfold str_eqb. rewrite String.eqb_eq. split; congruence.
Qed.

Lemma eq_str_false (v : pyval) (lit : string) :
  eq_str v lit = false <-> v <> PStr lit.
Proof.
  rewrite <- eq_str_true. destruct (eq_str v lit); split; congruence.
Qed.

Lemma dict_get_lookup (d : dict) (k : string) (default v : pyval) :
  dict_lookup d k = Some v -> dict_get d k default = v.
Proof. unfold dict_get. now intros ->. Qed.

Lemma dict_get_absent (d : dict) (k : string) (default : pyval) :
  dict_lookup d k = None -> dict_get d k default = default.
Proof. unfold dict_get. now intros ->. Qed.

(** The text of a float is the shortest that reads back as it: that of
    floats given by their bits, and that of floats read from a text. *)
Lemma float_text_shortest :
  map Lib.float_text
    [0x1.999999999999ap-4; 0x1.3333333333334p-2; 0x1.1c37937e08p+53;
     0x1.4f8b588e368f1p-17; 0x1.0000000000001p+50; 0x1p-1074; 0x1.8p+1]%float
  = ["0.1"; "0.30000000000000004"; "1e+16"; "1e-05"; "1125899906842624.2";
     "5e-324"; "3.0"]
  /\ map (fun w => Lib.float_text (Lib.decimal_float w))
       ["0.85"; "2.50"; "-123456.789"; "1e22"; "0.0001"; "12e-7"]
     = ["0.85"; "2.5"; "-123456.789"; "1e+22"; "0.0001"; "1.2e-06"].
Proof. split; vm_compute; reflexivity. Qed.

(** ** The type-hierarchy resolver *)

Section TypeHierarchy.

Variable work_item : dict.

Let type_is (t : string) : Prop :=
  dict_lookup work_item "workItemType" = Some (PStr t).

Let template_is (t : string) : Prop :=
  dict_lookup work_item "processTemplate" = Some (PStr t).

Lemma not_type_is_eq_str (t : string) :
  ~ type_is t -> t <> "" ->
  eq_str (dict_get work_item "workItemType" (PStr "")) t = false.
Proof.
  unfold type_is, dict_get. intros H Hne. apply eq_str_false.
  destruct (dict_lookup work_item "workItemType") as [v|].
  - intros ->. now apply H.
  - congruence.
Qed.

Lemma type_is_get (t : string) :
  type_is t -> dict_get work_item "workItemType" (PStr "") = PStr t.
Proof. apply dict_get_lookup. Qed.

(** C1.  The expected child type of a work item, singular or plural, is:
    Feature(s) for an Epic; Product Backlog Item(s) for a Feature whose
    process template is Scrum; User Story/Stories for a Feature with any
    other process template, or with none; Task(s) for a User Story or a
    Product Backlog Item; and nothing for every other type, Task and
    unknown and missing types included, whatever the plural flag. *)
Theorem expected_child_type_table (plural : bool) :
  let child := _get_expected_child_work_item_type work_item plural in
  (type_is "Epic" ->
   child = Some (if plural then "Features" else "Feature"))
  /\ (type_is "Feature" -> template_is "Scrum" ->
      child = Some (if plural then "Product Backlog Items"
                    else "Product Backlog Item"))
  /\ (type_is "Feature" -> ~ template_is "Scrum" ->
      child = Some (if plural then "User Stories" else "User Story"))
  /\ (type_is "User Story" \/ type_is "Product Backlog Item" ->
      child = Some (if plural then "Tasks" else "Task"))
  /\ (~ type_is "Epic" -> ~ type_is "Feature" -> ~ type_is "User Story" ->
      ~ type_is "Product Backlog Item" ->
      child = None).
Proof.
  cbv zeta. unfold _get_expected_child_work_item_type.
  repeat split.
  - intros H. now rewrite (type_is_get _ H).
  - intros H Ht. rewrite (type_is_get _ H). cbn.
    unfold template_is in Ht. now rewrite (dict_get_lookup _ _ _ _ Ht).
  - intros H Ht. rewrite (type_is_get _ H). cbn.
    replace (eq_str (dict_get work_item "processTemplate" (PStr "")) "Scrum")
      with false; [reflexivity|].
    symmetry. apply eq_str_false. unfold template_is, dict_get in *.
    destruct (dict_lookup work_item "processTemplate") as [v|].
    + intros ->. now apply Ht.
    + discriminate.
  - intros [H | H]; now rewrite (type_is_get _ H).
  - intros H1 H2 H3 H4.
    now rewrite !not_type_is_eq_str by first [assumption | discriminate].
Qed.

End TypeHierarchy.

(** The table on an Epic, on a Feature of a Scrum and of an Agile project,
    on a Product Backlog Item and on a Task. *)
Lemma expected_child_type_table_witness :
  _get_expected_child_work_item_type [("workItemType", PStr "Epic")] false
  = Some "Feature"
  /\ _get_expected_child_work_item_type
       [("workItemType", PStr "Feature"); ("processTemplate", PStr "Scrum")] true
     = Some "Product Backlog Items"
  /\ _get_expected_child_work_item_type
       [("workItemType", PStr "Feature"); ("processTemplate", PStr "Agile")] true
     = Some "User Stories"
  /\ _get_expected_child_work_item_type
       [("workItemType", PStr "Product Backlog Item")] false
     = Some "Task"
  /\ _get_expected_child_work_item_type [("workItemType", PStr "Task")] true
     = None.
Proof.
  split; [|split; [|split; [|split]]].
  - apply (proj1 (expected_child_type_table
                    [("workItemType", PStr "Epic")] false)).
    reflexivity.
  - apply (proj1 (proj2 (expected_child_type_table
                           [("workItemType", PStr "Feature");
                            ("processTemplate", PStr "Scrum")] true)));
      reflexivity.
  - apply (proj1 (proj2 (proj2 (expected_child_type_table
                                  [("workItemType", PStr "Feature");
                                   ("processTemplate", PStr "Agile")] true)))).
    + reflexivity.
    + discriminate.
  - apply (proj1 (proj2 (proj2 (proj2 (expected_child_type_table
                                         [("workItemType",
                                           PStr "Product Backlog Item")]
                                         false))))).
    right. reflexivity.
  - apply (proj2 (proj2 (proj2 (proj2 (expected_child_type_table
                                         [("workItemType", PStr "Task")]
                                         true)))));
      discriminate.
Defined.

(** ** The inference configuration *)

(** Whatever the parameters, the configuration holds the token ceiling and
    exactly one of the two sampling parameters. *)
Lemma generation_config_one_sampling_parameter (params : BedrockInferenceParams) :
  dict_has (generation_inference_config params) "maxTokens" = true
  /\ xorb (dict_has (generation_inference_config params) "temperature")
          (dict_has (generation_inference_config params) "topP") = true.
Proof.
  unfold generation_inference_config.
  destruct (float_truthy (temperature params));
    [| destruct (float_truthy (top_p params))]; split; reflexivity.
Qed.

(** A temperature or a top-p that is not zero is sent as given, the
    temperature first. *)
Lemma generation_config_nonzero (params : BedrockInferenceParams) (t : float) :
  temperature params = Some t -> float_is_zero t = false ->
  dict_lookup (generation_inference_config params) "temperature"
  = Some (PFloat t).
Proof.
  intros Ht Hz. unfold generation_inference_config, float_truthy, truthy.
  rewrite Ht, Hz. reflexivity.
Qed.

(** C5.  A temperature of zero is a temperature given, and it is not
    sent: alone, the default 0.5 goes out in its place; with a top-p,
    the top-p goes out, so the temperature does not take precedence.
    A top-p of zero given alone is not sent either. *)
Theorem temperature_zero_is_not_sent :
  generation_inference_config
    {| prompt := None; temperature := Some 0%float; top_p := None;
       max_tokens := None; refinement_instructions := None;
       generated_work_items := None |}
  = [("maxTokens", PInt 10240); ("temperature", PFloat 0.5)]
  /\ generation_inference_config
       {| prompt := None; temperature := Some 0%float; top_p := Some 0.75%float;
          max_tokens := None; refinement_instructions := None;
          generated_work_items := None |}
     = [("maxTokens", PInt 10240); ("topP", PFloat 0.75)]
  /\ generation_inference_config
       {| prompt := None; temperature := None; top_p := Some 0%float;
          max_tokens := None; refinement_instructions := None;
          generated_work_items := None |}
     = [("maxTokens", PInt 10240); ("temperature", PFloat 0.5)].
Proof. repeat split; reflexivity. Qed.

(** ** The breakdown filter *)

Lemma append_condition_spec (work_item : dict) (k : string) (l : list pyval) :
  append_condition work_item k l
  = (l ++ match dict_lookup work_item k with
          | Some v => if truthy v then [equals k v] else []
          | None => []
          end)%list.
Proof.
  unfold append_condition.
  destruct (dict_lookup work_item k) as [v|]; [destruct (truthy v)|];
    now rewrite ?app_nil_r.
Qed.

Lemma breakdown_filter_conditions (work_item : dict) :
  append_condition work_item "system"
    (append_condition work_item "businessUnit"
       (append_condition work_item "areaPath"
          (append_condition work_item "workItemType" [])))
  = Spec.present_conditions work_item.
Proof.
  rewrite !append_condition_spec. unfold Spec.present_conditions. cbn.
  now rewrite app_nil_r, <- !app_assoc.
Qed.

Lemma equals_inj (k k' : string) (v v' : pyval) :
  equals k v = equals k' v' -> k = k' /\ v = v'.
Proof. unfold equals. intros H. inversion H. auto. Qed.

(** C8.  The breakdown filter is made of the equality conditions on the
    work-item type, the area path, the business unit and the system, one
    for each field that is present and not empty: two or more are joined
    under [andAll], a single one is the filter itself, and with none the
    result is the empty dict. *)
Theorem breakdown_filters_spec (work_item : dict) :
  let conditions := Spec.present_conditions work_item in
  (forall k v, In k Spec.filter_keys ->
     (In (equals k v) conditions
      <-> dict_lookup work_item k = Some v /\ truthy v = true))
  /\ ((2 <= List.length conditions)%nat ->
      _build_work_item_breakdown_filters work_item
      = [("filter", PDict [("andAll", PList conditions)])])
  /\ (forall c, conditions = [c] ->
      _build_work_item_breakdown_filters work_item = [("filter", c)])
  /\ (conditions = [] ->
      _build_work_item_breakdown_filters work_item = []).
Proof.
  cbv zeta. split; [|unfold _build_work_item_breakdown_filters;
                      rewrite breakdown_filter_conditions; repeat split].
  - intros k v Hk. unfold Spec.present_conditions.
    rewrite in_flat_map. split.
    + intros (k' & _ & Hin).
      destruct (dict_lookup work_item k') as [v'|] eqn:Hl; [|contradiction].
      destruct (truthy v') eqn:Ht; [|contradiction].
      destruct Hin as [Heq | []]. apply equals_inj in Heq as [-> ->]. auto.
    + intros [Hl Ht]. exists k. split; [assumption|].
      rewrite Hl, Ht. now left.
  - intros Hlen.
    destruct (Z.leb_spec 2 (Z.of_nat (List.length (Spec.present_conditions work_item))));
      [reflexivity | lia].
  - intros c ->. reflexivity.
  - intros ->. reflexivity.
Qed.

(** The filter of a work item with a type and an area path, of one with
    an area path only, and of one with neither. *)
Lemma breakdown_filters_spec_witness :
  In (equals "areaPath" (PStr "Reports"))
     (Spec.present_conditions Worked.user_story)
  /\ _build_work_item_breakdown_filters Worked.user_story
     = [("filter",
         PDict [("andAll",
                 PList [equals "workItemType" (PStr "User Story");
                        equals "areaPath" (PStr "Reports")])])]
  /\ _build_work_item_breakdown_filters
       [("areaPath", PStr "Reports"); ("system", PStr "")]
     = [("filter", equals "areaPath" (PStr "Reports"))]
  /\ _build_work_item_breakdown_filters [("title", PStr "Untyped")] = [].
Proof.
  split; [|split; [|split]].
  - apply (proj1 (breakdown_filters_spec Worked.user_story)).
    + right. left. reflexivity.
    + split; reflexivity.
  - apply (proj1 (proj2 (breakdown_filters_spec Worked.user_story))).
    vm_compute. lia.
  - apply (proj1 (proj2 (proj2 (breakdown_filters_spec
                                  [("areaPath", PStr "Reports");
                                   ("system", PStr "")])))).
    reflexivity.
  - apply (proj2 (proj2 (proj2 (breakdown_filters_spec
                                  [("title", PStr "Untyped")])))).
    reflexivity.
Defined.

(** ** Strings: searching and slicing *)

Section Search.

Variable c : ascii.

Let pat : string := String c EmptyString.

Lemma prefix_single (s : string) :
  String.prefix pat s
  = match s with
    | String b _ => Ascii.eqb c b
    | EmptyString => false
    end.
Proof.
  destruct s as [|b t]; [reflexivity|]. unfold pat. simpl.
  destruct (ascii_dec c b) as [->|Hne].
  - rewrite Ascii.eqb_refl. now destruct t.
  - symmetry. now apply Ascii.eqb_neq.
Qed.

Lemma has_char_cons (b : ascii) (s : string) :
  Spec.has_char c (String b s) <-> b = c \/ Spec.has_char c s.
Proof. reflexivity. Qed.

Lemma find_from_bounds (sub s : string) (i : Z) :
  find_from sub s i = -1 \/ i <= find_from sub s i.
Proof.
  revert i. induction s as [|b t IH]; intros i; cbn [find_from].
  - destruct (String.prefix sub ""); lia.
  - destruct (String.prefix sub (String b t)); [lia|].
    destruct (IH (i + 1)); lia.
Qed.

Lemma find_from_absent (s : string) (i : Z) :
  ~ Spec.has_char c s -> find_from pat s i = -1.
Proof.
  revert i. induction s as [|b t IH]; intros i H.
  - reflexivity.
  - rewrite has_char_cons in H.
    cbn [find_from]. rewrite prefix_single.
    destruct (Ascii.eqb_spec c b) as [->|_]; [tauto|].
    apply IH. tauto.
Qed.

Lemma find_from_skip (a rest : string) (i : Z) :
  ~ Spec.has_char c a ->
  find_from pat (a ++ rest) i = find_from pat rest (i + str_len a).
Proof.
  revert i. induction a as [|b t IH]; intros i H.
  - simpl. f_equal. unfold str_len. simpl. lia.
  - rewrite has_char_cons in H.
    cbn [append find_from]. rewrite prefix_single.
    destruct (Ascii.eqb_spec c b) as [->|_]; [tauto|].
    rewrite IH by tauto. f_equal. unfold str_len. simpl String.length. lia.
Qed.

Lemma find_from_here (rest : string) (i : Z) :
  find_from pat (String c rest) i = i.
Proof.
  cbn [find_from]. rewrite prefix_single. now rewrite Ascii.eqb_refl.
Qed.

Lemma rfind_from_bounds (sub s : string) (i : Z) :
  rfind_from sub s i = -1 \/ i <= rfind_from sub s i.
Proof.
  revert i. induction s as [|b t IH]; intros i; cbn [rfind_from].
  - destruct (String.prefix sub ""); lia.
  - cbv zeta. destruct (IH (i + 1)) as [-> | H].
    + rewrite Z.eqb_refl. destruct (String.prefix sub (String b t)); lia.
    + destruct (Z.eqb_spec (rfind_from sub t (i + 1)) (-1)); [|lia].
      destruct (String.prefix sub (String b t)); lia.
Qed.

Lemma rfind_from_absent (s : string) (i : Z) :
  ~ Spec.has_char c s -> rfind_from pat s i = -1.
Proof.
  revert i. induction s as [|b t IH]; intros i H.
  - reflexivity.
  - rewrite has_char_cons in H.
    cbn [rfind_from]. cbv zeta. rewrite IH by tauto. simpl Z.eqb. cbv iota.
    rewrite prefix_single.
    destruct (Ascii.eqb_spec c b) as [->|_]; [tauto|reflexivity].
Qed.

Lemma rfind_from_last (a post : string) (i : Z) :
  0 <= i -> ~ Spec.has_char c post ->
  rfind_from pat (a ++ String c post) i = i + str_len a.
Proof.
  revert i. induction a as [|b t IH]; intros i Hi H.
  - cbn [append rfind_from]. cbv zeta.
    rewrite rfind_from_absent by assumption. simpl Z.eqb. cbv iota.
    rewrite prefix_single, Ascii.eqb_refl. unfold str_len. simpl. lia.
  - cbn [append rfind_from]. cbv zeta.
    rewrite IH by (assumption || lia).
    destruct (Z.eqb_spec (i + 1 + str_len t) (-1)) as [E|_].
    + unfold str_len in E. lia.
    + unfold str_len. simpl String.length. lia.
Qed.

End Search.

Lemma str_len_app (a b : string) : str_len (a ++ b) = str_len a + str_len b.
Proof.
  unfold str_len. induction a as [|x a IH]; cbn [append String.length]; lia.
Qed.

Lemma str_len_cons (c : ascii) (s : string) :
  str_len (String c s) = 1 + str_len s.
Proof. unfold str_len. cbn [String.length]. lia. Qed.

Lemma str_len_nonneg (s : string) : 0 <= str_len s.
Proof. unfold str_len. lia. Qed.

Lemma substring_prefix (x b : string) :
  String.substring 0 (String.length x) (x ++ b) = x.
Proof.
  induction x as [|y x IH]; simpl.
  - now destruct b.
  - now rewrite IH.
Qed.

Lemma substring_middle (a x b : string) :
  String.substring (String.length a) (String.length x) (a ++ x ++ b) = x.
Proof.
  induction a as [|y a IH]; simpl.
  - apply substring_prefix.
  - apply IH.
Qed.

Lemma str_slice_middle (a x b : string) :
  str_slice (a ++ x ++ b) (str_len a) (str_len a + str_len x) = x.
Proof.
  unfold str_slice, clamp. rewrite !str_len_app.
  pose proof (str_len_nonneg a). pose proof (str_len_nonneg x).
  pose proof (str_len_nonneg b).
  destruct (Z.ltb_spec (str_len a) 0); [lia|].
  destruct (Z.ltb_spec (str_len a + str_len x) 0); [lia|].
  rewrite !Z.min_r, !Z.max_r by lia.
  replace (str_len a + str_len x - str_len a) with (str_len x) by lia.
  unfold str_len. rewrite !Nat2Z.id. apply substring_middle.
Qed.

(** ** The lenient JSON parser *)

(** C4.  The parser decodes the stretch of the text from its first opening
    brace to its last closing brace, both included, and returns what the
    decoder returns for it: the object when the stretch is well-formed
    JSON, whatever surrounds it, and nothing when it is not.  It returns
    nothing when the text has no opening brace, no closing brace, or its
    last closing brace before its first opening brace. *)
Theorem safe_json_parse_spec (L : Library) (input_str : string) :
  (~ Spec.has_char "{" input_str -> _safe_json_parse L input_str = None)
  /\ (~ Spec.has_char "}" input_str -> _safe_json_parse L input_str = None)
  /\ (forall before after,
        input_str = before ++ "}" ++ after ->
        ~ Spec.has_char "{" before -> ~ Spec.has_char "}" after ->
        _safe_json_parse L input_str = None)
  /\ (forall before inner after,
        input_str = before ++ "{" ++ inner ++ "}" ++ after ->
        ~ Spec.has_char "{" before -> ~ Spec.has_char "}" after ->
        _safe_json_parse L input_str
        = L.(json_loads) ("{" ++ inner ++ "}")).
Proof.
  unfold _safe_json_parse, str_find, str_rfind. repeat split.
  - intros H. now rewrite find_from_absent.
  - intros H. rewrite (rfind_from_absent _ _ _ H).
    now rewrite Bool.orb_true_r.
  - intros before after -> Hb Ha. cbn [append].
    rewrite (rfind_from_last "}" before after 0) by (lia || assumption).
    rewrite find_from_skip by assumption. cbn [append find_from].
    rewrite prefix_single. simpl Ascii.eqb. cbv iota.
    destruct (find_from_bounds "{" after (0 + str_len before + 1)) as [-> | H].
    + reflexivity.
    + destruct (Z.eqb_spec (find_from "{" after (0 + str_len before + 1)) (-1));
        [reflexivity|].
      destruct (Z.eqb_spec (0 + str_len before) (-1)); [reflexivity|].
      destruct (Z.leb_spec (0 + str_len before)
                  (find_from "{" after (0 + str_len before + 1)));
        [reflexivity | lia].
  - intros before inner after -> Hb Ha. cbn [append].
    set (s := before ++ String "{" (inner ++ String "}" after)).
    pose proof (str_len_nonneg before) as Hlb.
    pose proof (str_len_nonneg inner) as Hli.
    assert (Hstart : find_from "{" s 0 = str_len before).
    { unfold s. rewrite find_from_skip by assumption.
      rewrite find_from_here. lia. }
    assert (Hend : rfind_from "}" s 0 = str_len before + 1 + str_len inner).
    { replace s with ((before ++ String "{" inner) ++ String "}" after).
      - rewrite rfind_from_last by (lia || assumption).
        rewrite str_len_app, str_len_cons. lia.
      - unfold s. clear. induction before as [|x t IH]; simpl; [reflexivity|].
        now rewrite IH. }
    assert (Hslice : str_slice s (str_len before)
                       (str_len before + 1 + str_len inner + 1)
                     = String "{" (inner ++ "}")).
    { replace s with (before ++ String "{" (inner ++ "}") ++ after).
      - replace (str_len before + 1 + str_len inner + 1)
          with (str_len before + str_len (String "{" (inner ++ "}"))).
        + apply str_slice_middle.
        + rewrite str_len_cons, str_len_app.
          change (str_len "}") with 1. lia.
      - unfold s. f_equal. cbn [append]. f_equal. clear.
        induction inner as [|y u IHu]; simpl; [reflexivity|].
        now rewrite IHu. }
    rewrite Hstart, Hend, Hslice.
    destruct (Z.eqb_spec (str_len before) (-1)); [lia|].
    destruct (Z.eqb_spec (str_len before + 1 + str_len inner) (-1)); [lia|].
    destruct (Z.leb_spec (str_len before + 1 + str_len inner) (str_len before));
      [lia|].
    reflexivity.
Qed.

Ltac no_such_char := intros H; vm_compute in H; intuition discriminate.

(** The parser on a reply with prose around the object, and on replies
    without an opening brace, without a closing brace, and with the two
    in the wrong order. *)
Lemma safe_json_parse_spec_witness :
  _safe_json_parse Worked.python
    (Worked.q "Sure, here it is: {'pass': true, 'n': [1, 2]} Anything else?")
  = Some (PDict [("pass", PBool true); ("n", PList [PInt 1; PInt 2])])
  /\ _safe_json_parse Worked.python "pass: true }" = None
  /\ _safe_json_parse Worked.python "{ pass: true" = None
  /\ _safe_json_parse Worked.python "} and {" = None.
Proof.
  split; [|split; [|split]].
  - rewrite (proj2 (proj2 (proj2 (safe_json_parse_spec Worked.python _)))
               "Sure, here it is: " (Worked.q "'pass': true, 'n': [1, 2]")
               " Anything else?").
    + vm_compute. reflexivity.
    + vm_compute. reflexivity.
    + no_such_char.
    + no_such_char.
  - apply (proj1 (safe_json_parse_spec Worked.python _)). no_such_char.
  - apply (proj1 (proj2 (safe_json_parse_spec Worked.python _))).
    no_such_char.
  - apply (proj1 (proj2 (proj2 (safe_json_parse_spec Worked.python _)))
             "" " and {").
    + reflexivity.
    + no_such_char.
    + no_such_char.
Defined.

(** Braces that do not balance, braces in the wrong order, no braces. *)
Example safe_json_parse_unbalanced :
  _safe_json_parse Worked.python (Worked.q "{'a': {'b': 1}") = None
  /\ _safe_json_parse Worked.python "} and {" = None
  /\ _safe_json_parse Worked.python "no object here" = None.
Proof. repeat split; vm_compute; reflexivity. Qed.

(** ** Knowledge previews in the prompts *)

Lemma embeds_refl (x : string) : Spec.embeds x x.
Proof.
  exists "", "". cbn [append].
  induction x as [|c x IH]; simpl; [reflexivity | now rewrite <- IH].
Qed.

Lemma append_assoc (a b c : string) : (a ++ b) ++ c = a ++ b ++ c.
Proof. induction a as [|x a IH]; simpl; [reflexivity | now rewrite IH]. Qed.

Lemma embeds_app_l (x a b : string) :
  Spec.embeds x a -> Spec.embeds x (a ++ b).
Proof.
  intros (pre & post & ->). exists pre, (post ++ b).
  now rewrite !append_assoc.
Qed.

Lemma embeds_app_r (x a b : string) :
  Spec.embeds x b -> Spec.embeds x (a ++ b).
Proof.
  intros (pre & post & ->). exists (a ++ pre), post.
  now rewrite !append_assoc.
Qed.

Lemma embeds_join (sep x : string) (parts : list string) :
  In x parts -> Spec.embeds x (join sep parts).
Proof.
  unfold join. induction parts as [|y rest IH]; [contradiction|].
  intros [-> | Hin].
  - destruct rest as [|z rest]; cbn [String.concat].
    + apply embeds_refl.
    + apply embeds_app_l, embeds_refl.
  - destruct rest as [|z rest]; [contradiction|]. cbn [String.concat].
    apply embeds_app_r, embeds_app_r. now apply IH.
Qed.

Lemma str_contains_unfold (sub s : string) :
  str_contains sub s
  = if String.prefix sub s then true
    else match s with
         | EmptyString => false
         | String _ t => str_contains sub t
         end.
Proof. destruct s; reflexivity. Qed.

Lemma prefix_app (x b : string) : String.prefix x (x ++ b) = true.
Proof.
  induction x as [|c x IH]; simpl.
  - now destruct b.
  - destruct (ascii_dec c c); [assumption | congruence].
Qed.

Lemma embeds_contains (x s : string) :
  Spec.embeds x s -> str_contains x s = true.
Proof.
  intros (pre & post & ->).
  induction pre as [|c pre IH]; rewrite str_contains_unfold.
  - cbn [append]. now rewrite prefix_app.
  - cbn [append].
    destruct (String.prefix x (String c (pre ++ x ++ post))); [reflexivity|].
    exact IH.
Qed.

Lemma substring_all (m : nat) (s : string) :
  (String.length s <= m)%nat -> String.substring 0 m s = s.
Proof.
  revert m. induction s as [|c s IH]; intros m H.
  - now destruct m.
  - destruct m as [|m]; simpl in *; [lia|]. rewrite IH by lia. reflexivity.
Qed.

Lemma substring_min (m : nat) (s : string) :
  String.substring 0 (Nat.min (String.length s) m) s = String.substring 0 m s.
Proof.
  destruct (Nat.le_gt_cases (String.length s) m) as [H | H].
  - rewrite Nat.min_l by assumption. now rewrite !substring_all by lia.
  - now rewrite Nat.min_r by lia.
Qed.

Lemma forall_firstn {A} (P : A -> Prop) (n : nat) (l : list A) :
  Forall P l -> Forall P (firstn n l).
Proof.
  intros H. revert n. induction H as [|x l Hx _ IH]; intros [|n]; cbn;
    constructor; auto.
Qed.

Lemma append_empty (s : string) : s ++ "" = s.
Proof. induction s as [|c s IH]; cbn; [reflexivity | now rewrite IH]. Qed.

(** *** Characters *)

Lemma concat_cons (x : string) (l : list string) :
  String.concat "" (x :: l) = x ++ String.concat "" l.
Proof. destruct l; cbn; [now rewrite append_empty | reflexivity]. Qed.

Lemma concat_app (l1 l2 : list string) :
  String.concat "" (l1 ++ l2)
  = String.concat "" l1 ++ String.concat "" l2.
Proof.
  induction l1 as [|x l1 IH]; [reflexivity|].
  cbn [app]. now rewrite !concat_cons, IH, append_assoc.
Qed.

Lemma characters_go_parts (s : string) :
  s = fst (characters_go s) ++ String.concat "" (snd (characters_go s))
  /\ Spec.continues (fst (characters_go s))
  /\ Forall Spec.is_character (snd (characters_go s)).
Proof.
  induction s as [|c s (IH & Hk & Hl)]; cbn [characters_go].
  - repeat split; constructor.
  - destruct (characters_go s) as [k l]. cbn [fst snd] in *.
    destruct (is_continuation c) eqn:E; cbn [fst snd].
    + cbn [append]. rewrite <- IH.
      repeat split; [now constructor | assumption].
    + rewrite concat_cons. cbn [append]. rewrite <- IH.
      repeat split; [constructor | constructor; [now split | assumption]].
Qed.

(** The characters of a text make up the text. *)
Lemma concat_characters (s : string) : String.concat "" (characters s) = s.
Proof.
  destruct (characters_go_parts s) as (H & _ & _). unfold characters.
  destruct (characters_go s) as [k l]. cbn [fst snd] in H.
  destruct k as [|c k]; [now rewrite H|].
  now rewrite concat_cons, <- H.
Qed.

Lemma characters_go_concat (l : list string) :
  Forall Spec.is_character l ->
  forall k, Spec.continues k ->
    characters_go (k ++ String.concat "" l) = (k, l).
Proof.
  induction 1 as [|g l Hg _ IH]; intros k Hk.
  - cbn [String.concat]. rewrite append_empty.
    induction k as [|c k IHk]; [reflexivity|].
    inversion Hk as [|? ? Hc Hk']; subst.
    cbn [characters_go]. now rewrite (IHk Hk'), Hc.
  - rewrite concat_cons.
    induction k as [|c k IHk].
    + destruct g as [|c kk]; [contradiction|]. destruct Hg as [Hc Hkk].
      cbn [append characters_go]. now rewrite (IH kk Hkk), Hc.
    + inversion Hk as [|? ? Hc Hk']; subst.
      cbn [append characters_go]. now rewrite (IHk Hk'), Hc.
Qed.

Lemma characters_first_chars (n : nat) (s : string) :
  characters (Spec.first_chars n s) = firstn n (characters s).
Proof.
  unfold Spec.first_chars.
  destruct (characters_go_parts s) as (_ & Hk & Hl). unfold characters at 2 3.
  destruct (characters_go s) as [k l]. cbn [fst snd] in *.
  destruct k as [|c k].
  - unfold characters.
    pose proof (characters_go_concat (firstn n l) (forall_firstn _ _ _ Hl)
                  "" (Forall_nil _)) as H.
    cbn [append] in H. now rewrite H.
  - destruct n as [|n]; [reflexivity|]. cbn [firstn]. rewrite concat_cons.
    unfold characters.
    now rewrite (characters_go_concat (firstn n l)
                   (forall_firstn _ _ _ Hl) (String c k) Hk).
Qed.

(** The first [n] characters of a text are [n] characters, or all of them
    when the text has fewer, and the text starts with them. *)
Lemma first_chars_cut (n : nat) (s : string) :
  char_len (Spec.first_chars n s) = Z.min (Z.of_nat n) (char_len s)
  /\ exists rest, s = Spec.first_chars n s ++ rest.
Proof.
  split.
  - unfold char_len. rewrite characters_first_chars, length_firstn. lia.
  - exists (String.concat "" (skipn n (characters s))).
    unfold Spec.first_chars.
    now rewrite <- concat_app, firstn_skipn, concat_characters.
Qed.

(** [s[:n]] is the first [n] characters of [s]. *)
Lemma chars_upto_first_chars (s : string) (n : nat) :
  chars_upto s (Z.of_nat n) = Spec.first_chars n s.
Proof.
  unfold chars_upto, join, list_upto, clamp, Spec.first_chars.
  destruct (Z.ltb_spec (Z.of_nat n) 0); [lia|].
  f_equal.
  destruct (Nat.le_gt_cases (List.length (characters s)) n) as [Hle | Hgt].
  - rewrite !firstn_all2 by lia. reflexivity.
  - f_equal. lia.
Qed.




Lemma embeds_cons (x : string) (c : ascii) (s : string) :
  Spec.embeds x s -> Spec.embeds x (String c s).
Proof. apply (embeds_app_r x (String c "") s). Qed.




(** A work item without images gets its evaluation prompt. *)
Lemma evaluation_prompt_returns (L : Library) (work_item : dict)
    (docs : list BedrockKnowledgeDocument) :
  dict_lookup work_item "images" = None ->
  exists p, _build_work_item_evaluation_user_prompt L work_item docs = Return p.
Proof.
  intros H. unfold _build_work_item_evaluation_user_prompt, images_section.
  rewrite (dict_get_absent _ _ _ H). cbn [truthy rbind]. now eexists.
Qed.







(** ** The content builder *)


Section ContentBuilder.

Variables (L : Library) (C : Clients) (self : BedrockService).

Lemma process_image_spec (content : list block) (d : dict) (log : list call) :
  process_image L C self content (PDict d) log
  = (Return (content ++ Spec.accepted_blocks L C self [PDict d])%list,
     (log ++ [Spec.fetch_of (PDict d)])%list).
Proof.
  unfold process_image, Spec.accepted_blocks, Spec.image_block, Spec.fetch_of,
    try_except, Effects.bind, perform, lift, ret.
  cbn [flat_map].
  destruct (fetch_image C (dict_get d "url" (PStr ""))) as [e|[data|]];
    try now rewrite !app_nil_r.
  destruct (negb (str_eqb data "") && _is_image_size_valid self data);
    [|now rewrite !app_nil_r].
  destruct (b64decode L data) as [e|bytes]; now rewrite !app_nil_r.
Qed.

Lemma process_images_spec (images : list pyval) :
  Forall Spec.is_dict images ->
  forall (content : list block) (log : list call),
    process_images L C self content images log
    = (Return (content ++ Spec.accepted_blocks L C self images)%list,
       (log ++ map Spec.fetch_of images)%list).
Proof.
  induction 1 as [|image rest [d ->] _ IH]; intros content log.
  - cbn. now rewrite !app_nil_r.
  - cbn [process_images]. unfold Effects.bind at 1.
    rewrite process_image_spec, IH.
    unfold Spec.accepted_blocks. cbn [flat_map map].
    now rewrite <- !app_assoc.
Qed.

Lemma accepted_blocks_length (images : list pyval) :
  (List.length (Spec.accepted_blocks L C self images) <= List.length images)%nat.
Proof.
  unfold Spec.accepted_blocks. induction images as [|image rest IH]; cbn.
  - lia.
  - rewrite length_app.
    destruct (Spec.image_block L C self image); cbn; lia.
Qed.

Lemma accepted_blocks_are_images (images : list pyval) :
  Forall Spec.is_image_block (Spec.accepted_blocks L C self images).
Proof.
  unfold Spec.accepted_blocks. induction images as [|image rest IH]; cbn.
  - constructor.
  - apply Forall_app. split; [|assumption].
    unfold Spec.image_block.
    destruct image; try constructor.
    destruct (fetch_image C _) as [e|[data|]]; try constructor.
    destruct (_ && _); try constructor.
    destruct (b64decode L data); constructor; [|constructor].
    now eexists _, _.
Qed.

Lemma accepted_blocks_all (images : list pyval) :
  (forall image, In image images -> Spec.image_block L C self image <> None) ->
  List.length (Spec.accepted_blocks L C self images) = List.length images.
Proof.
  unfold Spec.accepted_blocks. induction images as [|image rest IH]; intros H.
  - reflexivity.
  - cbn. rewrite length_app, IH by (intros; apply H; now right).
    destruct (Spec.image_block L C self image) eqn:E; [reflexivity|].
    exfalso. apply (H image); [now left | assumption].
Qed.

(** C7.  For a work item whose images are a list of [k] references and a
    maximum [N], the content is the text prompt followed by the blocks of
    the accepted images among the first [min k N], in their order; only
    those first images are fetched, the others are dropped.  So the number
    of blocks is 1 plus the number of accepted images, at most [N] of
    them; and with 5 images, a maximum of 3 and every fetch accepted, the
    content is the text block and 3 image blocks. *)
Theorem build_model_content_spec (work_item : dict) (user_prompt : string)
    (images : list pyval) (log : list call) :
  dict_get work_item "images" (PList []) = PList images ->
  Forall Spec.is_dict images ->
  0 <= self.(max_images) ->
  let k := Z.of_nat (List.length images) in
  let considered := firstn (Z.to_nat (Z.min k self.(max_images))) images in
  let accepted := Spec.accepted_blocks L C self considered in
  _build_model_content L C self work_item user_prompt log
  = (Return (TextBlock user_prompt :: accepted),
     (log ++ map Spec.fetch_of considered)%list)
  /\ Forall Spec.is_image_block accepted
  /\ Z.of_nat (List.length (TextBlock user_prompt :: accepted))
     = 1 + Z.of_nat (List.length accepted)
  /\ Z.of_nat (List.length accepted) <= Z.min k self.(max_images)
  /\ (k = 5 -> self.(max_images) = 3 ->
      (forall image, In image considered ->
         Spec.image_block L C self image <> None) ->
      exists b1 b2 b3,
        accepted = [b1; b2; b3]
        /\ Spec.is_image_block b1 /\ Spec.is_image_block b2
        /\ Spec.is_image_block b3).
Proof.
  intros Himages Hdicts Hmax k considered accepted.
  assert (Hconsidered : Forall Spec.is_dict considered).
  { unfold considered. now apply forall_firstn. }
  assert (Hlen : List.length considered = Z.to_nat (Z.min k self.(max_images))).
  { unfold considered. rewrite length_firstn. unfold k. lia. }
  repeat split.
  - unfold _build_model_content. rewrite Himages.
    destruct images as [|image rest].
    + unfold accepted, considered. rewrite firstn_nil. cbn.
      now rewrite app_nil_r.
    + cbn [truthy negb]. unfold images_upto, list_upto, clamp.
      unfold Effects.bind, lift.
      destruct (Z.ltb_spec self.(max_images) 0); [lia|].
      replace (Z.max 0 (Z.min (Z.of_nat (List.length (image :: rest)))
                          self.(max_images)))
        with (Z.min k self.(max_images)) by (unfold k; lia).
      fold considered.
      now rewrite (process_images_spec considered Hconsidered).
  - apply accepted_blocks_are_images.
  - cbn [List.length]. lia.
  - unfold accepted. pose proof (accepted_blocks_length considered). lia.
  - intros Hk HN Hall.
    pose proof (accepted_blocks_all considered Hall) as Hcount.
    pose proof (accepted_blocks_are_images considered) as Himg.
    fold accepted in Hcount, Himg.
    rewrite Hlen, Hk, HN in Hcount. change (Z.to_nat (Z.min 5 3)) with 3%nat in Hcount.
    destruct accepted as [|b1 [|b2 [|b3 [|b4 rest]]]]; try discriminate.
    exists b1, b2, b3.
    inversion Himg as [|? ? H1 Himg']; subst.
    inversion Himg' as [|? ? H2 Himg'']; subst.
    inversion Himg'' as [|? ? H3 _]; subst. auto.
Qed.

End ContentBuilder.

(** Five screenshots with a maximum of three: the text block, the first
    three images, and three requests. *)
Lemma build_model_content_spec_witness :
  run (_build_model_content Worked.python (Worked.clients PNone) Worked.service
         Worked.story_with_images "See the screenshots")
  = (Return
       (TextBlock "See the screenshots"
        :: repeat (ImageBlock "jpeg"
                     [xff; xd8; xff; xe0; x00; x10; x4a; x46; x49; x46; x00;
                      x01; x01]) 3),
     [CallFetchImage (PStr "https://example.org/1.jpg");
      CallFetchImage (PStr "https://example.org/2.jpg");
      CallFetchImage (PStr "https://example.org/3.jpg")])
  /\ exists b1 b2 b3,
       Spec.accepted_blocks Worked.python (Worked.clients PNone) Worked.service
         (firstn 3 Worked.screenshots) = [b1; b2; b3]
       /\ Spec.is_image_block b1 /\ Spec.is_image_block b2
       /\ Spec.is_image_block b3.
Proof.
  unfold run.
  destruct (build_model_content_spec Worked.python (Worked.clients PNone)
              Worked.service Worked.story_with_images "See the screenshots"
              Worked.screenshots []) as (H & _ & _ & _ & Hfive).
  - reflexivity.
  - repeat constructor; eexists; reflexivity.
  - vm_compute. discriminate.
  - split.
    + rewrite H. vm_compute. reflexivity.
    + apply Hfive.
      * reflexivity.
      * reflexivity.
      * intros image Hin. vm_compute in Hin.
        destruct Hin as [<- | [<- | [<- | []]]]; vm_compute; discriminate.
Defined.

(** ** Knowledge retrieval *)

(** C9.  When the retrieval client raises, whatever the query and the
    filters, [retrieve_knowledge_context] returns the empty list.  The
    evaluation and the generation then go on to the model with no
    documents: they are not aborted. *)
Theorem retrieval_failure_is_tolerated (L : Library) (C : Clients)
    (self : BedrockService) :
  (forall query filters e log,
     C.(retrieve) self.(knowledge_base_id) query
       (retrieval_configuration self filters) = Raise e ->
     retrieve_knowledge_context C self query filters log
     = (Return [],
        (log ++ [CallRetrieve self.(knowledge_base_id) query
                   (retrieval_configuration self filters)])%list))
  /\ (forall work_item t id query e log,
        dict_lookup work_item "workItemType" = Some t ->
        dict_lookup work_item "workItemId" = Some id ->
        _build_work_item_evaluation_knowledge_query L work_item = Return query ->
        let config :=
          retrieval_configuration self
            (Some (_build_work_item_evaluation_filters t)) in
        C.(retrieve) self.(knowledge_base_id) query config = Raise e ->
        evaluate_work_item L C self work_item log
        = _invoke_model_for_work_item_evaluation L C self work_item []
            (log ++ [CallRetrieve self.(knowledge_base_id) query config])%list)
  /\ (forall work_item existing params t id query e log,
        dict_lookup work_item "workItemType" = Some t ->
        dict_lookup work_item "workItemId" = Some id ->
        _build_work_item_breakdown_knowledge_query L work_item = Return query ->
        let config :=
          retrieval_configuration self
            (Some (_build_work_item_breakdown_filters work_item)) in
        C.(retrieve) self.(knowledge_base_id) query config = Raise e ->
        generate_work_items L C self work_item existing params log
        = Effects.bind
            (_invoke_model_for_work_item_generation L C self work_item existing
               (match params with Some p => p | None => default_params end) [])
            (fun items => ret {| work_items := items; documents := [] |})
            (log ++ [CallRetrieve self.(knowledge_base_id) query config])%list).
Proof.
  repeat split.
  - intros query filters e log H.
    unfold retrieve_knowledge_context, try_except, Effects.bind, perform, ret.
    now rewrite H.
  - intros work_item t id query e log Ht Hid Hq config H.
    unfold evaluate_work_item, Effects.bind at 1 2 3 4 5, lift, dict_item.
    rewrite Ht, Hid, Hq.
    unfold retrieve_knowledge_context, try_except, Effects.bind, perform, ret.
    fold config. now rewrite H.
  - intros work_item existing params t id query e log Ht Hid Hq config H.
    unfold generate_work_items, Effects.bind at 1 2 3 4, lift, dict_item.
    rewrite Ht, Hid, Hq.
    unfold retrieve_knowledge_context, try_except, Effects.bind at 1 2,
      perform, ret.
    fold config. now rewrite H.
Qed.

(** With the knowledge base out of reach, the retrieval returns no
    document, the evaluation of a user story still reaches the model and
    returns its verdict, and so does the generation with its task. *)
Lemma retrieval_failure_is_tolerated_witness :
  fst (run (retrieve_knowledge_context (Worked.clients PNone) Worked.service
              "export" None))
  = Return []
  /\ fst (run (evaluate_work_item Worked.python
                 (Worked.clients
                    (Worked.response_with (Worked.q "{'pass': true}") 20))
                 Worked.service Worked.user_story))
     = Return {| passed := PBool true; comment := PNone; sources := [] |}
  /\ fst (run (generate_work_items Worked.python
                 (Worked.clients Worked.short_reply) Worked.service
                 Worked.user_story [] None))
     = Return {| work_items := Worked.one_task; documents := [] |}.
Proof.
  unfold run. split; [|split].
  - erewrite (proj1 (retrieval_failure_is_tolerated Worked.python _ _)).
    + reflexivity.
    + reflexivity.
  - erewrite (proj1 (proj2 (retrieval_failure_is_tolerated _ _ _))).
    + vm_compute. reflexivity.
    + reflexivity.
    + reflexivity.
    + vm_compute. reflexivity.
    + vm_compute. reflexivity.
  - erewrite (proj2 (proj2 (retrieval_failure_is_tolerated _ _ _))).
    + vm_compute. reflexivity.
    + reflexivity.
    + reflexivity.
    + vm_compute. reflexivity.
    + vm_compute. reflexivity.
Defined.

(** ** The evaluation tool *)

Lemma list_has_str_in (l : list pyval) (x : string) :
  In (PStr x) l -> list_has_str l x = true.
Proof.
  induction l as [|v l IH]; [contradiction|]. intros [-> | H]; cbn.
  - unfold str_eqb. now rewrite String.eqb_refl.
  - rewrite IH by assumption. apply Bool.orb_true_r.
Qed.

Lemma tagged_work_item_result (L : Library) (C : Clients)
    (environ : string -> option string) (work_item : dict)
    (tags : list pyval) (log : list call) :
  dict_lookup work_item "tags" = Some (PList tags) ->
  In (PStr "Task Genie") tags ->
  Tools.evaluate_work_item L C environ work_item log
  = (Return match dict_lookup work_item "workItemType" with
            | Some t => Tools.already_evaluated (py_str L t)
            | None => "Error evaluating work item: 'workItemType'"
            end,
     log).
Proof.
  intros Htags Hin.
  unfold Tools.evaluate_work_item, try_except, Effects.bind, lift, ret,
    dict_item.
  rewrite (dict_get_lookup _ _ _ _ Htags). cbn [contains].
  rewrite (list_has_str_in _ _ Hin).
  now destruct (dict_lookup work_item "workItemType").
Qed.

(** C10.  For a work item whose tags hold [Task Genie], the tool returns a
    text and calls no collaborator, the evaluation service included: the
    record of calls is the one it started with.  When the work item has a
    type, the text is the notice that the item, named by its type, was
    evaluated before.  When it has none, the text is the report of an
    error, the missing key [workItemType], and not the notice. *)
Theorem tagged_work_item_is_not_evaluated (L : Library) (C : Clients)
    (environ : string -> option string) (work_item : dict)
    (tags : list pyval) (log : list call) :
  dict_lookup work_item "tags" = Some (PList tags) ->
  In (PStr "Task Genie") tags ->
  (exists text,
     Tools.evaluate_work_item L C environ work_item log = (Return text, log))
  /\ (forall t,
        dict_lookup work_item "workItemType" = Some t ->
        Tools.evaluate_work_item L C environ work_item log
        = (Return (Tools.already_evaluated (py_str L t)), log))
  /\ (dict_lookup work_item "workItemType" = None ->
      Tools.evaluate_work_item L C environ work_item log
      = (Return "Error evaluating work item: 'workItemType'", log)).
Proof.
  intros Htags Hin.
  rewrite (tagged_work_item_result L C environ work_item tags log Htags Hin).
  split; [|split].
  - now eexists.
  - now intros t ->.
  - now intros ->.
Qed.

(** A tagged user story. *)
Lemma tagged_work_item_is_not_evaluated_witness :
  run (Tools.evaluate_work_item Worked.python (Worked.clients PNone)
         (fun _ => None) Worked.tagged_story)
  = (Return "The User Story has already been previously evaluated by Task Genie. Please remove the `Task Genie` tag to re-evaluate this User Story.",
     []).
Proof.
  unfold run.
  rewrite (proj1 (proj2 (tagged_work_item_is_not_evaluated Worked.python
                           (Worked.clients PNone) (fun _ => None)
                           Worked.tagged_story
                           [PStr "Reporting"; PStr "Task Genie"] []
                           eq_refl (or_intror (or_introl eq_refl))))
             (PStr "User Story") eq_refl).
  reflexivity.
Defined.

(** A tagged work item without a type: the tool returns the report of
    the missing key, which is the notice of no type, and calls no
    collaborator. *)
Lemma tagged_work_item_without_type :
  run (Tools.evaluate_work_item Worked.python (Worked.clients PNone)
         (fun _ => None)
         [("workItemId", PInt 7); ("title", PStr "Export the report");
          ("tags", PList [PStr "Task Genie"])])
  = (Return "Error evaluating work item: 'workItemType'", [])
  /\ forall work_item_type,
       "Error evaluating work item: 'workItemType'"
       <> Tools.already_evaluated work_item_type.
Proof.
  split.
  - vm_compute. reflexivity.
  - intros work_item_type. unfold Tools.already_evaluated. cbn [append].
    discriminate.
Qed.

(** ** The response parser *)

Lemma get_dict (v : pyval) (k : string) (default x : pyval) :
  get v k default = Return x ->
  exists d, v = PDict d /\ x = dict_get d k default.
Proof.
  destruct v; cbn; try discriminate. intros H. injection H as <-. eauto.
Qed.

Lemma contains_dict (d : dict) (k : string) :
  contains (PDict d) k = Return (dict_has d k).
Proof. reflexivity. Qed.

(** The arguments of the debug record are evaluated without an exception
    when the response has a list as its message content. *)
Lemma parse_debug_arguments_ok (response : pyval) (l : list pyval) :
  message_content_of response = Return (PList l) ->
  parse_debug_arguments response = Return tt.
Proof.
  unfold parse_debug_arguments, message_content_of. intros H.
  destruct (get response "output" (PDict [])) as [e|output] eqn:Ho;
    [discriminate|].
  cbn [rbind] in H.
  destruct (get output "message" (PDict [])) as [e|message] eqn:Hm;
    [discriminate|].
  cbn [rbind] in H.
  apply get_dict in Ho as (r & -> & Ho).
  apply get_dict in Hm as (o & -> & Hm).
  destruct (get_dict _ _ _ _ H) as (m & -> & _).
  cbn [get] in H. injection H as H.
  repeat (rewrite ?contains_dict, <- ?Ho, <- ?Hm, ?H; cbn [rbind get len]).
  reflexivity.
Qed.

Lemma response_text_valid (first : pyval) (rest : list pyval) :
  invalid_message_content (PList (first :: rest)) = false.
Proof. reflexivity. Qed.

Section Parser.

Variable L : Library.

(** The token ceiling: a response with a text and at least
    [MAX_OUTPUT_TOKENS] output tokens raises the token-limit error. *)
Lemma parse_work_items_token_limit (response text : pyval) (n : Z) :
  Spec.response_text response text -> truthy text = true ->
  Spec.output_tokens response n -> MAX_OUTPUT_TOKENS <= n ->
  _parse_work_items L response = Raise token_limit_error.
Proof.
  intros (first & rest & Hmc & Htext) Htruthy (usage & Hu & Hn) Hle.
  unfold _parse_work_items.
  rewrite (parse_debug_arguments_ok _ _ Hmc). cbn [rbind].
  rewrite Hmc. cbn [rbind]. rewrite response_text_valid.
  cbn [first_item]. rewrite Htext. cbn [rbind].
  rewrite Hu. cbn [rbind]. rewrite Hn. cbn [rbind].
  rewrite Htruthy. cbn [negb truthy ge_int].
  unfold MAX_OUTPUT_TOKENS in *.
  destruct (Z.eqb_spec n 0); [lia|]. cbn [negb rbind].
  destruct (Z.leb_spec 10240 n); [reflexivity | lia].
Qed.

(** With or without a text, such a response is never parsed into work
    items. *)
Lemma parse_work_items_over_limit (response : pyval) (n : Z) :
  Spec.output_tokens response n -> MAX_OUTPUT_TOKENS <= n ->
  exists e, _parse_work_items L response = Raise e.
Proof.
  intros (usage & Hu & Hn) Hle. unfold _parse_work_items.
  destruct (parse_debug_arguments response); [now eexists|]. cbn [rbind].
  destruct (message_content_of response) as [?|mc]; [now eexists|]. cbn [rbind].
  destruct (invalid_message_content mc); [now eexists|].
  destruct (get (first_item mc) "text" (PStr "")) as [?|text]; [now eexists|].
  cbn [rbind]. rewrite Hu. cbn [rbind]. rewrite Hn. cbn [rbind].
  destruct (truthy text); cbn [negb]; [|now eexists].
  cbn [truthy ge_int]. unfold MAX_OUTPUT_TOKENS in *.
  destruct (Z.eqb_spec n 0); [lia|]. cbn [negb rbind].
  destruct (Z.leb_spec 10240 n); [now eexists | lia].
Qed.

(** A response whose JSON has no [workItems] is never parsed into work
    items. *)
Lemma parse_work_items_missing_key (response : pyval) (text : string) :
  Spec.response_text response (PStr text) ->
  (_safe_json_parse L text = None
   \/ exists d, _safe_json_parse L text = Some (PDict d)
                /\ dict_lookup d "workItems" = None) ->
  exists e, _parse_work_items L response = Raise e.
Proof.
  intros (first & rest & Hmc & Htext) Hparsed. unfold _parse_work_items.
  rewrite (parse_debug_arguments_ok _ _ Hmc). cbn [rbind].
  rewrite Hmc. cbn [rbind]. rewrite response_text_valid.
  cbn [first_item]. rewrite Htext. cbn [rbind].
  destruct (get response "usage" (PDict [])) as [?|usage]; [now eexists|].
  cbn [rbind].
  destruct (get usage "outputTokens" (PInt 0)) as [?|tokens]; [now eexists|].
  cbn [rbind].
  destruct (negb (truthy (PStr text))); [now eexists|].
  match goal with
  | |- context [rbind ?m _] => destruct m as [?|over]; [now eexists|]
  end.
  cbn [rbind]. destruct over; [now eexists|].
  cbn [safe_json_parse_value rbind].
  destruct Hparsed as [-> | (d & -> & Hd)]; [now eexists|].
  destruct (negb (truthy (PDict d))); [now eexists|].
  rewrite contains_dict. cbn [rbind]. unfold dict_has. rewrite Hd.
  cbn [negb]. now eexists.
Qed.

(** An evaluation reply whose JSON object has no [pass] is taken as a
    failed evaluation; when the object is empty, it is rejected. *)
Lemma parse_evaluation_missing_pass (response : pyval) (text : string) (d : dict)
    (docs : list BedrockKnowledgeDocument) :
  Spec.response_text response (PStr text) -> text <> "" ->
  _safe_json_parse L text = Some (PDict d) ->
  dict_lookup d "pass" = None ->
  _parse_work_item_evaluation L response docs
  = match d with
    | [] => Raise (Exception "Invalid JSON response from model")
    | _ => Return {| passed := PBool false;
                     comment := dict_get d "comment" PNone;
                     sources := map source docs |}
    end.
Proof.
  intros (first & rest & Hmc & Htext) Hne Hparsed Hd.
  unfold _parse_work_item_evaluation.
  rewrite Hmc. cbn [rbind]. rewrite response_text_valid.
  cbn [first_item]. rewrite Htext. cbn [rbind truthy].
  unfold str_eqb. destruct (String.eqb_spec text ""); [contradiction|].
  cbn [negb safe_json_parse_value rbind]. rewrite Hparsed.
  destruct d as [|kv d']; [reflexivity|].
  cbn [truthy negb get rbind].
  now rewrite (dict_get_absent _ _ _ Hd).
Qed.

End Parser.

(** C3, as the code has it.  An evaluation reply whose JSON object lacks
    [pass] is not an error: the verdict is [False], with the comment of
    the object if it has one; only the empty object is rejected.  A
    generation reply whose text is not JSON, or is a JSON object that
    lacks [workItems], raises. *)
Theorem missing_json_key (L : Library) (response : pyval) (text : string)
    (docs : list BedrockKnowledgeDocument) :
  Spec.response_text response (PStr text) -> text <> "" ->
  (forall d,
     _safe_json_parse L text = Some (PDict d) ->
     dict_lookup d "pass" = None ->
     _parse_work_item_evaluation L response docs
     = match d with
       | [] => Raise (Exception "Invalid JSON response from model")
       | _ => Return {| passed := PBool false;
                        comment := dict_get d "comment" PNone;
                        sources := map source docs |}
       end)
  /\ ((_safe_json_parse L text = None
       \/ exists d, _safe_json_parse L text = Some (PDict d)
                    /\ dict_lookup d "workItems" = None) ->
      exists e, _parse_work_items L response = Raise e).
Proof.
  intros Htext Hne. split.
  - intros d Hparsed Hd. now apply (parse_evaluation_missing_pass L _ text).
  - intros H. now apply (parse_work_items_missing_key L _ text).
Qed.

(** A reply with a comment and nothing else: the evaluation takes it as a
    failed verdict, the generation raises. *)
Lemma missing_json_key_witness :
  _parse_work_item_evaluation Worked.python
    (Worked.response_with (Worked.q "{'comment': 'Nothing to add'}") 25) []
  = Return {| passed := PBool false;
              comment := PStr "Nothing to add";
              sources := [] |}
  /\ exists e,
       _parse_work_items Worked.python
         (Worked.response_with (Worked.q "{'comment': 'Nothing to add'}") 25)
       = Raise e.
Proof.
  destruct (missing_json_key Worked.python
              (Worked.response_with (Worked.q "{'comment': 'Nothing to add'}") 25)
              (Worked.q "{'comment': 'Nothing to add'}") []) as [He Hg].
  - eexists _, _. split; reflexivity.
  - vm_compute. discriminate.
  - split.
    + rewrite (He [("comment", PStr "Nothing to add")]).
      * reflexivity.
      * vm_compute. reflexivity.
      * reflexivity.
    + apply Hg. right. eexists. split; vm_compute; reflexivity.
Defined.

(** C3 as stated fails on the evaluation: a reply with a
    comment and no [pass] is parsed into a result. *)
Lemma evaluation_without_pass_is_accepted :
  _safe_json_parse Worked.python
    (Worked.q "{'comment': 'The description is too short'}")
  = Some (PDict [("comment", PStr "The description is too short")])
  /\ _parse_work_item_evaluation Worked.python
       (Worked.response_with
          (Worked.q "{'comment': 'The description is too short'}") 25) []
     = Return {| passed := PBool false;
                 comment := PStr "The description is too short";
                 sources := [] |}.
Proof. split; vm_compute; reflexivity. Qed.

(** ** The token ceiling *)

Lemma raises_bind_l {A B} (m : io A) (k : A -> io B) (log : list call) :
  Spec.raises m log -> Spec.raises (Effects.bind m k) log.
Proof.
  intros (e & log' & H). exists e, log'. unfold Effects.bind. now rewrite H.
Qed.

Lemma raises_bind_r {A B} (m : io A) (k : A -> io B) (log : list call) :
  (forall a log', Spec.raises (k a) log') -> Spec.raises (Effects.bind m k) log.
Proof.
  intros H. unfold Spec.raises, Effects.bind.
  destruct (m log) as [[e|a] log']; [now eexists _, _ | apply H].
Qed.

Lemma raises_try_except {A} (m : io A) (handler : exn -> io A)
    (log : list call) :
  Spec.raises m log -> (forall e log', Spec.raises (handler e) log') ->
  Spec.raises (try_except m handler) log.
Proof.
  intros (e & log' & H) Hh. unfold Spec.raises, try_except. rewrite H.
  apply Hh.
Qed.

Section TokenCeiling.

Variables (L : Library) (C : Clients) (self : BedrockService).

(** Every answer of the inference client reports at least
    [MAX_OUTPUT_TOKENS] output tokens. *)
Hypothesis over_limit :
  forall model content config system response,
    C.(converse) model content config system = Return response ->
    exists n, Spec.output_tokens response n /\ MAX_OUTPUT_TOKENS <= n.

Lemma invoke_generation_over_limit (work_item : dict) (existing : list pyval)
    (params : BedrockInferenceParams)
    (docs : list BedrockKnowledgeDocument) (log : list call) :
  Spec.raises
    (_invoke_model_for_work_item_generation L C self work_item existing params
       docs) log.
Proof.
  unfold _invoke_model_for_work_item_generation.
  apply raises_bind_r. intros system_prompt log1.
  apply raises_bind_r. intros user_prompt log2.
  apply raises_bind_r. intros content log3.
  apply raises_try_except; [|intros e log'; now eexists _, _].
  unfold Spec.raises, Effects.bind, perform.
  destruct (converse C _ _ _ _) as [e|response] eqn:Hc; [now eexists _, _|].
  destruct (over_limit _ _ _ _ _ Hc) as (n & Hn & Hle).
  unfold lift. destruct (response_log_arguments response); [now eexists _, _|].
  destruct (parse_work_items_over_limit L response n Hn Hle) as (e & ->).
  now eexists _, _.
Qed.

Lemma generate_over_limit (work_item : dict) (existing : list pyval)
    (params : option BedrockInferenceParams) (log : list call) :
  Spec.raises (generate_work_items L C self work_item existing params) log.
Proof.
  unfold generate_work_items.
  apply raises_bind_r. intros _ log1.
  apply raises_bind_r. intros _ log2.
  apply raises_bind_r. intros query log3.
  apply raises_bind_r. intros docs log4.
  apply raises_bind_l. apply invoke_generation_over_limit.
Qed.

End TokenCeiling.

(** C2, as the code has it.  The ceiling is the constant
    [MAX_OUTPUT_TOKENS], 10240, whatever maximum the parameters set.  A
    response that has a text and reports at least that many output tokens
    raises the token-limit error; with or without a text it is never
    parsed into work items; and when the inference client answers with
    such responses, [generate_work_items] raises and returns no items. *)
Theorem token_ceiling (L : Library) (C : Clients) (self : BedrockService) :
  (forall response text n,
     Spec.response_text response text -> truthy text = true ->
     Spec.output_tokens response n -> MAX_OUTPUT_TOKENS <= n ->
     _parse_work_items L response = Raise token_limit_error)
  /\ (forall response n,
        Spec.output_tokens response n -> MAX_OUTPUT_TOKENS <= n ->
        exists e, _parse_work_items L response = Raise e)
  /\ ((forall model content config system response,
         C.(converse) model content config system = Return response ->
         exists n, Spec.output_tokens response n /\ MAX_OUTPUT_TOKENS <= n) ->
      forall work_item existing params log,
        Spec.raises (generate_work_items L C self work_item existing params)
          log).
Proof.
  repeat split.
  - intros response text n. apply parse_work_items_token_limit.
  - intros response n. apply parse_work_items_over_limit.
  - intros H work_item existing params log. now apply generate_over_limit.
Qed.

(** A reply of one task that reports 10240 output tokens: the parser
    raises the token-limit error and the generation returns nothing.  A
    reply without text that reports 20000 is not parsed either. *)
Lemma token_ceiling_witness :
  _parse_work_items Worked.python Worked.long_reply = Raise token_limit_error
  /\ (exists e,
        _parse_work_items Worked.python (Worked.response_with "" 20000)
        = Raise e)
  /\ Spec.raises
       (generate_work_items Worked.python (Worked.clients Worked.long_reply)
          Worked.service Worked.user_story [] None) [].
Proof.
  destruct (token_ceiling Worked.python (Worked.clients Worked.long_reply)
              Worked.service) as (Ha & Hb & Hc).
  split; [|split].
  - eapply (Ha Worked.long_reply _ 10240).
    + eexists _, _. split; reflexivity.
    + reflexivity.
    + eexists. split; reflexivity.
    + unfold MAX_OUTPUT_TOKENS. lia.
  - apply (Hb _ 20000).
    + eexists. split; reflexivity.
    + unfold MAX_OUTPUT_TOKENS. lia.
  - apply Hc. intros model content config system response H.
    injection H as <-. exists 10240. split.
    + eexists. split; reflexivity.
    + unfold MAX_OUTPUT_TOKENS. lia.
Defined.

(** C2 as stated fails.  With the maximum set to 2048, a reply
    that reports 2048 output tokens, the maximum, is parsed and its task
    returned by the generation: the ceiling tested is 10240, not the
    configured one.  And a reply without text that reports 20000 tokens
    raises the error of the missing text, not the token-limit error. *)
Lemma token_ceiling_ignores_configured_maximum :
  max_tokens_or_default Worked.short_params = 2048
  /\ Spec.output_tokens Worked.short_reply 2048
  /\ _parse_work_items Worked.python Worked.short_reply
     = Return Worked.one_task
  /\ fst (run (generate_work_items Worked.python
                 (Worked.clients Worked.short_reply) Worked.service
                 Worked.user_story [] (Some Worked.short_params)))
     = Return {| work_items := Worked.one_task; documents := [] |}
  /\ _parse_work_items Worked.python (Worked.response_with "" 20000)
     = Raise (Exception
                (stop_sign ++ " No text content found in model response")).
Proof.
  split; [reflexivity|]. split; [eexists; split; reflexivity|].
  repeat split; vm_compute; reflexivity.
Qed.

(** What the generation raises there is the [TypeError] of its own
    handler, which calls [len] with two arguments while it logs. *)
Example generate_over_limit_raises_type_error :
  fst (run (generate_work_items Worked.python
              (Worked.clients Worked.long_reply) Worked.service
              Worked.user_story [] None))
  = Raise (TypeError "len() takes exactly one argument (2 given)").
Proof. vm_compute. reflexivity. Qed.

(** * Further properties *)

(** ** Image formats *)

Lemma byte_of_code (b : byte) (v : Z) :
  (Z.of_N (Byte.to_N b) =? v) = true -> b = Lib.byte_of_Z v.
Proof.
  intros H. apply Z.eqb_eq in H. subst v. now destruct b.
Qed.

Ltac head_test c :=
  match c with
  | (?a && _)%bool => head_test a
  | _ => c
  end.

Ltac split_test :=
  match goal with
  | |- context [if ?c then _ else _] =>
      let t := head_test c in
      let E := fresh "E" in
      destruct t eqn:E; cbn [andb];
      [apply byte_of_code in E; vm_compute in E; subst|]
  end.

Ltac closed_length :=
  match goal with
  | |- context [12 <=? ?n] =>
      let v := eval vm_compute in (12 <=? n) in
      match v with
      | false => change (12 <=? n) with false
      end
  end.

Ltac format_leaf :=
  intros ->; cbn [firstn skipn List.length];
  repeat split; intros; try discriminate; try reflexivity; auto;
  repeat match goal with
         | H : _ /\ _ |- _ => destruct H
         | H : [] = _ :: _ |- _ => discriminate H
         | H : _ :: _ = _ :: _ |- _ => injection H as; subst
         end;
  try congruence;
  repeat match goal with
         | E : (_ =? _) = false |- _ =>
             first [vm_compute in E; discriminate | clear E]
         end.

(** X1.  The format of an image is read off its first bytes: [png] exactly
    for a buffer that starts with the four bytes 89 50 4E 47, [gif] exactly
    for one that starts with [GIF8], [webp] exactly for one that starts
    with [RIFF] and has [WEBP] at the bytes 8 to 11, and [jpeg] for every
    other buffer, the empty one and those shorter than four bytes
    included. *)
Theorem detect_image_format_signatures (buffer : list byte) :
  let format := _detect_image_format buffer in
  (format = "png" <-> Spec.starts_with [x89; x50; x4e; x47] buffer)
  /\ (format = "gif" <-> Spec.starts_with [x47; x49; x46; x38] buffer)
  /\ (format = "webp"
      <-> Spec.starts_with [x52; x49; x46; x46] buffer
          /\ Spec.starts_with [x57; x45; x42; x50] (skipn 8 buffer))
  /\ (format = "jpeg" \/ format = "png" \/ format = "webp" \/ format = "gif").
Proof.
  intros format.
  assert (H : format = _detect_image_format buffer) by reflexivity.
  clearbody format. revert H.
  unfold Spec.starts_with, _detect_image_format.
  destruct buffer as [|b0 [|b1 [|b2 [|b3 rest]]]];
    try (cbn; format_leaf; fail).
  replace (4 <=? Z.of_nat (List.length (b0 :: b1 :: b2 :: b3 :: rest)))
    with true by (symmetry; apply Z.leb_le; cbn [List.length]; lia).
  destruct rest as [|b4 [|b5 [|b6 [|b7 [|b8 [|b9 [|b10 [|b11 rest]]]]]]]];
    try closed_length.
  all: try match goal with
            | |- context [12 <=? Z.of_nat ?n] =>
                replace (12 <=? Z.of_nat n) with true
                  by (symmetry; apply Z.leb_le; cbn [List.length]; lia)
            end.
  all: cbn [byte_at nth_error andb].
  all: repeat split_test.
  all: try (format_leaf; fail).
Qed.

(** ** Knowledge retrieval, continued *)

Lemma process_knowledge_results_from (results : list retrieval_result)
    (j : Z) (i : nat) :
  nth_error
    (map (fun ir : Z * retrieval_result =>
            let '(idx, r) := ir in
            let content := match r.(r_text) with Some t => t | None => "" end in
            let source :=
              match r.(r_uri) with
              | Some u => u
              | None => "Document " ++ str_of_Z (idx + 1)
              end in
            let score :=
              match r.(r_score) with Some x => x | None => 0%float end in
            {| content := content;
               content_length := char_len content;
               source := source;
               score := score |})
         (enumerate_from j results)) i
  = option_map
      (fun r =>
         {| content := Spec.text_of r;
            content_length := char_len (Spec.text_of r);
            source := match r.(r_uri) with
                      | Some u => u
                      | None => "Document " ++ str_of_Z (j + Z.of_nat i + 1)
                      end;
            score := match r.(r_score) with
                     | Some x => x
                     | None => 0%float
                     end |})
      (nth_error results i).
Proof.
  revert j i. induction results as [|r rest IH]; intros j i.
  - now destruct i.
  - destruct i as [|i]; cbn [enumerate_from map nth_error option_map].
    + now replace (j + Z.of_nat 0 + 1) with (j + 1) by lia.
    + rewrite IH. now replace (j + 1 + Z.of_nat i + 1)
        with (j + Z.of_nat (S i) + 1) by lia.
Qed.

(** X2.  The documents made of the records of the knowledge base keep
    their number and their order.  The document at position [i] has the
    text of the record at position [i], the empty text when the record
    has none, and the number of characters of that text; its source is
    the URI of the record, or [Document] followed by the position counted
    from 1 when the record has no URI; its score is the score of the
    record, or 0.0. *)
Theorem process_knowledge_results_nth (results : list retrieval_result) :
  List.length (_process_knowledge_results results) = List.length results
  /\ forall i : nat,
       nth_error (_process_knowledge_results results) i
       = option_map
           (fun r =>
              {| content := Spec.text_of r;
                 content_length := char_len (Spec.text_of r);
                 source := match r.(r_uri) with
                           | Some u => u
                           | None => "Document " ++ str_of_Z (Z.of_nat i + 1)
                           end;
                 score := match r.(r_score) with
                          | Some x => x
                          | None => 0%float
                          end |})
           (nth_error results i).
Proof.
  split.
  - unfold _process_knowledge_results, enumerate. rewrite length_map.
    generalize 0. induction results as [|r rest IH]; intros j; cbn;
      [reflexivity | now rewrite IH].
  - intros i. unfold _process_knowledge_results, enumerate.
    now rewrite process_knowledge_results_from.
Qed.

(** A record of three euro signs, nine units, without a URI and a score,
    after another record. *)
Lemma process_knowledge_results_nth_witness :
  nth_error
    (_process_knowledge_results
       [Worked.long_record;
        {| r_text := Some (Lib.utf8 8364 ++ Lib.utf8 8364 ++ Lib.utf8 8364);
           r_uri := None;
           r_score := None |}]) 1
  = Some {| content := Lib.utf8 8364 ++ Lib.utf8 8364 ++ Lib.utf8 8364;
            content_length := 3;
            source := "Document 2";
            score := 0 |}.
Proof.
  rewrite (proj2 (process_knowledge_results_nth _) 1%nat).
  vm_compute. reflexivity.
Defined.

(** X3.  A search of the knowledge base never raises and makes exactly one
    request, with the query and the configuration of the search.  It
    returns the documents of the records when the client answers with
    records, and no document when the answer has no records or the client
    raises. *)
Theorem retrieve_knowledge_context_total (C : Clients) (self : BedrockService)
    (query : string) (filters : option dict) (log : list call) :
  retrieve_knowledge_context C self query filters log
  = (Return match C.(retrieve) self.(knowledge_base_id) query
                    (retrieval_configuration self filters) with
            | Return (Some results) => _process_knowledge_results results
            | _ => []
            end,
     (log ++ [CallRetrieve self.(knowledge_base_id) query
                (retrieval_configuration self filters)])%list).
Proof.
  unfold retrieve_knowledge_context, try_except, Effects.bind, perform, ret.
  now destruct (retrieve C _ _ _) as [e|[results|]].
Qed.

Lemma breakdown_filters_shape (work_item : dict) :
  _build_work_item_breakdown_filters work_item = []
  \/ exists condition,
       _build_work_item_breakdown_filters work_item = [("filter", condition)].
Proof.
  unfold _build_work_item_breakdown_filters.
  destruct (2 <=? _); [right; now eexists|].
  destruct (append_condition _ _ _) as [|c [|c' l]]; auto.
  right. now eexists.
Qed.

(** X4.  The configuration of a search always asks for the configured
    number of results; the filter of the work item comes after it and
    never replaces it.  This holds for the filter of a breakdown, which
    may be empty, for the filter of an evaluation, and without filters. *)
Theorem retrieval_configuration_keeps_number (self : BedrockService)
    (work_item : dict) (work_item_type : pyval) :
  retrieval_configuration self
    (Some (_build_work_item_breakdown_filters work_item))
  = [("vectorSearchConfiguration",
      PDict (("numberOfResults", PInt self.(max_knowledge_documents))
             :: _build_work_item_breakdown_filters work_item))]
  /\ retrieval_configuration self
       (Some (_build_work_item_evaluation_filters work_item_type))
     = [("vectorSearchConfiguration",
         PDict (("numberOfResults", PInt self.(max_knowledge_documents))
                :: _build_work_item_evaluation_filters work_item_type))]
  /\ retrieval_configuration self None
     = [("vectorSearchConfiguration",
         PDict [("numberOfResults", PInt self.(max_knowledge_documents))])].
Proof.
  split; [|split; reflexivity].
  destruct (breakdown_filters_shape work_item) as [-> | (c & ->)]; reflexivity.
Qed.

(** ** The prompt overrides *)

Section PromptOverride.

Variables (L : Library) (C : Clients) (self : BedrockService).
Variable work_item : dict.

Lemma get_custom_prompt_result (log : list call) :
  _get_custom_prompt L C self work_item log
  = if str_eqb self.(config_table_name) "" then (Return None, log)
    else (Return (Spec.stored_prompt
                    (C.(get_item) self.(config_table_name)
                       (Spec.prompt_key L work_item))),
          (log ++ [CallGetItem self.(config_table_name)
                     (Spec.prompt_key L work_item)])%list).
Proof.
  unfold _get_custom_prompt.
  destruct (str_eqb self.(config_table_name) ""); [reflexivity|].
  unfold try_except, Effects.bind, perform, ret, Spec.prompt_key, join.
  cbn [map String.concat].
  now destruct (get_item C _ _) as [e|[[prompt|]|]].
Qed.

(** X5.  The lookup of a custom prompt never raises.  Without a table
    name it returns nothing and does not call the store.  With one it
    makes exactly one request, for the key made of the type, the area
    path, the business unit and the system of the work item, and returns
    the prompt of the item found; it returns nothing when there is no
    item, when the item has no prompt, and when the store raises. *)
Theorem get_custom_prompt_spec (log : list call) :
  (self.(config_table_name) = "" ->
   _get_custom_prompt L C self work_item log = (Return None, log))
  /\ (self.(config_table_name) <> "" ->
      _get_custom_prompt L C self work_item log
      = (Return (Spec.stored_prompt
                   (C.(get_item) self.(config_table_name)
                      (Spec.prompt_key L work_item))),
         (log ++ [CallGetItem self.(config_table_name)
                    (Spec.prompt_key L work_item)])%list)).
Proof.
  rewrite get_custom_prompt_result. unfold str_eqb.
  destruct (String.eqb_spec self.(config_table_name) ""); split; intros H;
    congruence.
Qed.

Lemma opt_truthy_some (p : string) : p <> "" -> opt_truthy (Some p) = true.
Proof.
  intros H. unfold opt_truthy, str_eqb.
  now destruct (String.eqb_spec p "").
Qed.

(** X6.  A prompt given as a parameter, when it is not empty, is the one
    resolved, and the config store is not asked.  Without one, or with an
    empty one, the prompt of the config store is resolved when it is not
    empty, and nothing otherwise. *)
Theorem resolve_prompt_priority (log : list call) :
  (forall p, p <> "" ->
     _resolve_prompt L C self work_item (Some p) log = (Return (Some p), log))
  /\ (forall parameter_prompt,
        parameter_prompt = None \/ parameter_prompt = Some "" ->
        _resolve_prompt L C self work_item parameter_prompt log
        = (Return match fst (_get_custom_prompt L C self work_item log) with
                  | Return (Some q) => if str_eqb q "" then None else Some q
                  | _ => None
                  end,
           snd (_get_custom_prompt L C self work_item log))).
Proof.
  split.
  - intros p Hp. unfold _resolve_prompt. now rewrite opt_truthy_some.
  - intros parameter_prompt Hp. unfold _resolve_prompt.
    replace (opt_truthy parameter_prompt) with false
      by (now destruct Hp as [-> | ->]).
    unfold Effects.bind. rewrite get_custom_prompt_result.
    destruct (str_eqb self.(config_table_name) ""); [reflexivity|].
    cbn [fst snd].
    destruct (Spec.stored_prompt _) as [q|]; [|reflexivity].
    cbn [opt_truthy]. now destruct (str_eqb q "").
Qed.

Lemma output_rules_cases :
  let work_item_type := dict_get work_item "workItemType" (PStr "") in
  Spec.output_rules work_item
  = if eq_str work_item_type "Product Backlog Item"
       || eq_str work_item_type "User Story"
    then Spec.rules_text "Task"
    else if eq_str work_item_type "Feature" then
      if eq_str (dict_get work_item "processTemplate" (PStr "")) "Scrum"
      then Spec.rules_text "Product Backlog Item"
      else Spec.rules_text "User Story"
    else if eq_str work_item_type "Epic" then Spec.rules_text "Feature"
    else "".
Proof.
  cbv zeta. unfold Spec.output_rules, _get_expected_child_work_item_type.
  set (scrum := eq_str (dict_get work_item "processTemplate" (PStr ""))
                  "Scrum").
  destruct (dict_get work_item "workItemType" (PStr "")) as [| | | |t| |];
    try reflexivity.
  cbn [eq_str]. unfold str_eqb.
  destruct (String.eqb_spec t "Epic") as [->|]; [reflexivity|].
  destruct (String.eqb_spec t "Feature") as [->|]; [now destruct scrum|].
  destruct (String.eqb_spec t "User Story") as [->|]; [reflexivity|].
  now destruct (String.eqb_spec t "Product Backlog Item").
Qed.

Lemma generation_system_prompt_shape :
  exists default : string,
    forall params log,
      _build_work_item_generation_system_prompt L C self work_item params log
      = Effects.bind (_resolve_prompt L C self work_item params.(prompt))
          (fun resolved =>
             ret (str_or resolved default ++ Spec.output_rules work_item))
          log.
Proof.
  rewrite output_rules_cases. cbv zeta.
  unfold _build_work_item_generation_system_prompt.
  destruct (eq_str (dict_get work_item "workItemType" (PStr ""))
              "Product Backlog Item");
    [cbn [orb]; eexists; reflexivity|].
  destruct (eq_str (dict_get work_item "workItemType" (PStr "")) "User Story");
    [cbn [orb]; eexists; reflexivity|].
  destruct (eq_str (dict_get work_item "workItemType" (PStr "")) "Feature").
  { destruct (eq_str (dict_get work_item "processTemplate" (PStr "")) "Scrum");
      cbn [orb]; eexists; reflexivity. }
  destruct (eq_str (dict_get work_item "workItemType" (PStr "")) "Epic");
    [cbn [orb]; eexists; reflexivity|].
  cbn [orb]. exists "".
  intros params log. unfold Effects.bind, ret.
  destruct (_resolve_prompt L C self work_item (prompt params) log)
    as [[e|resolved] log']; [reflexivity|].
  now rewrite append_empty.
Qed.


End PromptOverride.


(** ** Required fields *)

Lemma has_value_item (work_item : dict) (k : string) :
  has_value work_item k = true ->
  exists v, dict_item work_item k = Return v.
Proof.
  unfold has_value, dict_get, dict_item.
  destruct (dict_lookup work_item k); [now eexists | discriminate].
Qed.

Lemma dict_item_has (work_item : dict) (k : string) :
  dict_item work_item k
  = if dict_has work_item k
    then Return (dict_get work_item k PNone)
    else Raise (KeyError (repr_key k)).
Proof.
  unfold dict_item, dict_has, dict_get.
  now destruct (dict_lookup work_item k).
Qed.

Ltac criteria_field :=
  match goal with
  | |- context [if ?c then (v <- dict_item ?w ?k ;; _)%result else _] =>
      let E := fresh "E" in
      destruct c eqn:E;
      [apply andb_prop in E; destruct E as [_ E];
       destruct (has_value_item _ _ E) as [? ->]; cbn [rbind]|]
  end.

Lemma evaluation_query_result (L : Library) (work_item : dict) :
  match Spec.first_missing ["workItemType"; "title"; "description"] work_item
  with
  | Some k =>
      _build_work_item_evaluation_knowledge_query L work_item
      = Raise (KeyError (repr_key k))
  | None =>
      exists query,
        _build_work_item_evaluation_knowledge_query L work_item = Return query
  end.
Proof.
  unfold _build_work_item_evaluation_knowledge_query, Spec.first_missing.
  cbn [find]. repeat criteria_field; cbn [rbind]; rewrite !dict_item_has;
    destruct (dict_has work_item "workItemType"); cbn [negb rbind];
    try reflexivity;
    destruct (dict_has work_item "title"); cbn [negb rbind];
    try reflexivity;
    destruct (dict_has work_item "description"); cbn [negb rbind];
    try reflexivity; now eexists.
Qed.

Lemma breakdown_query_result (L : Library) (work_item : dict) :
  match Spec.first_missing ["workItemType"; "title"; "description"] work_item
  with
  | Some k =>
      _build_work_item_breakdown_knowledge_query L work_item
      = Raise (KeyError (repr_key k))
  | None =>
      exists query,
        _build_work_item_breakdown_knowledge_query L work_item = Return query
  end.
Proof.
  unfold _build_work_item_breakdown_knowledge_query, Spec.first_missing.
  cbn [find]. repeat criteria_field; cbn [rbind]; rewrite !dict_item_has;
    destruct (dict_has work_item "workItemType"); cbn [negb rbind];
    try reflexivity;
    destruct (dict_has work_item "title"); cbn [negb rbind];
    try reflexivity;
    destruct (dict_has work_item "description"); cbn [negb rbind];
    try reflexivity; now eexists.
Qed.

(** X8.  The query of a search is built exactly when the work item has a
    type, a title and a description; the criteria are optional.  When one
    of the three is absent, the builder raises the [KeyError] of the first
    that is, in that order.  This holds for the query of an evaluation and
    for the query of a breakdown. *)
Theorem knowledge_query_requires (L : Library) (work_item : dict) :
  (forall k,
     Spec.first_missing ["workItemType"; "title"; "description"] work_item
     = Some k ->
     _build_work_item_evaluation_knowledge_query L work_item
     = Raise (KeyError (repr_key k))
     /\ _build_work_item_breakdown_knowledge_query L work_item
        = Raise (KeyError (repr_key k)))
  /\ (Spec.first_missing ["workItemType"; "title"; "description"] work_item
      = None ->
      (exists query,
         _build_work_item_evaluation_knowledge_query L work_item = Return query)
      /\ (exists query,
            _build_work_item_breakdown_knowledge_query L work_item
            = Return query)).
Proof.
  pose proof (evaluation_query_result L work_item) as He.
  pose proof (breakdown_query_result L work_item) as Hb.
  destruct (Spec.first_missing _ work_item) as [k|]; split.
  - intros k' H. injection H as <-. now split.
  - discriminate.
  - discriminate.
  - intros _. now split.
Qed.

(** A user story without a description, and the user story itself. *)
Lemma knowledge_query_requires_witness :
  _build_work_item_evaluation_knowledge_query Worked.python
    [("workItemType", PStr "User Story"); ("title", PStr "Export the report");
     ("acceptanceCriteria", PStr "A CSV file is downloaded")]
  = Raise (KeyError "'description'")
  /\ exists query,
       _build_work_item_breakdown_knowledge_query Worked.python
         Worked.user_story = Return query.
Proof.
  split.
  - apply (proj1 (knowledge_query_requires Worked.python _) "description").
    reflexivity.
  - apply (proj2 (knowledge_query_requires Worked.python Worked.user_story)).
    reflexivity.
Defined.

(** X9.  Both operations need the type, the id, the title and the
    description of the work item.  When one of them is absent, the
    operation raises the [KeyError] of the first that is, in that order,
    and no collaborator has been called: neither the knowledge base nor
    the model. *)
Theorem missing_field_stops_before_any_call (L : Library) (C : Clients)
    (self : BedrockService) (work_item : dict) (existing : list pyval)
    (params : option BedrockInferenceParams) (k : string) (log : list call) :
  Spec.first_missing ["workItemType"; "workItemId"; "title"; "description"]
    work_item = Some k ->
  evaluate_work_item L C self work_item log
  = (Raise (KeyError (repr_key k)), log)
  /\ generate_work_items L C self work_item existing params log
     = (Raise (KeyError (repr_key k)), log).
Proof.
  intros H.
  pose proof (evaluation_query_result L work_item) as He.
  pose proof (breakdown_query_result L work_item) as Hb.
  unfold Spec.first_missing in *. cbn [find] in *.
  unfold evaluate_work_item, generate_work_items, Effects.bind, lift.
  rewrite !dict_item_has.
  destruct (dict_has work_item "workItemType"); cbn [negb] in *;
    [|injection H as <-; now split].
  destruct (dict_has work_item "workItemId"); cbn [negb] in *;
    [|injection H as <-; now split].
  destruct (dict_has work_item "title"); cbn [negb] in *;
    [|injection H as <-; rewrite He, Hb; now split].
  destruct (dict_has work_item "description"); cbn [negb] in *;
    [discriminate|].
  injection H as <-. rewrite He, Hb. now split.
Qed.

(** A user story without an id: nothing is searched and nothing is asked
    of the model. *)
Lemma missing_field_stops_before_any_call_witness :
  run (evaluate_work_item Worked.python (Worked.clients PNone) Worked.service
         [("workItemType", PStr "User Story");
          ("title", PStr "Export the report");
          ("description", PStr "As an analyst I want to export the report")])
  = (Raise (KeyError "'workItemId'"), [])
  /\ run (generate_work_items Worked.python (Worked.clients PNone)
            Worked.service
            [("workItemType", PStr "User Story");
             ("title", PStr "Export the report");
             ("description", PStr "As an analyst I want to export the report")]
            [] None)
     = (Raise (KeyError "'workItemId'"), []).
Proof.
  unfold run.
  apply (missing_field_stops_before_any_call Worked.python
           (Worked.clients PNone) Worked.service _ [] None "workItemId" []).
  reflexivity.
Defined.

(** ** The response parser, continued *)

Ltac step_in H :=
  match type of H with
  | rbind ?m _ = Return _ =>
      let E := fresh "E" in
      destruct m eqn:E; [discriminate|]; cbn [rbind] in H
  | (if ?c then _ else _) = Return _ =>
      let E := fresh "E" in
      destruct c eqn:E; try discriminate
  | match ?x with _ => _ end = Return _ =>
      let E := fresh "E" in
      destruct x eqn:E; try discriminate
  end.

Lemma valid_message_content (mc : pyval) :
  invalid_message_content mc = false -> exists first rest, mc = PList (first :: rest).
Proof.
  unfold invalid_message_content.
  destruct mc as [| | | | |[|first rest]|]; cbn [truthy];
    rewrite ?Bool.orb_true_r; try discriminate.
  intros _. now eexists _, _.
Qed.

Lemma safe_json_parse_value_str (L : Library) (content : pyval)
    (parsed : option pyval) :
  safe_json_parse_value L content = Return parsed ->
  exists text, content = PStr text /\ parsed = _safe_json_parse L text.
Proof.
  destruct content; cbn; try discriminate.
  intros H. injection H as <-. now eexists.
Qed.

Lemma truthy_str (text : string) :
  truthy (PStr text) = true <-> text <> "".
Proof.
  cbn. unfold str_eqb. destruct (String.eqb_spec text ""); cbn; split;
    congruence.
Qed.

Section ParserExact.

Variable L : Library.

(** X10.  The evaluation parser returns a result exactly for a response
    whose first content item has a text that is not empty and whose
    lenient parse is a JSON object that is not empty.  The verdict is then
    what the object has under [pass], [False] without it; the comment is
    what it has under [comment], [None] without it; and the sources are
    the sources of all the documents retrieved, in their order. *)
Theorem parse_work_item_evaluation_exact (response : pyval)
    (docs : list BedrockKnowledgeDocument)
    (r : BedrockWorkItemEvaluationResponse) :
  _parse_work_item_evaluation L response docs = Return r
  <-> exists text d,
        Spec.response_text response (PStr text)
        /\ text <> ""
        /\ _safe_json_parse L text = Some (PDict d)
        /\ d <> []
        /\ r = {| passed := dict_get d "pass" (PBool false);
                  comment := dict_get d "comment" PNone;
                  sources := map source docs |}.
Proof.
  split.
  - unfold _parse_work_item_evaluation. intros H.
    step_in H. step_in H. step_in H. step_in H. step_in H. step_in H.
    step_in H. step_in H. step_in H.
    destruct (valid_message_content _ E0) as (first & rest & ->).
    destruct (safe_json_parse_value_str _ _ _ E3) as (text & -> & Hp).
    destruct (get_dict _ _ _ _ E6) as (d & -> & ->).
    destruct (get_dict _ _ _ _ E7) as (d' & Hd & ->).
    injection Hd as <-. injection H as <-.
    exists text, d. repeat split.
    + now exists first, rest.
    + apply truthy_str. now destruct (truthy (PStr text)).
    + now symmetry.
    + intros ->. discriminate.
  - intros (text & d & (first & rest & Hmc & Htext) & Hne & Hp & Hd & ->).
    unfold _parse_work_item_evaluation.
    rewrite Hmc. cbn [rbind]. rewrite response_text_valid.
    cbn [first_item]. rewrite Htext. cbn [rbind].
    rewrite (proj2 (truthy_str text) Hne).
    cbn [negb safe_json_parse_value rbind]. rewrite Hp.
    destruct d as [|kv d']; [contradiction|]. reflexivity.
Qed.

Lemma within_ceiling_tokens (response : pyval) (n : Z) :
  Spec.output_tokens response n ->
  (Spec.within_ceiling response <-> n < MAX_OUTPUT_TOKENS).
Proof.
  intros (usage & Hu & Hn). unfold Spec.within_ceiling, MAX_OUTPUT_TOKENS.
  split.
  - intros (usage' & tokens & Hu' & Ht & Hc).
    rewrite Hu in Hu'. injection Hu' as <-.
    rewrite Hn in Ht. injection Ht as <-.
    cbn in Hc. destruct (Z.eqb_spec n 0); [lia|]. cbn in Hc.
    injection Hc as Hc. apply Z.leb_gt in Hc. lia.
  - intros Hlt. exists usage, (PInt n). repeat split; try assumption.
    cbn. destruct (Z.eqb_spec n 0); [reflexivity|]. cbn.
    f_equal. apply Z.leb_gt. lia.
Qed.

(** X11.  The generation parser returns a value exactly for a response
    whose first content item has a text that is not empty, that reports
    no number of output tokens at or above the ceiling, and whose lenient
    parse is a JSON object with something that has a length under
    [workItems]: that value is what is returned, as it is.  For a response
    that reports an integer number of output tokens, the ceiling is
    passed exactly when the number is below 10240. *)
Theorem parse_work_items_exact (response v : pyval) :
  (_parse_work_items L response = Return v
   <-> exists text d,
         Spec.response_text response (PStr text)
         /\ text <> ""
         /\ Spec.within_ceiling response
         /\ _safe_json_parse L text = Some (PDict d)
         /\ dict_lookup d "workItems" = Some v
         /\ Spec.sized v)
  /\ (forall n,
        Spec.output_tokens response n ->
        (Spec.within_ceiling response <-> n < MAX_OUTPUT_TOKENS)).
Proof.
  split; [|apply within_ceiling_tokens].
  split.
  - unfold _parse_work_items. intros H.
    do 12 step_in H.
    destruct (valid_message_content _ E1) as (first & rest & ->).
    destruct (safe_json_parse_value_str _ _ _ E8) as (text & -> & Hp).
    do 4 step_in H.
    injection H as <-.
    assert (Hd : exists d, p = PDict d /\ dict_lookup d "workItems" = Some a1).
    { destruct p; cbn in E13; try discriminate.
      unfold dict_item in E13.
      destruct (dict_lookup d "workItems") eqn:Hl; [|discriminate].
      injection E13 as <-. now eexists. }
    destruct Hd as (d & -> & Hd).
    exists text, d. repeat split.
    + now exists first, rest.
    + apply truthy_str. now destruct (truthy (PStr text)).
    + now exists a2, a3.
    + now symmetry.
    + assumption.
    + now exists a6.
  - intros (text & d & (first & rest & Hmc & Htext) & Hne
            & (usage & tokens & Hu & Ht & Hc) & Hp & Hd & (n & Hn)).
    unfold _parse_work_items.
    rewrite (parse_debug_arguments_ok _ _ Hmc). cbn [rbind].
    rewrite Hmc. cbn [rbind]. rewrite response_text_valid.
    cbn [first_item]. rewrite Htext. cbn [rbind].
    rewrite Hu. cbn [rbind]. rewrite Ht. cbn [rbind].
    rewrite (proj2 (truthy_str text) Hne). cbn [negb].
    rewrite Hc. cbn [rbind safe_json_parse_value]. rewrite Hp.
    assert (Ht' : truthy (PDict d) = true).
    { destruct d; [discriminate | reflexivity]. }
    rewrite Ht'. cbn [negb]. rewrite contains_dict. cbn [rbind].
    unfold dict_has. rewrite Hd. cbn [negb subscript]. unfold dict_item.
    rewrite Hd. cbn [rbind]. now rewrite Hn.
Qed.

End ParserExact.

(** A reply of one task under the ceiling. *)
Lemma parse_work_items_exact_witness :
  _parse_work_items Worked.python Worked.short_reply = Return Worked.one_task
  /\ Spec.within_ceiling Worked.short_reply.
Proof.
  destruct (parse_work_items_exact Worked.python Worked.short_reply
              Worked.one_task) as [[_ Hparse] Hceiling].
  assert (Hw : Spec.within_ceiling Worked.short_reply).
  { apply (Hceiling 2048).
    - eexists. split; reflexivity.
    - unfold MAX_OUTPUT_TOKENS. lia. }
  split; [|exact Hw].
  apply Hparse. eexists _, _. repeat split.
  - eexists _, _. split; reflexivity.
  - vm_compute. discriminate.
  - exact Hw.
  - vm_compute. reflexivity.
  - reflexivity.
  - eexists. reflexivity.
Defined.

(** ** The exceptions of the two operations *)

Section RaisesOnly.

Variable P : exn -> Prop.


Lemma rro_raise {A} (e : exn) : P e -> Spec.result_raises_only P (@Raise A e).
Proof. intros H e' E. now injection E as <-. Qed.








End RaisesOnly.

Lemma rro_weaken {A} (P Q : exn -> Prop) (r : result A) :
  (forall e, P e -> Q e) ->
  Spec.result_raises_only P r -> Spec.result_raises_only Q r.
Proof. intros H Hr e E. apply H. now apply Hr. Qed.


(** The builtins raise builtin errors. *)












Section OperationErrors.

Variables (L : Library) (C : Clients) (self : BedrockService).








End OperationErrors.





(** ** The tools *)

(** X14.  The two tools never raise: whatever the work item, the
    parameters and the answers of the collaborators, each returns a text.
    When the evaluation of a work item without the [Task Genie] tag
    raises, the text of the evaluation tool is [Error evaluating work
    item: ] followed by the message of the exception; when it returns, the
    text is the JSON object of the verdict, the comment and the sources,
    in that order.  When the generation raises, the text of the generation
    tool is [Error generating work items: ] followed by the message; when
    it returns, the text is the JSON object of the work items and of the
    documents, each document with its content, its source and its score,
    without the length of its content. *)
Theorem tools_never_raise (L : Library) (C : Clients)
    (environ : string -> option string) (work_item : dict)
    (existing : list pyval) (params : option dict) (log : list call) :
  (exists text log',
     Tools.evaluate_work_item L C environ work_item log = (Return text, log'))
  /\ (exists text log',
        Tools.generate_work_items L C environ work_item existing params log
        = (Return text, log'))
  /\ (contains (dict_get work_item "tags" (PList [])) "Task Genie"
      = Return false ->
      (forall e log',
         evaluate_work_item L C (Tools.bedrock_service environ) work_item log
         = (Raise e, log') ->
         Tools.evaluate_work_item L C environ work_item log
         = (Return ("Error evaluating work item: " ++ exn_str e), log'))
      /\ (forall r log',
            evaluate_work_item L C (Tools.bedrock_service environ) work_item
              log = (Return r, log') ->
            Tools.evaluate_work_item L C environ work_item log
            = (Return (L.(json_dumps)
                         (PDict [("pass", r.(passed));
                                 ("comment", r.(comment));
                                 ("sources", PList (map PStr r.(sources)))])),
               log')))
  /\ (forall e log',
        Tools.service_generate_work_items L C (Tools.bedrock_service environ)
          work_item existing params log = (Raise e, log') ->
        Tools.generate_work_items L C environ work_item existing params log
        = (Return ("Error generating work items: " ++ exn_str e), log'))
  /\ (forall r log',
        Tools.service_generate_work_items L C (Tools.bedrock_service environ)
          work_item existing params log = (Return r, log') ->
        Tools.generate_work_items L C environ work_item existing params log
        = (Return (L.(json_dumps)
                     (PDict [("workItems", r.(work_items));
                             ("documents",
                              PList (map (fun doc =>
                                            PDict [("content", PStr doc.(content));
                                                   ("source", PStr doc.(source));
                                                   ("score", PFloat doc.(score))])
                                         r.(documents)))])),
           log')).
Proof.
  split; [|split; [|split; [|split]]].
  - unfold Tools.evaluate_work_item, try_except.
    match goal with
    | |- context [match ?m log with _ => _ end] =>
        destruct (m log) as [[e|text] log']
    end; now eexists _, _.
  - unfold Tools.generate_work_items, try_except.
    match goal with
    | |- context [match ?m log with _ => _ end] =>
        destruct (m log) as [[e|text] log']
    end; now eexists _, _.
  - intros Htags.
    split; intros x log' H;
      unfold Tools.evaluate_work_item, try_except, Effects.bind;
      unfold lift at 1; rewrite Htags; cbv beta iota; now rewrite H.
  - intros e log' H.
    unfold Tools.generate_work_items, try_except, Effects.bind.
    now rewrite H.
  - intros r log' H.
    unfold Tools.generate_work_items, try_except, Effects.bind.
    now rewrite H.
Qed.

(** X15.  The generation tool passes its [params], a dict, to a service
    that reads them as an object with attributes.  So with any [params]
    that is not empty, for a work item that has a type and an id, the
    tool returns the text of the [AttributeError] and calls no
    collaborator: neither the knowledge base nor the model.  With no
    [params], or with the empty dict, the generation runs with the
    default parameters. *)
Theorem generation_tool_rejects_parameters (L : Library) (C : Clients)
    (environ : string -> option string) (work_item : dict)
    (existing : list pyval) (log : list call) :
  (forall entry rest,
     Spec.first_missing ["workItemType"; "workItemId"] work_item = None ->
     Tools.generate_work_items L C environ work_item existing
       (Some (entry :: rest)) log
     = (Return "Error generating work items: 'dict' object has no attribute 'refinement_instructions'",
        log))
  /\ Tools.service_generate_work_items L C (Tools.bedrock_service environ)
       work_item existing (Some [])
     = generate_work_items L C (Tools.bedrock_service environ) work_item
         existing (Some default_params)
  /\ Tools.service_generate_work_items L C (Tools.bedrock_service environ)
       work_item existing None
     = generate_work_items L C (Tools.bedrock_service environ) work_item
         existing (Some default_params).
Proof.
  split; [|split; reflexivity].
  intros entry rest H.
  unfold Spec.first_missing in H. cbn [find] in H.
  unfold Tools.generate_work_items, Tools.service_generate_work_items,
    try_except, Effects.bind, lift, raise, ret.
  rewrite !dict_item_has.
  destruct (dict_has work_item "workItemType"); [|discriminate].
  destruct (dict_has work_item "workItemId"); [|discriminate].
  reflexivity.
Qed.

(** The user story with a temperature among the parameters: the tool
    answers with the error, and nothing has been called. *)
Lemma generation_tool_rejects_parameters_witness :
  run (Tools.generate_work_items Worked.python
         (Worked.clients Worked.short_reply) (fun _ => None) Worked.user_story
         [] (Some [("temperature", PFloat 0.75)]))
  = (Return "Error generating work items: 'dict' object has no attribute 'refinement_instructions'",
     []).
Proof.
  unfold run.
  apply (proj1 (generation_tool_rejects_parameters Worked.python
                  (Worked.clients Worked.short_reply) (fun _ => None)
                  Worked.user_story [] [])).
  reflexivity.
Defined.

(** ** Refinement *)

Lemma bind_ext {A B} (m m' : io A) (k k' : A -> io B) (log : list call) :
  m log = m' log -> (forall a log', k a log' = k' a log') ->
  Effects.bind m k log = Effects.bind m' k' log.
Proof.
  intros Hm Hk. unfold Effects.bind. rewrite Hm.
  destruct (m' log) as [[e|a] log']; [reflexivity | apply Hk].
Qed.

Lemma invoke_without_refinement (L : Library) (C : Clients)
    (self : BedrockService) (work_item : dict) (existing : list pyval)
    (params : BedrockInferenceParams) (docs : list BedrockKnowledgeDocument)
    (log : list call) :
  is_refinement params = false ->
  _invoke_model_for_work_item_generation L C self work_item existing params
    docs log
  = _invoke_model_for_work_item_generation L C self work_item existing
      (Spec.without_refinement params) docs log.
Proof.
  intros H. unfold _invoke_model_for_work_item_generation.
  apply bind_ext.
  { unfold _build_work_item_generation_system_prompt.
    cbn [Spec.without_refinement prompt]. reflexivity. }
  intros system_prompt log1. apply bind_ext.
  { rewrite H.
    replace (is_refinement (Spec.without_refinement params)) with false
      by reflexivity.
    reflexivity. }
  intros user_prompt log2. apply bind_ext; [reflexivity|].
  intros content log3.
  replace (generation_inference_config (Spec.without_refinement params))
    with (generation_inference_config params) by reflexivity.
  reflexivity.
Qed.

(** X16.  A generation is a refinement exactly when the parameters hold
    instructions that are not empty and a list of drafts that is not
    empty.  Parameters that hold only one of the two are not an error and
    change nothing: the generation is the one without them.  In a
    refinement, the existing children of the work item and the documents
    retrieved do not reach the model: the request is the same whatever
    they are. *)
Theorem refinement_needs_both (L : Library) (C : Clients)
    (self : BedrockService) (work_item : dict)
    (params : BedrockInferenceParams) :
  (is_refinement params = true
   <-> exists instructions draft drafts,
         params.(refinement_instructions) = Some instructions
         /\ instructions <> ""
         /\ params.(generated_work_items) = Some (draft :: drafts))
  /\ (is_refinement params = false ->
      forall existing log,
        generate_work_items L C self work_item existing (Some params) log
        = generate_work_items L C self work_item existing
            (Some (Spec.without_refinement params)) log)
  /\ (is_refinement params = true ->
      forall existing existing' docs docs' log,
        _invoke_model_for_work_item_generation L C self work_item existing
          params docs log
        = _invoke_model_for_work_item_generation L C self work_item existing'
            params docs' log).
Proof.
  split; [|split].
  - unfold is_refinement, opt_truthy, str_eqb.
    destruct params as [p t tp mt [instructions|] [[|draft drafts]|]];
      cbn [refinement_instructions generated_work_items];
      try (split; [discriminate | intros (? & ? & ? & ? & ? & ?); discriminate]).
    + rewrite Bool.andb_false_r.
      split; [discriminate | intros (? & ? & ? & ? & ? & ?); discriminate].
    + destruct (String.eqb_spec instructions ""); cbn.
      * split; [discriminate|]. intros (i & ? & ? & Hi & Hne & _).
        injection Hi as <-. contradiction.
      * split; [|reflexivity]. intros _. now eexists _, _, _.
    + rewrite Bool.andb_false_r.
      split; [discriminate | intros (? & ? & ? & ? & ? & ?); discriminate].
  - intros H existing log. unfold generate_work_items.
    do 4 (apply bind_ext; [reflexivity | intros ? ?]).
    apply bind_ext; [|reflexivity].
    now apply invoke_without_refinement.
  - intros H existing existing' docs docs' log.
    unfold _invoke_model_for_work_item_generation. rewrite H. reflexivity.
Qed.

(** Instructions without drafts: the generation is the plain one. *)
Lemma refinement_needs_both_witness :
  generate_work_items Worked.python (Worked.clients Worked.short_reply)
    Worked.service Worked.user_story []
    (Some {| prompt := None; temperature := None; top_p := None;
             max_tokens := None;
             refinement_instructions := Some "Add a task for the tests";
             generated_work_items := Some [] |}) []
  = generate_work_items Worked.python (Worked.clients Worked.short_reply)
      Worked.service Worked.user_story []
      (Some (Spec.without_refinement
               {| prompt := None; temperature := None; top_p := None;
                  max_tokens := None;
                  refinement_instructions := Some "Add a task for the tests";
                  generated_work_items := Some [] |})) [].
Proof.
  exact (proj1 (proj2 (refinement_needs_both Worked.python
                         (Worked.clients Worked.short_reply) Worked.service
                         Worked.user_story
                         {| prompt := None; temperature := None;
                            top_p := None; max_tokens := None;
                            refinement_instructions :=
                              Some "Add a task for the tests";
                            generated_work_items := Some [] |}))
           eq_refl [] []).
Defined.

(** ** The documents behind a result *)

Ltac io_step_in H :=
  match type of H with
  | (let (_, _) := ?m in _) = (Return _, _) =>
      let E := fresh "E" in
      destruct m as [[?|?] ?] eqn:E; [discriminate|]
  | (match ?m with (_, _) => _ end) = (Return _, _) =>
      let E := fresh "E" in
      destruct m as [[?|?] ?] eqn:E; [discriminate|]
  end.

Lemma lift_returns {A} (r : result A) (a : A) (log log' : list call) :
  lift r log = (Return a, log') -> r = Return a /\ log' = log.
Proof. unfold lift. intros H. now injection H as -> ->. Qed.

Lemma retrieve_knowledge_context_returns (C : Clients) (self : BedrockService)
    (query : string) (filters : dict) (docs : list BedrockKnowledgeDocument)
    (log log' : list call) :
  retrieve_knowledge_context C self query (Some filters) log
  = (Return docs, log') ->
  docs = Spec.retrieved C self query filters.
Proof.
  unfold retrieve_knowledge_context, try_except, Effects.bind, perform, ret,
    Spec.retrieved.
  destruct (retrieve C _ _ _) as [e|[results|]]; intros H;
    now injection H as <- _.
Qed.

Lemma parse_evaluation_sources (L : Library) (response : pyval)
    (docs : list BedrockKnowledgeDocument)
    (r : BedrockWorkItemEvaluationResponse) :
  _parse_work_item_evaluation L response docs = Return r ->
  r.(sources) = map source docs.
Proof.
  unfold _parse_work_item_evaluation. intros H.
  do 9 step_in H. now injection H as <-.
Qed.

Lemma try_except_returns {A} (m : io A) (handler : exn -> io A) (a : A)
    (log log' : list call) :
  (forall e log1 log2, handler e log1 <> (Return a, log2)) ->
  try_except m handler log = (Return a, log') -> m log = (Return a, log').
Proof.
  unfold try_except. intros Hh H.
  destruct (m log) as [[e|x] log1]; [now apply Hh in H | assumption].
Qed.

Lemma bind_returns {A B} (m : io A) (k : A -> io B) (b : B)
    (log log' : list call) :
  Effects.bind m k log = (Return b, log') ->
  exists a log1, m log = (Return a, log1) /\ k a log1 = (Return b, log').
Proof.
  unfold Effects.bind. destruct (m log) as [[e|a] log1]; [discriminate|].
  intros H. now exists a, log1.
Qed.

Lemma invoke_evaluation_sources (L : Library) (C : Clients)
    (self : BedrockService) (work_item : dict)
    (docs : list BedrockKnowledgeDocument)
    (r : BedrockWorkItemEvaluationResponse) (log log' : list call) :
  _invoke_model_for_work_item_evaluation L C self work_item docs log
  = (Return r, log') ->
  r.(sources) = map source docs.
Proof.
  unfold _invoke_model_for_work_item_evaluation. intros H.
  apply bind_returns in H as (user_prompt & log1 & _ & H).
  apply bind_returns in H as (content & log2 & _ & H).
  apply bind_returns in H as (t & log3 & _ & H).
  apply try_except_returns in H; [|intros e l1 l2; discriminate].
  apply bind_returns in H as (response & log4 & _ & H).
  apply bind_returns in H as (u & log5 & _ & H).
  apply lift_returns in H as [H _].
  now apply parse_evaluation_sources in H.
Qed.

(** X17.  The sources of an evaluation are the sources of the documents
    that the search of the knowledge base gave for the query and the
    filter of the work item, all of them and in their order; the
    documents of a generation are those that its search gave.  So both
    are empty when the search failed. *)
Theorem results_cite_retrieved_documents (L : Library) (C : Clients)
    (self : BedrockService) (work_item : dict) (log log' : list call) :
  (forall r,
     evaluate_work_item L C self work_item log = (Return r, log') ->
     exists query work_item_type,
       _build_work_item_evaluation_knowledge_query L work_item = Return query
       /\ dict_lookup work_item "workItemType" = Some work_item_type
       /\ r.(sources)
          = map source
              (Spec.retrieved C self query
                 (_build_work_item_evaluation_filters work_item_type)))
  /\ (forall existing params r,
        generate_work_items L C self work_item existing params log
        = (Return r, log') ->
        exists query,
          _build_work_item_breakdown_knowledge_query L work_item = Return query
          /\ r.(documents)
             = Spec.retrieved C self query
                 (_build_work_item_breakdown_filters work_item)).
Proof.
  split.
  - intros r H. unfold evaluate_work_item in H.
    apply bind_returns in H as (t1 & log1 & H1 & H).
    apply bind_returns in H as (id & log2 & H2 & H).
    apply bind_returns in H as (query & log3 & H3 & H).
    apply bind_returns in H as (t & log4 & H4 & H).
    apply bind_returns in H as (docs & log5 & H5 & H).
    apply lift_returns in H3 as [H3 _]. apply lift_returns in H4 as [H4 _].
    apply retrieve_knowledge_context_returns in H5. subst docs.
    apply invoke_evaluation_sources in H.
    exists query, t. repeat split; try assumption.
    unfold dict_item in H4.
    destruct (dict_lookup work_item "workItemType"); [|discriminate].
    now injection H4 as ->.
  - intros existing params r H. unfold generate_work_items in H.
    apply bind_returns in H as (t1 & log1 & H1 & H).
    apply bind_returns in H as (id & log2 & H2 & H).
    apply bind_returns in H as (query & log3 & H3 & H).
    apply bind_returns in H as (docs & log5 & H5 & H).
    apply bind_returns in H as (items & log6 & _ & H).
    apply lift_returns in H3 as [H3 _].
    apply retrieve_knowledge_context_returns in H5. subst docs.
    exists query. split; [assumption|].
    unfold ret in H. now injection H as <- _.
Qed.

(** ** Images from the tracking system *)

Lemma b64_alphabet :
  forallb
    (fun n =>
       let v := Z.of_nat n in
       match Lib.b64_value (Lib.b64_char v) with
       | Some u => u =? v
       | None => false
       end
       && negb (Ascii.eqb (Lib.b64_char v) "=")
       && (Lib.code (Lib.b64_char v) <? 128))
    (seq 0 64) = true.
Proof. vm_compute. reflexivity. Qed.

Lemma b64_char_spec (v : Z) :
  0 <= v < 64 ->
  Lib.b64_value (Lib.b64_char v) = Some v
  /\ Ascii.eqb (Lib.b64_char v) "=" = false
  /\ (Lib.code (Lib.b64_char v) <? 128) = true.
Proof.
  intros Hv. pose proof b64_alphabet as H.
  rewrite forallb_forall in H. specialize (H (Z.to_nat v)).
  rewrite Z2Nat.id in H by lia. cbv zeta in H.
  assert (Hin : In (Z.to_nat v) (seq 0 64)) by (apply in_seq; lia).
  apply H in Hin. apply andb_prop in Hin as [Hin Hc].
  apply andb_prop in Hin as [Hin Hp].
  destruct (Lib.b64_value (Lib.b64_char v)) as [u|]; [|discriminate].
  apply Z.eqb_eq in Hin. subst u. repeat split; try assumption.
  now destruct (Ascii.eqb (Lib.b64_char v) "=").
Qed.

Lemma Z_of_byte_range (b : byte) : 0 <= Lib.Z_of_byte b < 256.
Proof.
  unfold Lib.Z_of_byte. pose proof (Byte.to_N_bounded b). lia.
Qed.

Lemma byte_of_Z_of_byte (b : byte) : Lib.byte_of_Z (Lib.Z_of_byte b) = b.
Proof. now destruct b. Qed.

Ltac b64_char_facts v :=
  let H := fresh in
  assert (H : 0 <= v < 64)
    by (repeat match goal with
               | b : byte |- _ =>
                   lazymatch goal with
                   | _ : 0 <= Lib.Z_of_byte b < 256 |- _ => fail
                   | _ => pose proof (Z_of_byte_range b)
                   end
               end;
        Z.div_mod_to_equations; lia);
  destruct (b64_char_spec v H) as (-> & -> & _); clear H.

Lemma b64_go_data (c : ascii) (v : Z) (t : string)
    (quad_pos leftchar pads : Z) (out : list byte) :
  Lib.b64_value c = Some v -> Ascii.eqb c "=" = false ->
  Lib.b64_go (String c t) quad_pos leftchar pads out
  = if quad_pos =? 0 then Lib.b64_go t 1 v 0 out
    else if quad_pos =? 1 then
      Lib.b64_go t 2 (v mod 16) 0
        (Lib.byte_of_Z (leftchar * 4 + v / 16) :: out)
    else if quad_pos =? 2 then
      Lib.b64_go t 3 (v mod 4) 0
        (Lib.byte_of_Z (leftchar * 16 + v / 4) :: out)
    else
      Lib.b64_go t 0 0 0 (Lib.byte_of_Z (leftchar * 64 + v) :: out).
Proof. intros Hv He. cbn [Lib.b64_go]. now rewrite He, Hv. Qed.

Ltac b64_data v :=
  let H := fresh in
  assert (H : 0 <= v < 64)
    by (repeat match goal with
               | b : byte |- _ =>
                   lazymatch goal with
                   | _ : 0 <= Lib.Z_of_byte b < 256 |- _ => fail
                   | _ => pose proof (Z_of_byte_range b)
                   end
               end;
        Z.div_mod_to_equations; lia);
  let Hv := fresh in
  let He := fresh in
  destruct (b64_char_spec v H) as (Hv & He & _);
  rewrite (b64_go_data _ v _ _ _ _ _ Hv He); clear H Hv He.

Ltac byte_back b :=
  match goal with
  | |- context [Lib.byte_of_Z ?z] =>
      replace z with (Lib.Z_of_byte b) by (Z.div_mod_to_equations; lia);
      rewrite (byte_of_Z_of_byte b)
  end.

Lemma b64_go_group (a b c : byte) (s : string) (out : list byte) :
  Lib.b64_go (Lib.b64encode (a :: b :: c :: [])  ++ s) 0 0 0 out
  = Lib.b64_go s 0 0 0 (c :: b :: a :: out).
Proof.
  pose proof (Z_of_byte_range a). pose proof (Z_of_byte_range b).
  pose proof (Z_of_byte_range c).
  cbn [Lib.b64encode append].
  b64_data (Lib.Z_of_byte a / 4). cbn [Z.eqb].
  b64_data (Lib.Z_of_byte a mod 4 * 16 + Lib.Z_of_byte b / 16).
  cbn [Z.eqb Pos.eqb]. byte_back a.
  b64_data (Lib.Z_of_byte b mod 16 * 4 + Lib.Z_of_byte c / 64).
  cbn [Z.eqb Pos.eqb]. byte_back b.
  b64_data (Lib.Z_of_byte c mod 64).
  cbn [Z.eqb Pos.eqb]. byte_back c.
  reflexivity.
Qed.

Lemma b64encode_group (a b c : byte) (t : list byte) :
  Lib.b64encode (a :: b :: c :: t)
  = Lib.b64encode (a :: b :: c :: []) ++ Lib.b64encode t.
Proof. reflexivity. Qed.

Lemma b64_go_encode (n : nat) :
  forall (bs out : list byte),
    (List.length bs <= n)%nat ->
    Lib.b64_go (Lib.b64encode bs) 0 0 0 out = Return (rev out ++ bs)%list.
Proof.
  induction n as [|n IH]; intros bs out Hn.
  - destruct bs; [|cbn in Hn; lia]. cbn. now rewrite app_nil_r.
  - destruct bs as [|a [|b [|c t]]].
    + cbn. now rewrite app_nil_r.
    + pose proof (Z_of_byte_range a).
      cbn [Lib.b64encode].
      b64_data (Lib.Z_of_byte a / 4). cbn [Z.eqb].
      b64_data (Lib.Z_of_byte a mod 4 * 16). cbn [Z.eqb Pos.eqb].
      byte_back a. reflexivity.
    + pose proof (Z_of_byte_range a). pose proof (Z_of_byte_range b).
      cbn [Lib.b64encode].
      b64_data (Lib.Z_of_byte a / 4). cbn [Z.eqb].
      b64_data (Lib.Z_of_byte a mod 4 * 16 + Lib.Z_of_byte b / 16).
      cbn [Z.eqb Pos.eqb]. byte_back a.
      b64_data (Lib.Z_of_byte b mod 16 * 4).
      cbn [Z.eqb Pos.eqb]. byte_back b. cbn.
      now rewrite <- app_assoc.
    + rewrite b64encode_group, b64_go_group, IH by (cbn in Hn; cbn; lia).
      cbn [rev]. now rewrite <- !app_assoc.
Qed.

Lemma b64encode_ascii (bs : list byte) :
  Lib.is_ascii_text (Lib.b64encode bs) = true.
Proof.
  assert (H : forall n bs, (List.length bs <= n)%nat ->
                           Lib.is_ascii_text (Lib.b64encode bs) = true).
  { clear bs. unfold Lib.is_ascii_text.
    induction n as [|n IH]; intros bs Hn.
    - destruct bs; [reflexivity | cbn in Hn; lia].
    - destruct bs as [|a [|b [|c t]]]; [reflexivity| | |];
        pose proof (Z_of_byte_range a);
        try pose proof (Z_of_byte_range b);
        try pose proof (Z_of_byte_range c);
        cbn [Lib.b64encode list_ascii_of_string forallb];
        repeat match goal with
               | |- context [Lib.code (Lib.b64_char ?v) <? 128] =>
                   let Hv := fresh in
                   assert (Hv : 0 <= v < 64) by (Z.div_mod_to_equations; lia);
                   rewrite (proj2 (proj2 (b64_char_spec v Hv))); clear Hv
               end; cbn [andb]; [reflexivity | reflexivity |].
      apply IH. cbn in Hn. lia. }
  now apply (H (List.length bs)).
Qed.

(** [b64decode] undoes [b64encode]. *)
Lemma b64decode_b64encode (bs : list byte) :
  Lib.b64decode (Lib.b64encode bs) = Return bs.
Proof.
  unfold Lib.b64decode. rewrite b64encode_ascii.
  now rewrite (b64_go_encode (List.length bs)).
Qed.

(** A text of ASCII characters has as many characters as units. *)
Lemma characters_go_ascii (s : string) :
  Lib.is_ascii_text s = true ->
  characters_go s
  = (EmptyString, map (fun c => String c EmptyString) (list_ascii_of_string s)).
Proof.
  unfold Lib.is_ascii_text.
  induction s as [|c s IH]; [reflexivity|].
  cbn [list_ascii_of_string forallb characters_go map]. intros H.
  apply andb_prop in H as [Hc Hs]. rewrite (IH Hs).
  replace (is_continuation c) with false; [reflexivity|].
  unfold is_continuation. unfold Lib.code in Hc.
  apply Z.ltb_lt in Hc. symmetry. apply andb_false_intro1.
  apply Z.leb_gt. lia.
Qed.

Lemma char_len_ascii (s : string) :
  Lib.is_ascii_text s = true -> char_len s = str_len s.
Proof.
  intros H. unfold char_len, characters, str_len.
  rewrite (characters_go_ascii s H), length_map.
  f_equal. clear H. induction s as [|c s IH]; [reflexivity|].
  cbn [list_ascii_of_string List.length String.length]. now rewrite IH.
Qed.

Lemma b64encode_length (bs : list byte) :
  str_len (Lib.b64encode bs) = 4 * ((Z.of_nat (List.length bs) + 2) / 3).
Proof.
  assert (H : forall n bs, (List.length bs <= n)%nat ->
                           str_len (Lib.b64encode bs)
                           = 4 * ((Z.of_nat (List.length bs) + 2) / 3)).
  { clear bs. induction n as [|n IH]; intros bs Hn.
    - destruct bs; [reflexivity | cbn in Hn; lia].
    - destruct bs as [|a [|b [|c t]]]; try reflexivity.
      cbn [Lib.b64encode]. rewrite !str_len_cons, IH by (cbn in Hn; lia).
      cbn [List.length]. Z.div_mod_to_equations. lia. }
  now apply (H (List.length bs)).
Qed.

Lemma prefix_split (x s : string) :
  String.prefix x s = true -> exists post, s = x ++ post.
Proof.
  revert s. induction x as [|c x IH]; intros s H.
  - now exists s.
  - destruct s as [|c' s]; [discriminate|]. cbn in H.
    destruct (ascii_dec c c') as [<-|]; [|discriminate].
    destruct (IH s H) as (post & ->). now exists post.
Qed.

Lemma contains_embeds (x s : string) :
  str_contains x s = true <-> Spec.embeds x s.
Proof.
  split; [|apply embeds_contains].
  induction s as [|c s IH]; rewrite str_contains_unfold.
  - destruct (String.prefix x "") eqn:E; [|discriminate]. intros _.
    destruct (prefix_split _ _ E) as (post & H). now exists "", post.
  - destruct (String.prefix x (String c s)) eqn:E.
    + intros _. destruct (prefix_split _ _ E) as (post & H).
      now exists "", post.
    + intros H. apply (embeds_cons x c s). now apply IH.
Qed.

Section ImageDownload.

Variables (L : Library) (W : Azure.Web).

(** X18.  The request for an image carries the access token exactly when
    the text [visualstudio.com] or the text [azure.com] occurs in the URL,
    wherever it occurs: the URL asked for is then the URL of the image
    followed by [&download=true&api-version=7.1], and the only header is
    the authorization.  When the token cannot be had, no request is made
    and no image is returned.  Any other URL is asked for as it is, with
    the user agent as the only header and without the token. *)
Theorem image_request_rule (url : string) (b64encode : list byte -> string) :
  (Spec.embeds "visualstudio.com" url \/ Spec.embeds "azure.com" url ->
   (forall token,
      W.(Azure.access_token) = Return token ->
      Azure.image_request L W (PStr url)
      = Return (PStr (url ++ "&download=true&api-version=7.1"),
                [("Authorization", "Bearer " ++ token)]))
   /\ (forall e,
         W.(Azure.access_token) = Raise e ->
         Azure.fetch_image L W b64encode (PStr url) = None))
  /\ (~ Spec.embeds "visualstudio.com" url -> ~ Spec.embeds "azure.com" url ->
      Azure.image_request L W (PStr url)
      = Return (PStr url, [("User-Agent", "TaskGenie/1.0")])).
Proof.
  unfold Azure.fetch_image, Azure.image_request. cbn [contains rbind py_str].
  split.
  - intros H.
    assert (Hc : (if str_contains "visualstudio.com" url then Return true
                  else Return (str_contains "azure.com" url))
                 = Return true).
    { destruct H as [H | H]; apply contains_embeds in H; rewrite H;
        [reflexivity | now destruct (str_contains "visualstudio.com" url)]. }
    rewrite Hc. cbn [rbind].
    split; [intros token -> | intros e ->]; reflexivity.
  - intros H1 H2.
    destruct (str_contains "visualstudio.com" url) eqn:E1;
      [now apply contains_embeds in E1|].
    destruct (str_contains "azure.com" url) eqn:E2;
      [now apply contains_embeds in E2|].
    reflexivity.
Qed.

End ImageDownload.

(** A picture on another host whose name ends with [azure.com.png]: the
    token goes with the request. *)
Lemma image_request_rule_witness :
  Azure.image_request Worked.python
    {| Azure.secrets_client := Return tt;
       Azure.access_token := Return "secret";
       Azure.http_get := fun _ _ => Return [] |}
    (PStr "https://example.org/azure.com.png")
  = Return (PStr "https://example.org/azure.com.png&download=true&api-version=7.1",
            [("Authorization", "Bearer secret")]).
Proof.
  apply (proj1 (image_request_rule Worked.python
                  {| Azure.secrets_client := Return tt;
                     Azure.access_token := Return "secret";
                     Azure.http_get := fun _ _ => Return [] |}
                  "https://example.org/azure.com.png" Lib.b64encode)).
  - right. now exists "https://example.org/", ".png".
  - reflexivity.
Defined.

Lemma b64encode_not_empty (bs : list byte) :
  bs <> [] -> str_eqb (Lib.b64encode bs) "" = false.
Proof.
  intros H. destruct bs as [|a [|b [|c t]]]; [contradiction| | |];
    reflexivity.
Qed.

(** X19.  An image that the tracking client downloads reaches the model
    byte for byte.  When the client can be made, the download answers
    with content that is not empty, and its base64 text is within the
    size limit, the content builder adds one image block that holds
    exactly the bytes downloaded, with the format read off them.  When the
    client cannot be made, for want of the organization setting or of the
    secret store, the image is skipped and the content is unchanged. *)
Theorem fetched_image_reaches_model (L : Library) (C : Clients)
    (environ : string -> option string) (W : Azure.Web)
    (self : BedrockService) (content : list block) (image : dict)
    (log : list call) :
  (forall s, L.(b64decode) s = Lib.b64decode s) ->
  let clients := Azure.clients C environ L W Lib.b64encode in
  let url := dict_get image "url" (PStr "") in
  (forall request_url headers bytes,
     Azure.init environ W = Return tt ->
     Azure.image_request L W url = Return (request_url, headers) ->
     W.(Azure.http_get) request_url headers = Return bytes ->
     bytes <> [] ->
     _is_image_size_valid self (Lib.b64encode bytes) = true ->
     process_image L clients self content (PDict image) log
     = (Return (content ++ [ImageBlock (_detect_image_format bytes) bytes])%list,
        (log ++ [CallFetchImage url])%list))
  /\ (forall e,
        Azure.init environ W = Raise e ->
        process_image L clients self content (PDict image) log
        = (Return content, (log ++ [CallFetchImage url])%list)).
Proof.
  intros HL clients url. split.
  - intros request_url headers bytes Hinit Hreq Hget Hne Hsize.
    unfold process_image, try_except, Effects.bind, perform, lift, ret.
    fold url. unfold clients, Azure.clients. cbn [Effects.fetch_image].
    unfold Azure.new_service_fetch_image, Azure.fetch_image.
    rewrite Hinit, Hreq. cbn [rbind fst snd]. rewrite Hget. cbn [rbind].
    rewrite (b64encode_not_empty _ Hne), Hsize. cbn [negb andb].
    now rewrite HL, b64decode_b64encode.
  - intros e Hinit.
    unfold process_image, try_except, Effects.bind, perform, lift, ret.
    fold url. unfold clients, Azure.clients. cbn [Effects.fetch_image].
    unfold Azure.new_service_fetch_image. now rewrite Hinit.
Qed.

(** A PNG of eight bytes attached to a work item of the tracking system,
    and the same image without the organization setting. *)
Lemma fetched_image_reaches_model_witness :
  let web :=
    {| Azure.secrets_client := Return tt;
       Azure.access_token := Return "secret";
       Azure.http_get := fun _ _ =>
         Return [x89; x50; x4e; x47; x0d; x0a; x1a; x0a] |} in
  let image :=
    [("url", PStr "https://dev.azure.com/org/_apis/wit/attachments/1?fileName=a.png")] in
  process_image Worked.python
    (Azure.clients (Worked.clients PNone)
       (fun name => if str_eqb name "AZURE_DEVOPS_ORGANIZATION"
                    then Some "org" else None)
       Worked.python web Lib.b64encode)
    Worked.service [TextBlock "See the picture"] (PDict image) []
  = (Return [TextBlock "See the picture";
             ImageBlock "png" [x89; x50; x4e; x47; x0d; x0a; x1a; x0a]],
     [CallFetchImage
        (PStr "https://dev.azure.com/org/_apis/wit/attachments/1?fileName=a.png")])
  /\ process_image Worked.python
       (Azure.clients (Worked.clients PNone) (fun _ => None) Worked.python web
          Lib.b64encode)
       Worked.service [TextBlock "See the picture"] (PDict image) []
     = (Return [TextBlock "See the picture"],
        [CallFetchImage
           (PStr "https://dev.azure.com/org/_apis/wit/attachments/1?fileName=a.png")]).
Proof.
  intros web image. split.
  - rewrite (proj1 (fetched_image_reaches_model Worked.python
                      (Worked.clients PNone)
                      (fun name => if str_eqb name "AZURE_DEVOPS_ORGANIZATION"
                                   then Some "org" else None)
                      web Worked.service [TextBlock "See the picture"] image []
                      (fun s => eq_refl))
               (PStr "https://dev.azure.com/org/_apis/wit/attachments/1?fileName=a.png&download=true&api-version=7.1")
               [("Authorization", "Bearer secret")]
               [x89; x50; x4e; x47; x0d; x0a; x1a; x0a]).
    + reflexivity.
    + reflexivity.
    + vm_compute. reflexivity.
    + reflexivity.
    + discriminate.
    + vm_compute. reflexivity.
  - rewrite (proj2 (fetched_image_reaches_model Worked.python
                      (Worked.clients PNone) (fun _ => None) web Worked.service
                      [TextBlock "See the picture"] image []
                      (fun s => eq_refl))
               (ValueError "AZURE_DEVOPS_ORGANIZATION environment variable is required")).
    + reflexivity.
    + reflexivity.
Defined.

(** X20.  The size of an image is measured on its base64 text, padding
    included: an image of [n] bytes is within a limit of [m] megabytes
    exactly when [n] rounded up to a multiple of 3 is at most [m] times
    1048576.  With the limit of 5 megabytes of the tools, an image is
    accepted exactly when it has at most 5242878 bytes: one of 5242880
    bytes, 5 megabytes to the byte, is refused. *)
Theorem image_size_limit_in_bytes (self : BedrockService) (bytes : list byte) :
  let n := Z.of_nat (List.length bytes) in
  (_is_image_size_valid self (Lib.b64encode bytes) = true
   <-> 3 * ((n + 2) / 3) <= self.(max_image_size) * 1048576)
  /\ (self.(max_image_size) = 5 ->
      (_is_image_size_valid self (Lib.b64encode bytes) = true
       <-> n <= 5242878)).
Proof.
  intros n.
  assert (H : _is_image_size_valid self (Lib.b64encode bytes) = true
              <-> 3 * ((n + 2) / 3) <= self.(max_image_size) * 1048576).
  { unfold _is_image_size_valid.
    rewrite (char_len_ascii _ (b64encode_ascii bytes)), b64encode_length.
    fold n.
    rewrite Bool.negb_true_iff, Z.ltb_ge. lia. }
  split; [exact H|]. intros H5. rewrite H, H5.
  Z.div_mod_to_equations. lia.
Qed.

(** ** Images that are not objects *)

Lemma process_images_app (L : Library) (C : Clients) (self : BedrockService)
    (l1 l2 : list pyval) (content : list block) (log : list call) :
  process_images L C self content (l1 ++ l2)%list log
  = Effects.bind (process_images L C self content l1)
      (fun content' => process_images L C self content' l2) log.
Proof.
  revert content log. induction l1 as [|x l1 IH]; intros content log.
  - reflexivity.
  - cbn [app process_images]. unfold Effects.bind.
    destruct (process_image L C self content x log) as [[e|c] log1];
      [reflexivity|].
    rewrite IH. reflexivity.
Qed.

Lemma firstn_past {A} (n : nat) (l1 : list A) (x : A) (l2 : list A) :
  (List.length l1 < n)%nat ->
  firstn n (l1 ++ x :: l2)
  = (l1 ++ x :: firstn (n - List.length l1 - 1) l2)%list.
Proof.
  intros H. rewrite firstn_app.
  rewrite firstn_all2 by lia.
  destruct (n - List.length l1)%nat as [|m] eqn:E; [lia|].
  cbn [firstn]. now replace (S m - 1)%nat with m by lia.
Qed.

(** X21.  An entry of the images that is not an object stops the content
    builder when it is among the first [max_images] entries: after the
    images before it have been fetched, the builder raises the
    [AttributeError] of the entry and returns no content, the text
    included.  An entry beyond the first [max_images] is never looked
    at. *)
Theorem malformed_image_aborts_content (L : Library) (C : Clients)
    (self : BedrockService) (work_item : dict) (user_prompt : string)
    (before after : list pyval) (bad : pyval) (log : list call) :
  dict_get work_item "images" (PList []) = PList (before ++ bad :: after) ->
  Forall Spec.is_dict before -> ~ Spec.is_dict bad ->
  (Z.of_nat (List.length before) < self.(max_images) ->
   _build_model_content L C self work_item user_prompt log
   = (Raise (AttributeError
               ("'" ++ type_name bad ++ "' object has no attribute 'get'")),
      (log ++ map Spec.fetch_of before)%list))
  /\ (0 <= self.(max_images) <= Z.of_nat (List.length before) ->
      let considered := firstn (Z.to_nat self.(max_images)) before in
      _build_model_content L C self work_item user_prompt log
      = (Return (TextBlock user_prompt
                 :: Spec.accepted_blocks L C self considered),
         (log ++ map Spec.fetch_of considered)%list)).
Proof.
  intros Himages Hbefore Hbad.
  assert (Htruthy : truthy (PList (before ++ bad :: after)) = true)
    by now destruct before.
  unfold _build_model_content. rewrite Himages, Htruthy. cbn [negb].
  unfold images_upto, list_upto, clamp, Effects.bind at 1, lift.
  rewrite length_app. cbn [List.length].
  split.
  - intros Hlt.
    destruct (Z.ltb_spec self.(max_images) 0); [lia|].
    rewrite firstn_past by lia.
    rewrite process_images_app. unfold Effects.bind.
    rewrite (process_images_spec L C self before Hbefore).
    cbn [process_images]. unfold Effects.bind.
    destruct bad; try reflexivity.
    exfalso. apply Hbad. now eexists.
  - intros Hle.
    set (considered := firstn (Z.to_nat self.(max_images)) before).
    destruct (Z.ltb_spec self.(max_images) 0); [lia|].
    replace (Z.to_nat (Z.max 0 (Z.min (Z.of_nat (List.length before
                                                 + S (List.length after)))
                                  self.(max_images))))
      with (Z.to_nat self.(max_images)) by lia.
    rewrite firstn_app.
    replace (Z.to_nat self.(max_images) - List.length before)%nat
      with 0%nat by lia.
    cbn [firstn]. rewrite app_nil_r. fold considered. unfold Effects.bind.
    rewrite (process_images_spec L C self considered
               (forall_firstn _ _ _ Hbefore)).
    reflexivity.
Qed.

(** A list of two screenshots with a bare URL between them. *)
Lemma malformed_image_aborts_content_witness :
  run (_build_model_content Worked.python (Worked.clients PNone)
         Worked.service
         [("images",
           PList [PDict [("url", PStr "https://example.org/1.jpg")];
                  PStr "https://example.org/2.jpg";
                  PDict [("url", PStr "https://example.org/3.jpg")]])]
         "See the screenshots")
  = (Raise (AttributeError "'str' object has no attribute 'get'"),
     [CallFetchImage (PStr "https://example.org/1.jpg")]).
Proof.
  unfold run.
  refine (proj1 (malformed_image_aborts_content Worked.python
                   (Worked.clients PNone) Worked.service
                   [("images",
                     PList [PDict [("url", PStr "https://example.org/1.jpg")];
                            PStr "https://example.org/2.jpg";
                            PDict [("url", PStr "https://example.org/3.jpg")]])]
                   "See the screenshots"
                   [PDict [("url", PStr "https://example.org/1.jpg")]]
                   [PDict [("url", PStr "https://example.org/3.jpg")]]
                   (PStr "https://example.org/2.jpg") [] eq_refl _ _) _).
  - repeat constructor. now eexists.
  - intros [d H]. discriminate.
  - vm_compute. reflexivity.
Defined.

(** ** The calls of an operation *)

Section Calls.

Variables (L : Library) (C : Clients) (self : BedrockService).

Lemma process_images_calls (images : list pyval) :
  forall (content : list block) (log : list call) r log',
    process_images L C self content images log = (r, log') ->
    exists fetches,
      log' = (log ++ fetches)%list
      /\ Forall Spec.is_fetch fetches
      /\ (List.length fetches <= List.length images)%nat.
Proof.
  induction images as [|image rest IH]; intros content log r log' H.
  - cbn in H. injection H as _ <-. exists []. rewrite app_nil_r.
    repeat split; [constructor | cbn; lia].
  - cbn [process_images] in H. unfold Effects.bind in H.
    destruct image;
      try (cbn in H; injection H as _ <-; exists []; rewrite app_nil_r;
           repeat split; [constructor | cbn; lia]).
    rewrite process_image_spec in H.
    apply IH in H as (fetches & -> & Hf & Hlen).
    exists (Spec.fetch_of (PDict d) :: fetches).
    rewrite <- app_assoc. repeat split.
    + constructor; [now eexists | assumption].
    + cbn [List.length]. lia.
Qed.

Lemma chars_not_dict (s : string) : Forall (fun v => ~ Spec.is_dict v) (chars s).
Proof.
  unfold chars. apply Forall_forall. intros v H.
  apply in_map_iff in H as (x & <- & _). intros [d E]. discriminate.
Qed.

Lemma build_model_content_calls (work_item : dict) (user_prompt : string)
    (log : list call) r log' :
  _build_model_content L C self work_item user_prompt log = (r, log') ->
  exists fetches,
    log' = (log ++ fetches)%list
    /\ Forall Spec.is_fetch fetches
    /\ (0 <= self.(max_images) ->
        Z.of_nat (List.length fetches) <= self.(max_images)).
Proof.
  unfold _build_model_content. intros H.
  assert (Hnone : forall x, (x, log) = (r, log') ->
            exists fetches,
              log' = (log ++ fetches)%list
              /\ Forall Spec.is_fetch fetches
              /\ (0 <= self.(max_images) ->
                  Z.of_nat (List.length fetches) <= self.(max_images))).
  { intros x E. injection E as _ <-. exists []. rewrite app_nil_r.
    repeat split; [constructor | cbn; lia]. }
  destruct (negb _); [now apply (Hnone _ H)|].
  unfold Effects.bind, lift, images_upto in H.
  destruct (dict_get work_item "images" (PList [])) as [| | | |s|l|d];
    try (now apply (Hnone _ H)).
  - destruct (chars_not_dict (chars_upto s self.(max_images)))
      as [|v rest Hv _]; [now apply (Hnone _ H)|].
    cbn [process_images] in H. unfold Effects.bind in H.
    destruct v; try (now apply (Hnone _ H)).
    exfalso. apply Hv. now eexists.
  - apply process_images_calls in H as (fetches & -> & Hf & Hlen).
    exists fetches. repeat split; try assumption.
    intros Hmax. unfold list_upto, clamp in Hlen.
    rewrite length_firstn in Hlen.
    destruct (Z.ltb_spec self.(max_images) 0); lia.
Qed.

Lemma bind_lift {A B} (m : result A) (k : A -> io B) (log : list call) :
  Effects.bind (lift m) k log
  = match m with
    | Raise e => (Raise e, log)
    | Return a => k a log
    end.
Proof. unfold Effects.bind, lift. now destruct m. Qed.

Lemma invoke_evaluation_calls (work_item : dict)
    (docs : list BedrockKnowledgeDocument) (log : list call) r log' :
  _invoke_model_for_work_item_evaluation L C self work_item docs log
  = (r, log') ->
  exists fetches tail,
    log' = (log ++ fetches ++ tail)%list
    /\ Forall Spec.is_fetch fetches
    /\ (0 <= self.(max_images) ->
        Z.of_nat (List.length fetches) <= self.(max_images))
    /\ (tail = []
        \/ exists content,
             tail = [CallConverse self.(model_id) content
                       [("maxTokens", PInt 2048); ("temperature", PFloat 0.5)]
                       (_build_work_item_evaluation_system_prompt L work_item)])
    /\ (forall x, r = Return x -> tail <> []).
Proof.
  unfold _invoke_model_for_work_item_evaluation. rewrite bind_lift.
  intros H.
  assert (Hnone : forall e fetches,
            Forall Spec.is_fetch fetches ->
            (0 <= self.(max_images) ->
             Z.of_nat (List.length fetches) <= self.(max_images)) ->
            (Raise e, (log ++ fetches)%list) = (r, log') ->
            exists fetches tail,
              log' = (log ++ fetches ++ tail)%list
              /\ Forall Spec.is_fetch fetches
              /\ (0 <= self.(max_images) ->
                  Z.of_nat (List.length fetches) <= self.(max_images))
              /\ (tail = []
                  \/ exists content,
                       tail = [CallConverse self.(model_id) content
                                 [("maxTokens", PInt 2048);
                                  ("temperature", PFloat 0.5)]
                                 (_build_work_item_evaluation_system_prompt L
                                    work_item)])
              /\ (forall x, r = Return x -> tail <> [])).
  { intros e fetches Hf Hlen E. injection E as <- <-.
    exists fetches, []. rewrite app_nil_r.
    repeat split; try assumption; [now left | discriminate]. }
  destruct (_build_work_item_evaluation_user_prompt L work_item docs)
    as [e|user_prompt].
  { apply (Hnone e []); [constructor | cbn; lia | now rewrite app_nil_r]. }
  unfold Effects.bind at 1 in H.
  destruct (_build_model_content L C self work_item user_prompt log)
    as [[e|content] log1] eqn:Hc;
    apply build_model_content_calls in Hc as (fetches & -> & Hf & Hlen).
  { now apply (Hnone e fetches). }
  rewrite bind_lift in H.
  destruct (dict_item work_item "workItemType") as [e|t].
  { now apply (Hnone e fetches). }
  unfold try_except, Effects.bind, perform, lift, raise in H.
  exists fetches.
  eexists [CallConverse _ content _ _].
  repeat split; try assumption.
  - rewrite <- app_assoc in H.
    destruct (converse C _ _ _ _) as [e|response];
      [now injection H as _ <-|].
    destruct (response_log_arguments response); [now injection H as _ <-|].
    destruct (_parse_work_item_evaluation L response docs);
      now injection H as _ <-.
  - right. now eexists.
  - discriminate.
Qed.

(** X22.  An evaluation calls its collaborators in a fixed order: nothing
    at all when a required field of the work item is absent; otherwise
    one search of the knowledge base, with the filter of the type of the
    work item, then requests for images only, then at most one call of the
    model.  The model is called with the configured model, at most 2048
    output tokens and the temperature 0.5, whatever the work item; the
    config store is never asked; and a verdict is only returned after the
    model has been called once. *)
Theorem evaluation_calls (work_item : dict) (log : list call)
    (r : result BedrockWorkItemEvaluationResponse) (log' : list call) :
  evaluate_work_item L C self work_item log = (r, log') ->
  (log' = log /\ exists e, r = Raise e)
  \/ exists query work_item_type fetches tail,
       log' = (log
               ++ CallRetrieve self.(knowledge_base_id) query
                    (retrieval_configuration self
                       (Some (_build_work_item_evaluation_filters
                                work_item_type)))
                  :: fetches ++ tail)%list
       /\ Forall Spec.is_fetch fetches
       /\ (0 <= self.(max_images) ->
           Z.of_nat (List.length fetches) <= self.(max_images))
       /\ (tail = []
           \/ exists content,
                tail = [CallConverse self.(model_id) content
                          [("maxTokens", PInt 2048);
                           ("temperature", PFloat 0.5)]
                          (_build_work_item_evaluation_system_prompt L
                             work_item)])
       /\ (forall x, r = Return x -> tail <> []).
Proof.
  unfold evaluate_work_item. rewrite bind_lift. intros H.
  destruct (dict_item work_item "workItemType") as [e|t];
    [left; injection H as <- <-; split; [reflexivity | now eexists]|].
  rewrite bind_lift in H.
  destruct (dict_item work_item "workItemId") as [e|id];
    [left; injection H as <- <-; split; [reflexivity | now eexists]|].
  rewrite bind_lift in H.
  destruct (_build_work_item_evaluation_knowledge_query L work_item)
    as [e|query];
    [left; injection H as <- <-; split; [reflexivity | now eexists]|].
  rewrite bind_lift in H. cbn [dict_item] in H.
  unfold Effects.bind at 1 in H.
  unfold retrieve_knowledge_context at 1, try_except, Effects.bind at 1,
    perform, ret in H.
  right. exists query, t.
  destruct (retrieve C _ _ _) as [e|response];
    apply invoke_evaluation_calls in H
      as (fetches & tail & -> & Hf & Hlen & Htail & Hr);
    exists fetches, tail; rewrite <- app_assoc;
    repeat split; assumption.
Qed.

Lemma generation_system_prompt_calls (work_item : dict)
    (params : BedrockInferenceParams) (log : list call) :
  exists system_prompt,
    _build_work_item_generation_system_prompt L C self work_item params log
    = (Return system_prompt,
       (log ++ if opt_truthy params.(prompt)
                  || str_eqb self.(config_table_name) ""
               then []
               else [CallGetItem self.(config_table_name)
                       (Spec.prompt_key L work_item)])%list).
Proof.
  destruct (generation_system_prompt_shape L C self work_item)
    as (default & ->).
  unfold Effects.bind, _resolve_prompt.
  destruct (opt_truthy params.(prompt)); cbn [orb].
  - rewrite app_nil_r. now eexists.
  - unfold Effects.bind. rewrite get_custom_prompt_result.
    destruct (str_eqb self.(config_table_name) "").
    + rewrite app_nil_r. now eexists.
    + destruct (opt_truthy _); now eexists.
Qed.

(** X23.  A generation calls its collaborators in a fixed order: nothing
    at all when a required field of the work item is absent; otherwise
    one search of the knowledge base with the filter of the work item;
    then one request to the config store, unless the parameters hold a
    prompt or no table is configured; then requests for images only; then
    at most one call of the model, with the configured model and the
    inference configuration of the parameters.  Work items are only
    returned after the model has been called once. *)
Theorem generation_calls (work_item : dict) (existing : list pyval)
    (params : option BedrockInferenceParams) (log : list call)
    (r : result BedrockWorkItemGenerationResponse) (log' : list call) :
  generate_work_items L C self work_item existing params log = (r, log') ->
  let given := match params with Some p => p | None => default_params end in
  (log' = log /\ exists e, r = Raise e)
  \/ exists query fetches tail,
       log' = (log
               ++ CallRetrieve self.(knowledge_base_id) query
                    (retrieval_configuration self
                       (Some (_build_work_item_breakdown_filters work_item)))
                  :: (if opt_truthy given.(prompt)
                         || str_eqb self.(config_table_name) ""
                      then []
                      else [CallGetItem self.(config_table_name)
                              (Spec.prompt_key L work_item)])
                  ++ fetches ++ tail)%list
       /\ Forall Spec.is_fetch fetches
       /\ (0 <= self.(max_images) ->
           Z.of_nat (List.length fetches) <= self.(max_images))
       /\ (tail = []
           \/ exists content system_prompt,
                tail = [CallConverse self.(model_id) content
                          (generation_inference_config given) system_prompt])
       /\ (forall x, r = Return x -> tail <> []).
Proof.
  intros H given. unfold generate_work_items in H. fold given in H.
  rewrite bind_lift in H.
  destruct (dict_item work_item "workItemType") as [e|t];
    [left; injection H as <- <-; split; [reflexivity | now eexists]|].
  rewrite bind_lift in H.
  destruct (dict_item work_item "workItemId") as [e|id];
    [left; injection H as <- <-; split; [reflexivity | now eexists]|].
  rewrite bind_lift in H.
  destruct (_build_work_item_breakdown_knowledge_query L work_item)
    as [e|query];
    [left; injection H as <- <-; split; [reflexivity | now eexists]|].
  right. exists query.
  unfold Effects.bind at 1 in H.
  assert (Hr : exists docs,
             retrieve_knowledge_context C self query
               (Some (_build_work_item_breakdown_filters work_item)) log
             = (Return docs,
                (log ++ [CallRetrieve self.(knowledge_base_id) query
                           (retrieval_configuration self
                              (Some (_build_work_item_breakdown_filters
                                       work_item)))])%list)).
  { unfold retrieve_knowledge_context, try_except, Effects.bind, perform, ret.
    destruct (retrieve C _ _ _); now eexists. }
  destruct Hr as (docs & Hr). rewrite Hr in H. clear Hr.
  unfold Effects.bind at 1 in H.
  unfold _invoke_model_for_work_item_generation in H.
  unfold Effects.bind at 1 in H.
  destruct (generation_system_prompt_calls work_item given
              (log ++ [CallRetrieve self.(knowledge_base_id) query
                         (retrieval_configuration self
                            (Some (_build_work_item_breakdown_filters
                                     work_item)))])%list)
    as (system_prompt & Hs).
  rewrite Hs in H. clear Hs.
  set (store := if opt_truthy given.(prompt)
                   || str_eqb self.(config_table_name) ""
                then []
                else [CallGetItem self.(config_table_name)
                        (Spec.prompt_key L work_item)]) in *.
  rewrite bind_lift in H.
  assert (Hnone : forall e fetches,
            Forall Spec.is_fetch fetches ->
            (0 <= self.(max_images) ->
             Z.of_nat (List.length fetches) <= self.(max_images)) ->
            (@Raise BedrockWorkItemGenerationResponse e,
             (((log ++ [CallRetrieve self.(knowledge_base_id) query
                          (retrieval_configuration self
                             (Some (_build_work_item_breakdown_filters
                                      work_item)))])
               ++ store) ++ fetches)%list) = (r, log') ->
            exists fetches tail,
              log' = (log
                      ++ CallRetrieve self.(knowledge_base_id) query
                           (retrieval_configuration self
                              (Some (_build_work_item_breakdown_filters
                                       work_item)))
                         :: store ++ fetches ++ tail)%list
              /\ Forall Spec.is_fetch fetches
              /\ (0 <= self.(max_images) ->
                  Z.of_nat (List.length fetches) <= self.(max_images))
              /\ (tail = []
                  \/ exists content system_prompt,
                       tail = [CallConverse self.(model_id) content
                                 (generation_inference_config given)
                                 system_prompt])
              /\ (forall x, r = Return x -> tail <> [])).
  { intros e fetches Hf Hlen E. injection E as <- <-.
    exists fetches, []. rewrite app_nil_r, <- !app_assoc.
    repeat split; try assumption; [now left | discriminate]. }
  match type of H with
  | (let (_, _) := match ?m with _ => _ end in _) = _ =>
      destruct m as [e|user_prompt]
  end.
  { apply (Hnone e []); [constructor | cbn; lia | now rewrite app_nil_r]. }
  unfold Effects.bind at 1 in H.
  destruct (_build_model_content L C self work_item user_prompt _)
    as [[e|content] log1] eqn:Hc;
    apply build_model_content_calls in Hc as (fetches & -> & Hf & Hlen).
  { now apply (Hnone e fetches). }
  exists fetches. eexists [CallConverse _ content _ system_prompt].
  unfold try_except, Effects.bind, perform, lift, raise, ret in H.
  repeat split; try assumption.
  - rewrite <- !app_assoc in H. cbn [app] in H.
    destruct (converse C _ _ _ _) as [e|response];
      [now injection H as _ <-|].
    destruct (response_log_arguments response); [now injection H as _ <-|].
    destruct (_parse_work_items L response); now injection H as _ <-.
  - right. now eexists _, _.
  - discriminate.
Qed.

End Calls.

(** The evaluation of the user story: one search, no image, one call of
    the model. *)
Lemma evaluation_calls_witness :
  snd (run (evaluate_work_item Worked.python
              (Worked.clients
                 (Worked.response_with (Worked.q "{'pass': true}") 20))
              Worked.service Worked.user_story))
  = [CallRetrieve "kb"
       "Find relevant information about the User Story process and guidelines that would help evaluate the following User Story is well-defined:
    - Title: Export the report
    - Description: As an analyst I want to export the report
    - Acceptance Criteria: 
    - Acceptance Criteria: A CSV file is downloaded"
       (retrieval_configuration Worked.service
          (Some (_build_work_item_evaluation_filters (PStr "User Story"))));
     CallConverse "model"
       [TextBlock
          match _build_work_item_evaluation_user_prompt Worked.python
                  Worked.user_story [] with
          | Return user_prompt => user_prompt
          | Raise _ => ""
          end]
       [("maxTokens", PInt 2048); ("temperature", PFloat 0.5)]
       (_build_work_item_evaluation_system_prompt Worked.python
          Worked.user_story)]
  /\ exists query work_item_type fetches tail,
       snd (run (evaluate_work_item Worked.python
                   (Worked.clients
                      (Worked.response_with (Worked.q "{'pass': true}") 20))
                   Worked.service Worked.user_story))
       = ([] ++ CallRetrieve "kb" query
                  (retrieval_configuration Worked.service
                     (Some (_build_work_item_evaluation_filters
                              work_item_type)))
                :: fetches ++ tail)%list
       /\ tail <> [].
Proof.
  split; [vm_compute; reflexivity|].
  destruct (evaluation_calls Worked.python
              (Worked.clients
                 (Worked.response_with (Worked.q "{'pass': true}") 20))
              Worked.service Worked.user_story []
              (Return {| passed := PBool true; comment := PNone;
                         sources := [] |})
              (snd (run (evaluate_work_item Worked.python
                           (Worked.clients
                              (Worked.response_with
                                 (Worked.q "{'pass': true}") 20))
                           Worked.service Worked.user_story))))
    as [[_ [e He]] | (query & t & fetches & tail & Hlog & _ & _ & _ & Hr)].
  - vm_compute. reflexivity.
  - discriminate.
  - exists query, t, fetches, tail. split; [exact Hlog|].
    now apply (Hr _ eq_refl).
Defined.

(** The generation for the user story: one search, one request to the
    config store, no image, one call of the model. *)
Lemma generation_calls_witness :
  exists query fetches tail,
    snd (run (generate_work_items Worked.python
                (Worked.clients Worked.short_reply) Worked.service
                Worked.user_story [] None))
    = ([] ++ CallRetrieve "kb" query
               (retrieval_configuration Worked.service
                  (Some (_build_work_item_breakdown_filters
                           Worked.user_story)))
             :: [CallGetItem "config" "User Story#Reports##"]
             ++ fetches ++ tail)%list
    /\ tail <> [].
Proof.
  destruct (generation_calls Worked.python
              (Worked.clients Worked.short_reply) Worked.service
              Worked.user_story [] None []
              (Return {| work_items := Worked.one_task; documents := [] |})
              (snd (run (generate_work_items Worked.python
                           (Worked.clients Worked.short_reply) Worked.service
                           Worked.user_story [] None))))
    as [[_ [e He]] | (query & fetches & tail & Hlog & _ & _ & _ & Hr)].
  - vm_compute. reflexivity.
  - discriminate.
  - exists query, fetches, tail. split; [exact Hlog|].
    now apply (Hr _ eq_refl).
Defined.

(** ** The drafts of a refinement *)

Lemma has_char_app (c : ascii) (a b : string) :
  Spec.has_char c (a ++ b) <-> Spec.has_char c a \/ Spec.has_char c b.
Proof.
  unfold Spec.has_char. induction a as [|x a IH]; cbn.
  - tauto.
  - rewrite IH. tauto.
Qed.

Lemma contains_char (c : ascii) (s : string) :
  str_contains (String c "") s = true <-> Spec.has_char c s.
Proof.
  induction s as [|b s IH]; rewrite str_contains_unfold, prefix_single.
  - split; [discriminate | intros []].
  - rewrite has_char_cons. destruct (Ascii.eqb_spec c b) as [->|Hne].
    + split; auto.
    + rewrite IH. split; [auto | intros [H | H]; congruence].
Qed.

Lemma strip_tags_go_subset (c : ascii) (s : string) :
  forall inside,
    Spec.has_char c (strip_tags_go inside s) -> Spec.has_char c s.
Proof.
  induction s as [|b s IH]; intros inside; cbn [strip_tags_go].
  - auto.
  - rewrite has_char_cons. destruct inside.
    + destruct (Ascii.eqb b ">"); intros H; right; now apply IH in H.
    + destruct (Ascii.eqb b "<" && str_contains ">" s).
      * intros H. right. now apply IH in H.
      * rewrite has_char_cons. intros [H | H]; [now left|].
        right. now apply IH in H.
Qed.

Lemma strip_tags_go_closed (s : string) :
  forall inside a c,
    strip_tags_go inside s = a ++ String "<" c -> ~ Spec.has_char ">" c.
Proof.
  induction s as [|b s IH]; intros inside a c; cbn [strip_tags_go].
  - destruct a; discriminate.
  - destruct inside.
    + destruct (Ascii.eqb b ">"); apply IH.
    + destruct (Ascii.eqb b "<" && str_contains ">" s) eqn:E; [apply IH|].
      destruct a as [|x a]; cbn [append]; intros H; injection H as -> H.
      * rewrite Ascii.eqb_refl in E. cbn [andb] in E.
        intros Hc. rewrite <- H in Hc.
        apply strip_tags_go_subset in Hc.
        apply contains_char in Hc. congruence.
      * now apply IH in H.
Qed.

Lemma strip_tags_plain (s : string) :
  ~ Spec.has_char "<" s -> strip_tags_go false s = s.
Proof.
  induction s as [|b s IH]; [reflexivity|].
  rewrite has_char_cons. intros H. cbn [strip_tags_go].
  destruct (Ascii.eqb_spec b "<") as [->|Hne]; [tauto|].
  cbn [andb]. rewrite IH by tauto. reflexivity.
Qed.

(** X24.  In the draft list of a refinement prompt, an item with a text as
    its description is shown by its number, counted from 1, its title, and
    the first 150 characters of the description without its tags,
    followed by three dots.  What is shown of the description has at most
    150 characters and holds no tag, and is the start of the description
    itself when that has no [<]. *)
Theorem draft_line_has_no_markup (L : Library) (i : Z) (item : pyval)
    (title : pyval) (description : string) :
  get item "title" (PStr "") = Return title ->
  get item "description" (PStr "") = Return (PStr description) ->
  let shown := Spec.first_chars 150 (strip_tags description) in
  draft_line L i item
  = Return (str_of_Z (i + 1) ++ ". " ++ py_str L title ++ nl
            ++ "   Description: " ++ shown ++ "...")
  /\ char_len shown = Z.min 150 (char_len (strip_tags description))
  /\ (exists rest, strip_tags description = shown ++ rest)
  /\ Spec.no_tag shown
  /\ (~ Spec.has_char "<" description ->
      shown = Spec.first_chars 150 description).
Proof.
  intros Ht Hd shown.
  destruct (first_chars_cut 150 (strip_tags description)) as (Hlen & rest & E).
  fold shown in Hlen, E.
  split; [|split; [|split; [|split]]].
  - unfold draft_line. rewrite Ht, Hd. cbn [rbind re_sub_tags].
    change 150 with (Z.of_nat 150). now rewrite chars_upto_first_chars.
  - exact Hlen.
  - now exists rest.
  - intros a b c H. rewrite H in E. unfold strip_tags in E.
    rewrite !append_assoc in E. cbn [append] in E.
    apply strip_tags_go_closed in E. apply E.
    rewrite has_char_app, has_char_cons. right. now left.
  - intros H. unfold shown, strip_tags. now rewrite strip_tags_plain.
Qed.

(** The draft of the export button, and a draft whose description is a
    paragraph of 600 characters, some of them accented: 150 of them are
    shown, without the tags around them. *)
Lemma draft_line_has_no_markup_witness :
  draft_line Worked.python 0
    (PDict [("title", PStr "1. Add the export button");
            ("description", PStr "<p>Add a button to the <b>report</b> page</p>")])
  = Return ("1. 1. Add the export button" ++ nl
            ++ "   Description: Add a button to the report page...")
  /\ draft_line Worked.python 1
       (PDict [("title", PStr "2. Translate the glossary");
               ("description", PStr ("<p>" ++ Worked.accented_text ++ "</p>"))])
     = Return ("2. 2. Translate the glossary" ++ nl
               ++ "   Description: "
               ++ String.concat ""
                    (repeat ("012345678" ++ Lib.utf8 233) 15)
               ++ "...").
Proof.
  split.
  - rewrite (proj1 (draft_line_has_no_markup Worked.python 0
                      (PDict [("title", PStr "1. Add the export button");
                              ("description",
                               PStr "<p>Add a button to the <b>report</b> page</p>")])
                      (PStr "1. Add the export button")
                      "<p>Add a button to the <b>report</b> page</p>"
                      eq_refl eq_refl)).
    vm_compute. reflexivity.
  - rewrite (proj1 (draft_line_has_no_markup Worked.python 1
                      (PDict [("title", PStr "2. Translate the glossary");
                              ("description",
                               PStr ("<p>" ++ Worked.accented_text ++ "</p>"))])
                      (PStr "2. Translate the glossary")
                      ("<p>" ++ Worked.accented_text ++ "</p>")
                      eq_refl eq_refl)).
    vm_compute. reflexivity.
Defined.

(** ** The images in the prompts *)

Lemma rmap_nth {A B} (f : A -> result B) (l : list A) :
  forall (ys : list B) (i : nat) (x : A),
    rmap f l = Return ys -> nth_error l i = Some x ->
    exists y, f x = Return y /\ nth_error ys i = Some y.
Proof.
  induction l as [|a l IH]; intros ys i x H Hx.
  - now destruct i.
  - cbn [rmap] in H. destruct (f a) as [e|y0] eqn:Ea; [discriminate|].
    destruct (rmap f l) as [e|ys0]; [discriminate|]. injection H as <-.
    destruct i as [|i]; cbn in Hx |- *.
    + injection Hx as <-. now exists y0.
    + now apply (IH ys0 i x).
Qed.

Lemma enumerate_from_nth {A} (l : list A) :
  forall (j : Z) (i : nat) (x : A),
    nth_error l i = Some x ->
    nth_error (enumerate_from j l) i = Some (j + Z.of_nat i, x).
Proof.
  induction l as [|a l IH]; intros j i x H.
  - now destruct i.
  - destruct i as [|i]; cbn in H |- *.
    + injection H as <-. do 2 f_equal. lia.
    + rewrite (IH (j + 1) i x H). do 2 f_equal. lia.
Qed.

Lemma embeds_not_empty (x s : string) :
  Spec.embeds x s -> x <> "" -> s <> "".
Proof.
  intros (a & b & ->) Hx E. destruct a; [|discriminate].
  destruct x; [contradiction | discriminate].
Qed.

Lemma images_section_lists (L : Library) (work_item : dict)
    (images : list pyval) (section : string) (i : nat) (d : dict) :
  dict_get work_item "images" (PList []) = PList images ->
  images_section L work_item = Return section ->
  nth_error images i = Some (PDict d) ->
  Spec.embeds
    (str_of_Z (Z.of_nat i + 1) ++ ". " ++ py_str L (dict_get d "url" (PStr "")))
    (or_str section "None").
Proof.
  intros Himages Hs Hi. unfold images_section in Hs. rewrite Himages in Hs.
  destruct images as [|image rest] eqn:E; [now destruct i|].
  rewrite <- E in *. replace (truthy (PList images)) with true in Hs
    by now rewrite E.
  cbn [iter rbind] in Hs.
  destruct (rmap _ (enumerate images)) as [e|lines] eqn:Hl; [discriminate|].
  cbn [rbind] in Hs. injection Hs as <-.
  destruct (rmap_nth _ _ lines i (0 + Z.of_nat i, PDict d) Hl
              (enumerate_from_nth images 0 i _ Hi)) as (line & Hline & Hn).
  cbn [fst snd] in Hline. unfold image_line in Hline.
  cbn [get rbind] in Hline.
  match type of Hline with
  | rbind ?m _ = _ => destruct m as [e|suffix]; [discriminate|]
  end.
  cbn [rbind] in Hline. injection Hline as <-.
  change (0 + Z.of_nat i) with (Z.of_nat i) in Hn.
  apply nth_error_In in Hn.
  assert (Hemb : Spec.embeds
            (str_of_Z (Z.of_nat i + 1) ++ ". "
             ++ py_str L (dict_get d "url" (PStr "")))
            (join nl lines)).
  { apply (embeds_join nl) in Hn. destruct Hn as (a & b & Hn).
    exists a, (suffix ++ b). rewrite Hn.
    rewrite !append_assoc. cbn [append]. now rewrite ?append_assoc. }
  unfold or_str, str_eqb.
  destruct (String.eqb_spec (join nl lines) "") as [Hempty|]; [|assumption].
  exfalso. apply (embeds_not_empty _ _ Hemb); [|assumption].
  destruct (str_of_Z (Z.of_nat i + 1)); discriminate.
Qed.

Ltac find_images_section H :=
  repeat first
    [ exact H
    | apply embeds_app_l; exact H
    | apply embeds_app_r
    | apply embeds_cons ].

(** X25.  The user prompt of an evaluation and the user prompt of a
    generation list every image of the work item, with its number
    counted from 1 and its URL: the image at any position, also at a
    position beyond the maximum of images that are sent to the model. *)
Theorem prompts_list_every_image (L : Library) (work_item : dict)
    (existing : list pyval) (docs : list BedrockKnowledgeDocument)
    (images : list pyval) (i : nat) (d : dict) :
  dict_get work_item "images" (PList []) = PList images ->
  nth_error images i = Some (PDict d) ->
  let entry :=
    str_of_Z (Z.of_nat i + 1) ++ ". "
    ++ py_str L (dict_get d "url" (PStr "")) in
  (forall p,
     _build_work_item_evaluation_user_prompt L work_item docs = Return p ->
     Spec.embeds entry p)
  /\ (forall p,
        _build_work_item_generation_user_prompt L work_item existing docs
        = Return p ->
        Spec.embeds entry p).
Proof.
  intros Himages Hi entry. split; intros p.
  - unfold _build_work_item_evaluation_user_prompt.
    destruct (images_section L work_item) as [e|section] eqn:Hs;
      [discriminate|].
    cbn [rbind]. intros H. injection H as <-.
    pose proof (images_section_lists L work_item images section i d
                  Himages Hs Hi) as Hemb.
    find_images_section Hemb.
  - unfold _build_work_item_generation_user_prompt.
    destruct (images_section L work_item) as [e|section] eqn:Hs;
      [discriminate|].
    cbn [rbind].
    match goal with
    | |- rbind ?m _ = _ -> _ => destruct m as [e|children]; [discriminate|]
    end.
    cbn [rbind]. intros H. injection H as <-.
    pose proof (images_section_lists L work_item images section i d
                  Himages Hs Hi) as Hemb.
    find_images_section Hemb.
Qed.

(** The fifth screenshot of a user story, with a maximum of three. *)
Lemma prompts_list_every_image_witness :
  Worked.service.(max_images) = 3
  /\ exists p,
       _build_work_item_evaluation_user_prompt Worked.python
         Worked.story_with_images [] = Return p
       /\ Spec.embeds "5. https://example.org/5.jpg" p.
Proof.
  split; [reflexivity|].
  eexists. split; [vm_compute; reflexivity|].
  apply (proj1 (prompts_list_every_image Worked.python
                  Worked.story_with_images [] [] Worked.screenshots 4
                  [("url", PStr "https://example.org/5.jpg");
                   ("alt", PStr "screen 5")]
                  eq_refl eq_refl)).
  vm_compute. reflexivity.
Defined.

(** ** Worked cases *)

(** Two records, the second without a URI and a score: the evaluation
    cites both, the second by its position, and the generation returns
    the two documents. *)
Lemma results_cite_retrieved_documents_witness :
  (exists r log',
     run (evaluate_work_item Worked.python
            (Worked.stocked_clients
               (Worked.response_with (Worked.q "{'pass': true}") 20))
            Worked.service Worked.user_story) = (Return r, log')
     /\ r.(sources) = ["s3://kb/guide.md"; "Document 2"])
  /\ (exists r log',
        run (generate_work_items Worked.python
               (Worked.stocked_clients Worked.short_reply) Worked.service
               Worked.user_story [] None) = (Return r, log')
        /\ map source r.(documents) = ["s3://kb/guide.md"; "Document 2"]
        /\ map content_length r.(documents) = [400; 21]).
Proof.
  split.
  - assert (E : exists r log',
               run (evaluate_work_item Worked.python
                      (Worked.stocked_clients
                         (Worked.response_with (Worked.q "{'pass': true}") 20))
                      Worked.service Worked.user_story) = (Return r, log'))
      by (eexists _, _; vm_compute; reflexivity).
    destruct E as (r & log' & E). exists r, log'. split; [exact E|].
    destruct (proj1 (results_cite_retrieved_documents Worked.python
                       (Worked.stocked_clients
                          (Worked.response_with (Worked.q "{'pass': true}") 20))
                       Worked.service Worked.user_story [] log') r E)
      as (query & t & _ & _ & ->).
    vm_compute. reflexivity.
  - assert (E : exists r log',
               run (generate_work_items Worked.python
                      (Worked.stocked_clients Worked.short_reply)
                      Worked.service Worked.user_story [] None)
               = (Return r, log'))
      by (eexists _, _; vm_compute; reflexivity).
    destruct E as (r & log' & E). exists r, log'. split; [exact E|].
    destruct (proj2 (results_cite_retrieved_documents Worked.python
                       (Worked.stocked_clients Worked.short_reply)
                       Worked.service Worked.user_story [] log') [] None r E)
      as (query & _ & ->).
    split; vm_compute; reflexivity.
Defined.

